(** * cordova-paramedic: the run orchestrator of [lib/paramedic.js]

    A shallow embedding of [ParamedicRunner] and of [exports.run].  The
    JavaScript of the module is sequential code over promises of the Q
    library: every stage is modelled as a computation in a small monad that
    threads the runner object, a logical clock (milliseconds) and the trace
    of the calls the module makes on its collaborators, and that ends in a
    value, in a thrown value / rejection, or never settles.

    The collaborators that are not part of the module (the event server, the
    build tool, the file system, the device cloud) are a [World]: a record
    of what each of them answers. *)

From Stdlib Require Import ZArith List String Ascii Bool Lia DecimalString.
Import ListNotations.

Open Scope string_scope.
Open Scope list_scope.
Open Scope Z_scope.

Infix "+++" := String.append (right associativity, at level 60).

(* ------------------------------------------------------------------ *)
(** ** JavaScript values *)

Inductive ErrorKind := PlainError | TypeErr | ReferenceErr.

(** The values that travel through the promise chain of the module. *)
Inductive JsValue :=
| VUndefined
| VBool (b : bool)
| VNum (n : Z)
| VStr (s : string)
| VError (k : ErrorKind) (msg : string).

Definition Error (msg : string) : JsValue := VError PlainError msg.
Definition TypeError (msg : string) : JsValue := VError TypeErr msg.
Definition ReferenceError (msg : string) : JsValue := VError ReferenceErr msg.

(** Decimal rendering of an integral JavaScript number. *)
Definition num_to_string (n : Z) : string := NilZero.string_of_int (Z.to_int n).

Definition kind_name (k : ErrorKind) : string :=
  match k with
  | PlainError => "Error"
  | TypeErr => "TypeError"
  | ReferenceErr => "ReferenceError"
  end.

(** [String(v)], as string concatenation applies it. *)
Definition to_js_string (v : JsValue) : string :=
  match v with
  | VUndefined => "undefined"
  | VBool true => "true"
  | VBool false => "false"
  | VNum n => num_to_string n
  | VStr s => s
  | VError k EmptyString => kind_name k
  | VError k msg => kind_name k +++ ": " +++ msg
  end.

(** [v === 0] *)
Definition strict_eq_zero (v : JsValue) : bool :=
  match v with
  | VNum n => n =? 0
  | _ => false
  end.

(** [process.env[name]] and other possibly missing strings: missing and
    empty are both falsy. *)
Definition truthy_str (o : option string) : bool :=
  match o with
  | None => false
  | Some s => negb (String.eqb s "")
  end.

Definition opt_to_string (o : option string) : string :=
  match o with
  | None => "undefined"
  | Some s => s
  end.

(* ------------------------------------------------------------------ *)
(** ** JSON.stringify on strings *)

Definition dquote : ascii := ascii_of_nat 34.
Definition backslash : ascii := ascii_of_nat 92.

Definition str1 (c : ascii) : string := String c EmptyString.

Definition hex_digit (n : nat) : ascii :=
  if Nat.ltb n 10 then ascii_of_nat (48 + n) else ascii_of_nat (87 + n).

Definition json_escape_char (c : ascii) : string :=
  let n := nat_of_ascii c in
  if Nat.eqb n 34 then String backslash (str1 dquote)
  else if Nat.eqb n 92 then String backslash (str1 backslash)
  else if Nat.eqb n 8 then String backslash "b"
  else if Nat.eqb n 9 then String backslash "t"
  else if Nat.eqb n 10 then String backslash "n"
  else if Nat.eqb n 12 then String backslash "f"
  else if Nat.eqb n 13 then String backslash "r"
  else if Nat.ltb n 32 then
    String backslash ("u00" +++ String (hex_digit (Nat.div n 16)) (str1 (hex_digit (Nat.modulo n 16))))
  else str1 c.

Fixpoint json_escape (s : string) : string :=
  match s with
  | EmptyString => EmptyString
  | String c rest => json_escape_char c +++ json_escape rest
  end.

Definition json_string (s : string) : string :=
  str1 dquote +++ json_escape s +++ str1 dquote.

(** [JSON.stringify({logurl: url})] *)
Definition json_logurl (url : string) : string :=
  "{" +++ json_string "logurl" +++ ":" +++ json_string url +++ "}".

(** [path.join] on segments that need no normalisation, POSIX separator. *)
Definition path_join (segments : list string) : string := String.concat "/" segments.

(* ------------------------------------------------------------------ *)
(** ** Module constants *)

(** Time to wait for initial device connection. *)
Definition INITIAL_CONNECTION_TIMEOUT : Z := 300000.

Definition SAUCE_USER_ENV_VAR : string := "SAUCE_USER".
Definition SAUCE_KEY_ENV_VAR : string := "SAUCE_ACCESS_KEY".

(* ------------------------------------------------------------------ *)
(** ** The execution context and the collaborators *)

(** The values the getters of the configuration object return. *)
Record Config := {
  getPlatform : string;
  getPlatformId : string;
  getAction : string;
  getArgs : option string;
  getPlugins : list string;
  getPorts : list Z;
  getExternalServerUrl : option string;
  getUseTunnel : bool;
  getReportSavePath : option string;
  shouldUseSauce : bool;
  getShouldCleanUpAfterRun : bool;
  isVerbose : bool;
  verbose : bool;              (* the property [config.verbose] *)
  getTimeout : Z
}.

(** Payload of the terminal lifecycle event. *)
Record SpecResults := { specFailed : JsValue }.
Record JasmineDoneData := { specResults : option SpecResults }.

Inductive ServerEvent :=
| EvJasmineDone (data : JasmineDoneData)
| EvDisconnect
| EvOther (route : string).

(** The event server, as the module sees it: the connection URL per
    platform, the connectivity predicate as a function of time, and the
    events it emits, each with the time of emission. *)
Record Server := {
  getConnectionUrl : string -> string;
  isDeviceConnected : Z -> bool;
  emitted : list (Z * ServerEvent)
}.

(** A reporter: which lifecycle routes it has a method for. *)
Record Reporter := { hasMethod : string -> bool }.

Inductive LogLevel := LInfo | LNormal | LVerbose.

Inductive Handler :=
| ReporterMethod (reporter : nat) (route : string)
| DeviceLogHandler
| DeviceInfoHandler
| JasmineDoneHandler
| DisconnectHandler.

(** What the module does to the outside, in the order it does it. *)
Inductive Action :=
| Log (lvl : LogLevel) (msg : string)
| LogValue (lvl : LogLevel) (v : JsValue)
| SetVerboseLevel (b : bool)
| TmpDirSync
| TmpSetGracefulCleanup
| ExecSync (cmd : string)
| ExecPromise (cmd : string)
| ShellPushd (dir : string)
| ShellPopd
| ShellRm (flags dir : string)
| ShellSed (flags pattern replacement file : string)
| NewPluginsManager (appRoot : string) (storedCWD : option string)
| InstallPlugins (plugins : list string)
| InstallTestsForExistingPlugins
| InstallSinglePlugin (plugin : string)
| StartServer (ports : list Z) (externalUrl : option string) (useTunnel : bool)
| GetReporters (savePath : option string)
| ServerOn (route : string) (h : Handler)
| WriteFileSync (file content : string)
| SetTimeout (ms : Z)
| QueryDeviceConnected
| CreateReadStream (file : string)
| RequestPost (url user pass : string)
| WdRemote (host : string) (port : Z) (user key : string)
| DriverInit (caps : list (string * string))
| DriverQuit
| EnterCleanUpProject
| Uncaught (e : JsValue).

(** An asynchronous answer of a collaborator: after [d] milliseconds it
    succeeds with a value ([inl]) or fails with a reason ([inr]); or it
    never answers. *)
Inductive Eventually (A : Type) :=
| After (d : N) (r : A + JsValue)
| Never.
Arguments After {A} d r.
Arguments Never {A}.

Record World := {
  env : string -> option string;                 (* process.env *)
  process_cwd : string;
  paramedicPluginPath : string;                  (* path.join(__dirname, '../paramedic-plugin') *)
  tmpName : string;                              (* tmp.dirSync().name *)
  raises : Action -> option JsValue;             (* synchronous calls that throw *)
  execCode : string -> Z;                        (* exec(cmd).code *)
  reporters : list Reporter;                     (* getReporters(savePath) *)
  startServer : Eventually Server;               (* Server.startServer(...) *)
  execPromise : string -> Eventually JsValue;    (* utils.execPromise(cmd) *)
  requestPost : Eventually unit;                 (* callback of request.post: err or not *)
  driverInit : Eventually unit                   (* callback of driver.init: error or not *)
}.

(* ------------------------------------------------------------------ *)
(** ** The runner object and the monad of its methods *)

Record Runner := {
  config : Config;
  tempFolder : option string;               (* this.tempFolder: null or { name } *)
  pluginsManager : option (string * option string);
  server : option Server;
  storedCWD : option string
}.

Definition Entry : Type := Z * Action.

Record State := {
  self : Runner;
  now : Z;
  trace : list Entry
}.

Inductive Res (A : Type) :=
| Ok (a : A)
| Throw (e : JsValue)
| Hang.
Arguments Ok {A} a.
Arguments Throw {A} e.
Arguments Hang {A}.

Definition M (A : Type) : Type := State -> Res A * State.

Definition ret {A} (a : A) : M A := fun st => (Ok a, st).
Definition throw {A} (e : JsValue) : M A := fun st => (Throw e, st).
Definition hang {A} : M A := fun st => (Hang, st).

Definition bind {A B} (m : M A) (f : A -> M B) : M B :=
  fun st =>
    match m st with
    | (Ok a, st') => f a st'
    | (Throw e, st') => (Throw e, st')
    | (Hang, st') => (Hang, st')
    end.

Notation "x <- m ;; k" := (bind m (fun x => k))
  (at level 100, m at next level, right associativity).
Notation "m ;; k" := (bind m (fun _ => k))
  (at level 100, right associativity).

Definition record (a : Action) (st : State) : State :=
  {| self := self st; now := now st; trace := trace st ++ [(now st, a)] |}.

(** A call that cannot throw. *)
Definition emit (a : Action) : M unit := fun st => (Ok tt, record a st).

Definition get_self : M Runner := fun st => (Ok (self st), st).

(** An assignment to a field of [this]. *)
Definition modify_self (f : Runner -> Runner) : M unit :=
  fun st => (Ok tt, {| self := f (self st); now := now st; trace := trace st |}).

Definition sleep (d : Z) : M unit :=
  fun st => (Ok tt, {| self := self st; now := now st + d; trace := trace st |}).

(** [setTimeout] clamps its delay: outside 1 .. 2^31-1 it is 1. *)
Definition timer_delay (ms : Z) : Z :=
  if (1 <=? ms) && (ms <=? 2147483647) then ms else 1.

Definition logger (lvl : LogLevel) (msg : string) : M unit := emit (Log lvl msg).

(** [p.then(onFulfilled, onRejected)] *)
Definition then2 {A B} (m : M A) (onFulfilled : A -> M B) (onRejected : JsValue -> M B) : M B :=
  fun st =>
    match m st with
    | (Ok a, st') => onFulfilled a st'
    | (Throw e, st') => onRejected e st'
    | (Hang, st') => (Hang, st')
    end.

(** [p.fin(callback)] of Q: the callback runs once [p] has settled; the
    outcome of [p] is kept unless the callback throws, in which case the
    promise is rejected with what the callback threw. *)
Definition fin {A} (m : M A) (callback : M unit) : M A :=
  fun st =>
    match m st with
    | (Hang, st') => (Hang, st')
    | (r, st') =>
        match callback st' with
        | (Ok _, st'') => (r, st'')
        | (Throw e, st'') => (Throw e, st'')
        | (Hang, st'') => (Hang, st'')
        end
    end.

(** An exception that escapes a callback run by the event loop, or a
    handler of [done]: nothing catches it and no promise is settled. *)
Definition escaping {A} (m : M A) : M A :=
  fun st =>
    match m st with
    | (Throw e, st') => (Hang, record (Uncaught e) st')
    | r => r
    end.

(** A timer callback that nothing waits for: it runs [d] milliseconds from
    now, on its own; what it does is recorded with that time, the promise it
    settles has no listener, and the computation that armed the timer goes
    on at once. *)
Definition detach {A} (d : Z) (callback : M A) : M unit :=
  fun st =>
    let (_, fired) :=
      callback {| self := self st; now := now st + d; trace := trace st |} in
    (Ok tt, {| self := self st; now := now st; trace := trace fired |}).

Definition lift {A} (r : A + JsValue) : M A :=
  match r with
  | inl a => ret a
  | inr e => throw e
  end.

Definition await {A} (e : Eventually A) : M A :=
  match e with
  | After d r => sleep (Z.of_N d) ;; lift r
  | Never => hang
  end.

(* ------------------------------------------------------------------ *)
(** ** Settling a Q promise from event handlers *)

Inductive Deferred :=
| Pending
| Resolved (v : JsValue)
| Rejected (e : JsValue).

(** [resolve] and [reject] of [Q.promise]: only the first call counts. *)
Definition resolve (v : JsValue) (d : Deferred) : Deferred :=
  match d with
  | Pending => Resolved v
  | _ => d
  end.

Definition reject (e : JsValue) (d : Deferred) : Deferred :=
  match d with
  | Pending => Rejected e
  | _ => d
  end.

(** The listener of ['jasmineDone'] that [waitForTests] installs. *)
Definition onJasmineDone (data : JasmineDoneData) (d : Deferred) : list Action * Deferred :=
  match specResults data with
  | None =>
      ([Log LInfo "cordova-paramedic: tests have been completed";
        Uncaught (TypeError "Cannot read property 'specFailed' of undefined")], d)
  | Some results =>
      let isTestPassed := strict_eq_zero (specFailed results) in
      ([Log LInfo "cordova-paramedic: tests have been completed"],
       resolve (VBool isTestPassed) d)
  end.

(** The listener of ['disconnect'] that [waitForTests] installs. *)
Definition onDisconnect (d : Deferred) : list Action * Deferred :=
  ([], reject (Error "device is disconnected before passing the tests") d).

Definition dispatch (ev : ServerEvent) (d : Deferred) : list Action * Deferred :=
  match ev with
  | EvJasmineDone data => onJasmineDone data d
  | EvDisconnect => onDisconnect d
  | EvOther _ => ([], d)
  end.

Definition record_at (t : Z) (acts : list Action) (st : State) : State :=
  {| self := self st; now := now st; trace := trace st ++ map (fun a => (t, a)) acts |}.

Definition at_time (t : Z) (st : State) : State :=
  {| self := self st; now := t; trace := trace st |}.

(** Waiting on the promise of [waitForTests], subscribed at [since]: the
    events (in the order of emission) reach the two listeners until one of
    them settles the promise, which is when the wait ends.  Events emitted
    before [since] found no listener. *)
Fixpoint await_events (since : Z) (evs : list (Z * ServerEvent)) (d : Deferred) (st : State)
  : Res JsValue * State :=
  match evs with
  | [] => (Hang, st)
  | (t, ev) :: rest =>
      if t <? since then await_events since rest d st
      else
        let (acts, d') := dispatch ev d in
        let st' := record_at t acts st in
        match d' with
        | Pending => await_events since rest d' st'
        | Resolved v => (Ok v, at_time t st')
        | Rejected e => (Throw e, at_time t st')
        end
  end.

(* ------------------------------------------------------------------ *)
(** ** Identifier resolution in the success handler of [runTests] *)

(** The names bound where the handler [function(code, output) {...}] of the
    local branch of [runTests] is evaluated: its parameters, the variables
    of [runTests], the variables of the module, the module wrapper and the
    globals of the platform. *)
Definition handler_scope : list string :=
  [ "code"; "output"; "arguments";
    "self"; "command"; "this";
    "exec"; "execPromise"; "shell"; "Server"; "Q"; "tmp"; "PluginsManager";
    "path"; "fs"; "request"; "wd"; "getReporters"; "logger";
    "INITIAL_CONNECTION_TIMEOUT"; "SAUCE_USER_ENV_VAR"; "SAUCE_KEY_ENV_VAR";
    "ParamedicRunner"; "storedCWD";
    "exports"; "require"; "module"; "__filename"; "__dirname";
    "global"; "process"; "console"; "Buffer";
    "setTimeout"; "clearTimeout"; "setInterval"; "clearInterval";
    "setImmediate"; "clearImmediate";
    "Object"; "Function"; "Array"; "String"; "Number"; "Boolean"; "Date";
    "RegExp"; "Error"; "TypeError"; "ReferenceError"; "Math"; "JSON";
    "Promise"; "undefined"; "NaN"; "Infinity";
    "parseInt"; "parseFloat"; "isNaN"; "isFinite";
    "encodeURI"; "decodeURI"; "encodeURIComponent"; "decodeURIComponent" ].

(** Reading an identifier: an unbound name throws. *)
Definition read_identifier (scope : list string) (x : string) : M unit :=
  if existsb (String.eqb x) scope then ret tt
  else throw (ReferenceError (x +++ " is not defined")).

(* ------------------------------------------------------------------ *)
(** ** ParamedicRunner *)

Definition with_tempFolder (r : Runner) (t : option string) : Runner :=
  {| config := config r; tempFolder := t; pluginsManager := pluginsManager r;
     server := server r; storedCWD := storedCWD r |}.

Definition with_pluginsManager (r : Runner) (p : option (string * option string)) : Runner :=
  {| config := config r; tempFolder := tempFolder r; pluginsManager := p;
     server := server r; storedCWD := storedCWD r |}.

Definition with_server (r : Runner) (s : option Server) : Runner :=
  {| config := config r; tempFolder := tempFolder r; pluginsManager := pluginsManager r;
     server := s; storedCWD := storedCWD r |}.

Definition with_config (r : Runner) (c : Config) : Runner :=
  {| config := c; tempFolder := tempFolder r; pluginsManager := pluginsManager r;
     server := server r; storedCWD := storedCWD r |}.

Definition get_config : M Config := fun st => (Ok (config (self st)), st).
Definition get_now : M Z := fun st => (Ok (now st), st).

(** [this.tempFolder.name] *)
Definition tempFolder_name : M string :=
  r <- get_self ;;
  match tempFolder r with
  | Some name => ret name
  | None => throw (TypeError "Cannot read property 'name' of null")
  end.

(** [self.server.on(route, handler)] *)
Definition server_on (route : string) (h : Handler) : M unit :=
  r <- get_self ;;
  match server r with
  | Some _ => emit (ServerOn route h)
  | None => throw (TypeError "Cannot read property 'on' of undefined")
  end.

Fixpoint forEach {A} (f : nat -> A -> M unit) (i : nat) (l : list A) : M unit :=
  match l with
  | [] => ret tt
  | x :: rest => f i x ;; forEach f (S i) rest
  end.

Definition lifecycle_routes : list string :=
  ["jasmineStarted"; "specStarted"; "specDone"; "suiteStarted"; "suiteDone"; "jasmineDone"].

Definition medic_json_path : string := path_join ["www"; "medic.json"].

Definition TIMEOUT_MESSAGE : string :=
  "This test seems to be blocked :: timeout exceeded. Exiting ...".

Section Methods.

Variable w : World.

(** A call on a collaborator: it is recorded, and it throws when the world
    says that it does. *)
Definition call (a : Action) : M unit :=
  fun st =>
    match raises w a with
    | Some e => (Throw e, record a st)
    | None => (Ok tt, record a st)
    end.

Definition createTempProject : M unit :=
  call TmpDirSync ;;
  modify_self (fun r => with_tempFolder r (Some (tmpName w))) ;;
  call TmpSetGracefulCleanup ;;
  name <- tempFolder_name ;;
  logger LInfo ("cordova-paramedic: creating temp project at " +++ name) ;;
  call (ExecSync ("cordova create " +++ name)) ;;
  call (ShellPushd name).

Definition installPlugins : M unit :=
  logger LInfo "cordova-paramedic: installing plugins" ;;
  name <- tempFolder_name ;;
  r <- get_self ;;
  call (NewPluginsManager name (storedCWD r)) ;;
  modify_self (fun r' => with_pluginsManager r' (Some (name, storedCWD r))) ;;
  call (InstallPlugins (getPlugins (config r))) ;;
  call InstallTestsForExistingPlugins ;;
  call (InstallSinglePlugin "cordova-plugin-test-framework") ;;
  call (InstallSinglePlugin "cordova-plugin-device") ;;
  call (InstallSinglePlugin (paramedicPluginPath w)).

Definition setUpStartPage : M unit :=
  logger LNormal "cordova-paramedic: setting app start page to test page" ;;
  call (ShellSed "-i"
          ("src=" +++ str1 dquote +++ "index.html" +++ str1 dquote)
          ("src=" +++ str1 dquote +++ "cdvtests/index.html" +++ str1 dquote)
          "config.xml").

Definition installPlatform : M unit :=
  c <- get_config ;;
  logger LInfo ("cordova-paramedic: adding platform : " +++ getPlatform c) ;;
  call (ExecSync ("cordova platform add " +++ getPlatform c)).

Definition checkPlatformRequirements : M unit :=
  c <- get_config ;;
  logger LNormal ("cordova-paramedic: checking requirements for platform " +++ getPlatformId c) ;;
  call (ExecSync ("cordova requirements " +++ getPlatformId c)) ;;
  if negb (execCode w ("cordova requirements " +++ getPlatformId c) =? 0)
  then throw (Error "Platform requirements check has failed!")
  else ret tt.

Definition prepareProjectToRunTests : M unit :=
  installPlugins ;;
  setUpStartPage ;;
  installPlatform ;;
  checkPlatformRequirements.

Definition injectReporters : M unit :=
  c <- get_config ;;
  call (GetReporters (getReportSavePath c)) ;;
  forEach (fun _ route =>
             forEach (fun i reporter =>
                        if hasMethod reporter route
                        then server_on route (ReporterMethod i route)
                        else ret tt)
                     0%nat (reporters w))
          0%nat lifecycle_routes.

Definition subcribeForEvents : M unit :=
  server_on "deviceLog" DeviceLogHandler ;;
  server_on "deviceInfo" DeviceInfoHandler.

Definition writeMedicConnectionUrl (url : string) : M unit :=
  logger LNormal ("cordova-paramedic: writing medic log url to project " +++ url) ;;
  call (WriteFileSync medic_json_path (json_logurl url)).

Definition waitForTests : M JsValue :=
  logger LInfo "cordova-paramedic: waiting for test results" ;;
  server_on "jasmineDone" JasmineDoneHandler ;;
  server_on "disconnect" DisconnectHandler ;;
  r <- get_self ;;
  match server r with
  | Some srv => fun st => await_events (now st) (emitted srv) Pending st
  | None => hang
  end.

Definition getCommandForStartingTests (c : Config) : string :=
  let cmd := "cordova " +++ getAction c +++ " " +++ getPlatformId c in
  if truthy_str (getArgs c) then cmd +++ " " +++ opt_to_string (getArgs c) else cmd.

Definition getCommandForBuilding (c : Config) : string :=
  "cordova build " +++ getPlatformId c.

Definition shouldWaitForTestResult (c : Config) : bool :=
  let action := getAction c in
  String.eqb action "run" || String.eqb action "emulate".

Definition ERR_MSG : string :=
  "Seems like device not connected to local server in "
    +++ num_to_string (INITIAL_CONNECTION_TIMEOUT / 1000) +++ " secs".

(** The synchronous part of [waitForConnection]: the timer is armed. *)
Definition waitForConnection_arm : M unit :=
  emit (SetTimeout INITIAL_CONNECTION_TIMEOUT).

(** The callback of the timer. *)
Definition waitForConnection_callback : M JsValue :=
  r <- get_self ;;
  match server r with
  | None =>
      escaping (throw (TypeError "Cannot read property 'isDeviceConnected' of undefined"))
  | Some srv =>
      emit QueryDeviceConnected ;;
      t <- get_now ;;
      if negb (isDeviceConnected srv t)
      then throw (Error ERR_MSG)
      else ret VUndefined
  end.

Definition waitForConnection : M JsValue :=
  waitForConnection_arm ;;
  sleep (timer_delay INITIAL_CONNECTION_TIMEOUT) ;;
  waitForConnection_callback.

(** [EnterCleanUpProject] marks the invocation of the method; the rest is
    what the method does. *)
Definition cleanUpProject : M unit :=
  emit EnterCleanUpProject ;;
  c <- get_config ;;
  if getShouldCleanUpAfterRun c then
    name <- tempFolder_name ;;
    logger LInfo ("cordova-paramedic: Deleting the application: " +++ name) ;;
    call ShellPopd ;;
    name' <- tempFolder_name ;;
    call (ShellRm "-rf" name')
  else ret tt.

Definition checkSauceRequirements : M unit :=
  c <- get_config ;;
  if shouldUseSauce c then
    if negb (String.eqb (getPlatformId c) "android") && negb (String.eqb (getPlatformId c) "ios")
    then throw (Error "Sauce Labs only supports Android and iOS")
    else if negb (truthy_str (env w SAUCE_KEY_ENV_VAR))
    then throw (Error (SAUCE_KEY_ENV_VAR +++ " environment variable not set"))
    else if negb (truthy_str (env w SAUCE_USER_ENV_VAR))
    then throw (Error (SAUCE_USER_ENV_VAR +++ " environment variable not set"))
    else if negb (shouldWaitForTestResult c)
    then throw (Error "justBuild cannot be used with shouldUseSauce")
    else ret tt
  else ret tt.

Definition getAppName : M string :=
  c <- get_config ;;
  if String.eqb (getPlatformId c) "android" then ret "android-debug.apk"
  else if String.eqb (getPlatformId c) "ios" then ret "mobilespec.ipa"
  else throw (Error "Unsupported platform for sauce labs testing").

Definition getBinaryPath : M string :=
  c <- get_config ;;
  if String.eqb (getPlatformId c) "android" then
    name <- tempFolder_name ;;
    ret (path_join [name; "platforms"; "android"; "build"; "outputs"; "apk"; "android-debug.apk"])
  else if String.eqb (getPlatformId c) "ios" then
    name <- tempFolder_name ;;
    ret (path_join [name; "platforms"; "ios"; "build"; "device"; "mobilespec.ipa"])
  else throw (Error "Unsupported platform for sauce labs testing").

(** The URL is recorded as it is before [encodeURI]. *)
Definition uploadApp : M unit :=
  app <- getAppName ;;
  logger LNormal ("cordova-paramedic: uploading " +++ app +++ " to Sauce Storage") ;;
  let sauceUser := env w SAUCE_USER_ENV_VAR in
  let key := env w SAUCE_KEY_ENV_VAR in
  binary <- getBinaryPath ;;
  call (CreateReadStream binary) ;;
  _ <- getAppName ;;
  app' <- getAppName ;;
  call (RequestPost
          ("https://saucelabs.com/rest/v1/storage/" +++ opt_to_string sauceUser
             +++ "/" +++ app' +++ "?overwrite=true")
          (opt_to_string sauceUser) (opt_to_string key)) ;;
  await (requestPost w).

Definition capabilities (c : Config) (app : string) : list (string * string) + JsValue :=
  let caps :=
    [ ("name", "Paramedic Sauce test #5git ");
      ("browserName", "");
      ("appiumVersion", "1.5.1");
      ("deviceOrientation", "portrait");
      ("deviceType", "phone");
      ("app", "sauce-storage:" +++ app) ] in
  if String.eqb (getPlatformId c) "android" then
    inl (caps ++ [ ("deviceName", "Android Emulator");
                   ("platformVersion", "4.4");
                   ("platformName", "Android");
                   ("appPackage", "io.cordova.hellocordova");
                   ("appActivity", "io.cordova.hellocordova.MainActivity") ])
  else if String.eqb (getPlatformId c) "ios" then
    inl (caps ++ [ ("deviceName", "iPhone Simulator");
                   ("platformVersion", "9.2");
                   ("platformName", "iOS") ])
  else inr (Error "Unsupported platform for sauce labs testing").

Definition runSauceTests : M JsValue :=
  logger LInfo "cordova-paramedic: running sauce tests" ;;
  uploadApp ;;
  let user := env w SAUCE_USER_ENV_VAR in
  let key := env w SAUCE_KEY_ENV_VAR in
  app <- getAppName ;;
  c <- get_config ;;
  caps <- lift (capabilities c app) ;;
  call (WdRemote "ondemand.saucelabs.com" 80 (opt_to_string user) (opt_to_string key)) ;;
  call (DriverInit caps) ;;
  (* the callback of driver.init, run by the event loop *)
  then2 (await (driverInit w))
    (fun _ =>
       then2 (waitForConnection ;; waitForTests)
         (fun _ => escaping (call DriverQuit) ;; ret VUndefined)
         (fun _ => escaping (call DriverQuit) ;; throw VUndefined))
    (fun error =>
       escaping (throw (Error "Error starting Appium web driver"))).

(** The success handler of the local branch.  The chain it builds names
    [reject] and [resolve]; both are read when the chain is built, after
    [self.waitForConnection()] has been called and its timer armed.  When
    reading them throws, the handler throws, and the timer, which nothing
    clears, still fires at expiry with nobody waiting for it.  Handlers
    bound to these names are taken to return [undefined]. *)
Definition runTests_onSuccess (code : JsValue) : M JsValue :=
  c <- get_config ;;
  if shouldWaitForTestResult c then
    waitForConnection_arm ;;
    then2 (read_identifier handler_scope "reject" ;;
           read_identifier handler_scope "resolve")
      (fun _ =>
         then2 (sleep (timer_delay INITIAL_CONNECTION_TIMEOUT) ;; waitForConnection_callback)
           ret (fun _ => ret VUndefined) ;;
         waitForTests ;;
         ret VUndefined)
      (fun e =>
         detach (timer_delay INITIAL_CONNECTION_TIMEOUT) waitForConnection_callback ;;
         throw e)
  else ret VUndefined.

(** The failure handler of the local branch; Q calls it with one argument,
    so [output] is [undefined]. *)
Definition runTests_onFailure (command : string) (code : JsValue) : M JsValue :=
  c <- get_config ;;
  (if negb (verbose c) then emit (LogValue LNormal VUndefined) else ret tt) ;;
  logger LNormal "cordova-paramedic: unable to run tests; command log is available above" ;;
  throw (Error (command +++ " returned error code " +++ to_js_string code)).

Definition runTests : M JsValue :=
  c <- get_config ;;
  if shouldUseSauce c then
    let command := getCommandForBuilding c in
    logger LNormal ("cordova-paramedic: running command " +++ command) ;;
    call (ExecPromise (getCommandForBuilding c)) ;;
    await (execPromise w (getCommandForBuilding c)) ;;
    runSauceTests
  else
    let command := getCommandForStartingTests c in
    logger LNormal ("cordova-paramedic: running command " +++ command) ;;
    call (ExecPromise command) ;;
    then2 (await (execPromise w command))
      runTests_onSuccess
      (runTests_onFailure command).

(** The first callback of the chain of [run]. *)
Definition run_provision : M Server :=
  createTempProject ;;
  prepareProjectToRunTests ;;
  c <- get_config ;;
  call (StartServer (getPorts c) (getExternalServerUrl c) (getUseTunnel c)) ;;
  await (startServer w).

(** The second callback, which gets the server. *)
Definition run_onServer (srv : Server) : M JsValue :=
  modify_self (fun r => with_server r (Some srv)) ;;
  injectReporters ;;
  subcribeForEvents ;;
  c <- get_config ;;
  let connectionUrl := getConnectionUrl srv (getPlatformId c) in
  writeMedicConnectionUrl connectionUrl ;;
  runTests.

(** The chain of [run] before [.fin]. *)
Definition pipeline : M JsValue :=
  srv <- run_provision ;;
  run_onServer srv.

(** What a call of [run] gives its caller: an exception, or a promise with
    the way it settles (or does not). *)
Inductive Returned :=
| ThrewSync (e : JsValue)
| PromiseOf (r : Res JsValue).

Definition run (st : State) : Returned * State :=
  match checkSauceRequirements st with
  | (Throw e, st') => (ThrewSync e, st')
  | (_, st') =>
      let (r, st'') := fin pipeline cleanUpProject st' in
      (PromiseOf r, st'')
  end.

(** ** exports.run *)

Inductive Delivery :=
| Raised (e : JsValue)                 (* the call itself throws *)
| Fulfils (t : Z) (v : JsValue)        (* the promise returned is fulfilled at [t] *)
| Rejects (t : Z) (e : JsValue).       (* the promise returned is rejected at [t] *)

(** [before]: what the module did until the caller had its answer;
    [after]: what it still does later (the rest of a chain the timeout did
    not wait for, a timer still armed).  The entries are told apart by
    their times. *)
Record Report := {
  delivery : Delivery;
  before : list Entry;
  after : list Entry
}.

Definition new_runner (c : Config) (stored : option string) : Runner :=
  {| config := c; tempFolder := None; pluginsManager := None;
     server := None; storedCWD := stored |}.

(** [promise.timeout(ms, message)] of Q around the promise of [run]: a timer
    that rejects with the message unless the promise settles first; the
    promise itself is not interrupted.  A promise that settles in the very
    millisecond of the deadline is taken to lose. *)
Definition timed_out (deadline : Z) (st : State) : Report :=
  {| delivery := Rejects deadline (Error TIMEOUT_MESSAGE);
     before := filter (fun e => fst e <? deadline) (trace st);
     after := filter (fun e => deadline <=? fst e) (trace st) |}.

(** The promise of [run] settles first, at [t]. *)
Definition in_time (t : Z) (d : Delivery) (st : State) : Report :=
  {| delivery := d;
     before := filter (fun e => fst e <=? t) (trace st);
     after := filter (fun e => t <? fst e) (trace st) |}.

Definition timeout (deadline : Z) (r : Res JsValue) (st : State) : Report :=
  match r with
  | Ok v =>
      if now st <? deadline
      then in_time (now st) (Fulfils (now st) v) st
      else timed_out deadline st
  | Throw e =>
      if now st <? deadline
      then in_time (now st) (Rejects (now st) e) st
      else timed_out deadline st
  | Hang => timed_out deadline st
  end.

Definition exports_run (paramedicConfig : Config) (storedCWD_global : option string)
  : Report :=
  let stored :=
    if truthy_str storedCWD_global then storedCWD_global else Some (process_cwd w) in
  let constructed := SetVerboseLevel (isVerbose paramedicConfig) in
  match raises w constructed with
  | Some e => {| delivery := Raised e; before := [(0, constructed)]; after := [] |}
  | None =>
      let st := {| self := new_runner paramedicConfig stored; now := 0;
                   trace := [(0, constructed)] |} in
      let deadline := timer_delay (getTimeout paramedicConfig) in
      match run st with
      | (ThrewSync e, st') => {| delivery := Raised e; before := trace st'; after := [] |}
      | (PromiseOf r, st') => timeout deadline r st'
      end
  end.

End Methods.

(* ------------------------------------------------------------------ *)
(** ** Concrete runs *)

Module Sample.

Definition payload (failed : Z) : JasmineDoneData :=
  {| specResults := Some {| specFailed := VNum failed |} |}.

(** A device that attaches 30 s after the start and reports a clean suite
    400 s after the start. *)
Definition device_server : Server :=
  {| getConnectionUrl := fun platform => "http://10.0.2.2:8008";
     isDeviceConnected := fun t => 30000 <=? t;
     emitted := [ (31000, EvOther "jasmineStarted");
                  (32000, EvOther "specDone");
                  (400000, EvJasmineDone (payload 0)) ] |}.

(** A device that drops before the suite is over. *)
Definition dropping_server : Server :=
  {| getConnectionUrl := fun platform => "http://10.0.2.2:8008";
     isDeviceConnected := fun t => true;
     emitted := [ (10, EvDisconnect);
                  (400, EvOther "specDone");
                  (500, EvDisconnect);
                  (600, EvJasmineDone (payload 0)) ] |}.

Definition sauce_env (name : string) : option string :=
  if String.eqb name "SAUCE_USER" then Some "medic"
  else if String.eqb name "SAUCE_ACCESS_KEY" then Some "0123-4567"
  else None.

(** Every collaborator answers and none throws. *)
Definition calm : World :=
  {| env := sauce_env;
     process_cwd := "/home/medic";
     paramedicPluginPath := "/opt/paramedic/paramedic-plugin";
     tmpName := "/tmp/tmp-4711";
     raises := fun _ => None;
     execCode := fun _ => 0;
     reporters := [ {| hasMethod := fun route => String.eqb route "specDone"
                                                  || String.eqb route "jasmineDone" |} ];
     startServer := After 100 (inl device_server);
     execPromise := fun _ => After 20000 (inl (VNum 0));
     requestPost := After 5000 (inl tt);
     driverInit := After 3000 (inl tt) |}.

Definition with_raises (w : World) (f : Action -> option JsValue) : World :=
  {| env := env w; process_cwd := process_cwd w;
     paramedicPluginPath := paramedicPluginPath w; tmpName := tmpName w;
     raises := f; execCode := execCode w; reporters := reporters w;
     startServer := startServer w; execPromise := execPromise w;
     requestPost := requestPost w; driverInit := driverInit w |}.

Definition with_driverInit (w : World) (d : Eventually unit) : World :=
  {| env := env w; process_cwd := process_cwd w;
     paramedicPluginPath := paramedicPluginPath w; tmpName := tmpName w;
     raises := raises w; execCode := execCode w; reporters := reporters w;
     startServer := startServer w; execPromise := execPromise w;
     requestPost := requestPost w; driverInit := d |}.

(** The temporary directory cannot be created. *)
Definition no_tmp : World :=
  with_raises calm (fun a => match a with
                             | TmpDirSync => Some (Error "ENOSPC: no space left on device")
                             | _ => None
                             end).

(** The device cloud refuses the session. *)
Definition no_session : World :=
  with_driverInit calm (After 3000 (inr (Error "The environment you requested was unavailable."))).

Definition local_config (action : string) (timeout : Z) : Config :=
  {| getPlatform := "android"; getPlatformId := "android";
     getAction := action; getArgs := None;
     getPlugins := ["cordova-plugin-camera"];
     getPorts := [8008; 8009]; getExternalServerUrl := None; getUseTunnel := false;
     getReportSavePath := None;
     shouldUseSauce := false; getShouldCleanUpAfterRun := true;
     isVerbose := false; verbose := false;
     getTimeout := timeout |}.

Definition sauce_config (platform action : string) (timeout : Z) : Config :=
  {| getPlatform := platform; getPlatformId := platform;
     getAction := action; getArgs := None;
     getPlugins := ["cordova-plugin-camera"];
     getPorts := [8008; 8009]; getExternalServerUrl := None; getUseTunnel := false;
     getReportSavePath := None;
     shouldUseSauce := true; getShouldCleanUpAfterRun := true;
     isVerbose := false; verbose := false;
     getTimeout := timeout |}.

Definition fresh (c : Config) : State :=
  {| self := new_runner c (Some "/home/medic"); now := 0; trace := [] |}.

Definition attached (c : Config) (srv : Server) (t : Z) : State :=
  {| self := with_server (new_runner c (Some "/home/medic")) (Some srv); now := t; trace := [] |}.

End Sample.

(* ------------------------------------------------------------------ *)
(** ** Vocabulary of the properties *)

(** An event that cannot settle the promise of [waitForTests] subscribed at
    [since]: it was emitted earlier, or it is not one of the two events the
    method listens to. *)
Definition settles_nothing (since : Z) (e : Z * ServerEvent) : Prop :=
  fst e < since \/ exists route, snd e = EvOther route.

(** The state in which [waitForTests] starts to wait. *)
Definition subscribed (st : State) : State :=
  record (ServerOn "disconnect" DisconnectHandler)
    (record (ServerOn "jasmineDone" JasmineDoneHandler)
       (record (Log LInfo "cordova-paramedic: waiting for test results") st)).

(** How often [cleanUpProject] was entered in a trace. *)
Definition is_teardown (e : Entry) : bool :=
  match snd e with
  | EnterCleanUpProject => true
  | _ => false
  end.

Definition teardowns (l : list Entry) : nat := List.length (filter is_teardown l).

(** A computation [adds] entries that all satisfy [Q]: it only extends the
    trace, with such entries, and it leaves the configuration alone. *)
Definition adds (Q : Action -> Prop) {A} (m : M A) : Prop :=
  forall st r st',
    m st = (r, st') ->
    config (self st') = config (self st)
    /\ exists l, trace st' = trace st ++ l /\ Forall (fun e => Q (snd e)) l.

(** Neither the teardown nor the build/run command. *)
Definition quiet (a : Action) : Prop :=
  match a with
  | EnterCleanUpProject | ExecPromise _ => False
  | _ => True
  end.

Definition no_teardown (a : Action) : Prop :=
  match a with
  | EnterCleanUpProject => False
  | _ => True
  end.

(** The state in which [exports.run] calls [run]: a new runner with the
    stored working directory, after [exec.setVerboseLevel]. *)
Definition start_state (w : World) (c : Config) (stored : option string) : State :=
  {| self := new_runner c (if truthy_str stored then stored else Some (process_cwd w));
     now := 0;
     trace := [(0, SetVerboseLevel (isVerbose c))] |}.

(** How often the teardown is still to come for a chain that ended in [r]
    and that the timeout did not wait for. *)
Definition teardown_to_come {A} (r : Res A) : nat :=
  match r with
  | Hang => 0%nat
  | _ => 1%nat
  end.

(** What holds of the teardown for the caller of [exports.run]: entered once
    before the answer, and not again, if the run settled before the deadline
    of the overall timeout; not entered at all if the call threw; and if the
    timeout won, not entered before the answer and entered [later] times
    after it. *)
Definition teardown_law (deadline : Z) (later : nat) (rep : Report) : Prop :=
  match delivery rep with
  | Raised _ => teardowns (before rep) = 0%nat /\ teardowns (after rep) = 0%nat
  | Fulfils t _ =>
      t < deadline /\ teardowns (before rep) = 1%nat /\ teardowns (after rep) = 0%nat
  | Rejects t e =>
      (t < deadline /\ teardowns (before rep) = 1%nat /\ teardowns (after rep) = 0%nat)
      \/ (t = deadline /\ e = Error TIMEOUT_MESSAGE
          /\ teardowns (before rep) = 0%nat /\ teardowns (after rep) = later)
  end.

(** The subscriptions [injectReporters] makes for one route, reporters
    numbered from [i]; and for all the routes. *)
Fixpoint subs_for_route (route : string) (i : nat) (rs : list Reporter) : list Action :=
  match rs with
  | [] => []
  | reporter :: rest =>
      (if hasMethod reporter route then [ServerOn route (ReporterMethod i route)] else [])
        ++ subs_for_route route (S i) rest
  end.

Definition reporter_subscriptions (rs : list Reporter) : list Action :=
  flat_map (fun route => subs_for_route route 0%nat rs) lifecycle_routes.

(** What the second callback of [run] does between getting the server and
    calling [runTests], when nothing throws. *)
Definition wiring (w : World) (srv : Server) (c : Config) : list Action :=
  GetReporters (getReportSavePath c)
    :: reporter_subscriptions (reporters w)
    ++ [ ServerOn "deviceLog" DeviceLogHandler;
         ServerOn "deviceInfo" DeviceInfoHandler;
         Log LNormal ("cordova-paramedic: writing medic log url to project "
                        +++ getConnectionUrl srv (getPlatformId c));
         WriteFileSync medic_json_path
           (json_logurl (getConnectionUrl srv (getPlatformId c))) ].

Definition wired (w : World) (srv : Server) (st : State) : State :=
  record_at (now st) (wiring w srv (config (self st)))
    {| self := with_server (self st) (Some srv); now := now st; trace := trace st |}.

(** The only commands handed to [execPromise] are [x] and [y]. *)
Definition commands_only (x y : string) (a : Action) : Prop :=
  match a with
  | ExecPromise cmd => cmd = x \/ cmd = y
  | _ => True
  end.

Definition not_command (a : Action) : Prop :=
  match a with
  | ExecPromise _ => False
  | _ => True
  end.

(** An event that leaves the promise of [waitForTests] pending: one that
    settles nothing, or a 'jasmineDone' whose payload has no [specResults]
    (its listener throws before it resolves). *)
Definition cannot_settle (since : Z) (e : Z * ServerEvent) : Prop :=
  settles_nothing since e \/ snd e = EvJasmineDone {| specResults := None |}.

(** The calls of the scaffolding: temporary directory, cordova CLI run
    synchronously, shell, plugins. *)
Definition scaffolds (a : Action) : Prop :=
  match a with
  | Log _ _ | TmpDirSync | TmpSetGracefulCleanup | ExecSync _
  | ShellPushd _ | ShellSed _ _ _ _
  | NewPluginsManager _ _ | InstallPlugins _
  | InstallTestsForExistingPlugins | InstallSinglePlugin _ => True
  | _ => False
  end.

(** Logging and handing a command to [execPromise]. *)
Definition launches (a : Action) : Prop :=
  match a with
  | Log _ _ | LogValue _ _ | ExecPromise _ => True
  | _ => False
  end.

(** Logging, reading the binary and posting it. *)
Definition uploads (a : Action) : Prop :=
  match a with
  | Log _ _ | CreateReadStream _ | RequestPost _ _ _ => True
  | _ => False
  end.

(** Further concrete worlds. *)
Module Scene.

Definition with_answers (w : World) (code : string -> Z)
           (command : string -> Eventually JsValue) (post : Eventually unit) : World :=
  {| env := env w; process_cwd := process_cwd w;
     paramedicPluginPath := paramedicPluginPath w; tmpName := tmpName w;
     raises := raises w; execCode := code; reporters := reporters w;
     startServer := startServer w; execPromise := command;
     requestPost := post; driverInit := driverInit w |}.

(** [cordova requirements] exits with 1. *)
Definition missing_sdk : World :=
  with_answers Sample.calm (fun _ => 1) (execPromise Sample.calm) (requestPost Sample.calm).

(** The build/run command exits with 1 after 9 s. *)
Definition broken_build : World :=
  with_answers Sample.calm (execCode Sample.calm)
    (fun _ => After 9000 (inr (VNum 1))) (requestPost Sample.calm).

(** The upload is refused. *)
Definition refused_upload : World :=
  with_answers Sample.calm (execCode Sample.calm) (execPromise Sample.calm)
    (After 5000 (inr (Error "ECONNRESET"))).

Definition with_startServer (w : World) (s : Eventually Server) : World :=
  {| env := env w; process_cwd := process_cwd w;
     paramedicPluginPath := paramedicPluginPath w; tmpName := tmpName w;
     raises := raises w; execCode := execCode w; reporters := reporters w;
     startServer := s; execPromise := execPromise w;
     requestPost := requestPost w; driverInit := driverInit w |}.

(** The port of the event server is taken. *)
Definition busy_port : World :=
  with_startServer Sample.calm (After 100 (inr (Error "EADDRINUSE"))).

(** A device whose suite ends with three failed specs, 400 s after the
    start. *)
Definition red_server : Server :=
  {| getConnectionUrl := fun platform => "http://10.0.2.2:8008";
     isDeviceConnected := fun t => 30000 <=? t;
     emitted := [ (31000, EvOther "jasmineStarted");
                  (400000, EvJasmineDone (Sample.payload 3)) ] |}.

Definition red_suite : World :=
  with_startServer Sample.calm (After 100 (inl red_server)).

(** A device whose suite is over 40 s after the start. *)
Definition quick_server : Server :=
  {| getConnectionUrl := fun platform => "http://10.0.2.2:8008";
     isDeviceConnected := fun t => 30000 <=? t;
     emitted := [ (31000, EvOther "jasmineStarted");
                  (40000, EvJasmineDone (Sample.payload 0)) ] |}.

(** Build only, and keep the project afterwards. *)
Definition keeping_config : Config :=
  {| getPlatform := "android"; getPlatformId := "android";
     getAction := "build"; getArgs := None;
     getPlugins := ["cordova-plugin-camera"];
     getPorts := [8008; 8009]; getExternalServerUrl := None; getUseTunnel := false;
     getReportSavePath := None;
     shouldUseSauce := false; getShouldCleanUpAfterRun := false;
     isVerbose := false; verbose := false;
     getTimeout := 3600000 |}.

(** A runner in the scaffolded project, with the server attached. *)
Definition in_project (c : Config) (srv : Server) (t : Z) : State :=
  {| self := with_server
               (with_tempFolder (new_runner c (Some "/home/medic")) (Some "/tmp/tmp-4711"))
               (Some srv);
     now := t; trace := [] |}.

End Scene.

(** A character [JSON.stringify] copies as it is: no control character, no
    double quote, no backslash. *)
Definition json_plain (c : ascii) : bool :=
  let n := nat_of_ascii c in
  Nat.leb 32 n && negb (Nat.eqb n 34) && negb (Nat.eqb n 92).

Definition needs_no_escape (s : string) : bool :=
  forallb json_plain (list_ascii_of_string s).

(** A call that leaves the working directory and the project where they
    are. *)
Definition stays_put (a : Action) : Prop :=
  match a with
  | ShellPushd _ | ShellPopd | ShellRm _ _ => False
  | _ => True
  end.

(** Every value a computation is fulfilled with satisfies [P]. *)
Definition yields {A} (P : A -> Prop) (m : M A) : Prop :=
  forall st a st', m st = (Ok a, st') -> P a.

(** What the watchdog and the wait for the result do to the outside. *)
Definition waits (a : Action) : Prop :=
  match a with
  | Log _ _ | ServerOn _ _ | SetTimeout _ | QueryDeviceConnected | Uncaught _ => True
  | _ => False
  end.

(** How often [driver.quit()] was called in a trace. *)
Definition is_quit (e : Entry) : bool :=
  match snd e with
  | DriverQuit => true
  | _ => false
  end.

Definition quits (l : list Entry) : nat := List.length (filter is_quit l).

Definition no_quit (a : Action) : Prop :=
  match a with
  | DriverQuit => False
  | _ => True
  end.

(** What [runSauceTests] owes about the driver session, given how it ended
    and what it added to the trace: [driver.quit()] at most once; exactly
    once, and the value [undefined], when fulfilled; and the reason
    [undefined] when rejected after the session was closed. *)
Definition session_law (r : Res JsValue) (l : list Entry) : Prop :=
  (quits l <= 1)%nat
  /\ (forall v, r = Ok v -> v = VUndefined /\ quits l = 1%nat)
  /\ (forall e, r = Throw e -> quits l = 1%nat -> e = VUndefined).

(** A computation [keeps] a property of the runner object. *)
Definition keeps (I : Runner -> Prop) {A} (m : M A) : Prop :=
  forall st r st', I (self st) -> m st = (r, st') -> I (self st').

(** [this.tempFolder] is still null, or it is what [tmp.dirSync()] gave. *)
Definition folder_ok (w : World) (r : Runner) : Prop :=
  tempFolder r = None \/ tempFolder r = Some (tmpName w).

Definition no_rm (a : Action) : Prop :=
  match a with
  | ShellRm _ _ => False
  | _ => True
  end.

(** The only removal is [rm -rf] of the temporary folder. *)
Definition removes_only (w : World) (a : Action) : Prop :=
  match a with
  | ShellRm flags dir => flags = "-rf" /\ dir = tmpName w
  | _ => True
  end.

(** The scaffolding and the start of the event server. *)
Definition provisions (a : Action) : Prop :=
  match a with
  | StartServer _ _ _ => True
  | _ => scaffolds a
  end.

(** The three places of the remote branch that name the application: the
    file read, the upload (URL and credentials), and the capabilities. *)
Definition names_app (w : World) (app : string) (a : Action) : Prop :=
  match a with
  | CreateReadStream file => exists dirs, file = path_join (dirs ++ [app])
  | RequestPost url user pass =>
      url = "https://saucelabs.com/rest/v1/storage/"
              +++ opt_to_string (env w "SAUCE_USER") +++ "/" +++ app +++ "?overwrite=true"
      /\ user = opt_to_string (env w "SAUCE_USER")
      /\ pass = opt_to_string (env w "SAUCE_ACCESS_KEY")
  | DriverInit caps => In ("app", "sauce-storage:" +++ app) caps
  | _ => True
  end.

(** A computation run under the configuration [c0]: it keeps it, what it
    adds to the trace satisfies [Q], and the value it is fulfilled with
    satisfies [V]. *)
Definition under (c0 : Config) (Q : Action -> Prop) {A} (V : A -> Prop) (m : M A) : Prop :=
  forall st r st',
    config (self st) = c0 ->
    m st = (r, st') ->
    config (self st') = c0
    /\ (forall a, r = Ok a -> V a)
    /\ exists l, trace st' = trace st ++ l /\ Forall (fun e => Q (snd e)) l.

(** The name [getAppName] gives under a configuration. *)
Definition app_name (c : Config) : option string :=
  if String.eqb (getPlatformId c) "android" then Some "android-debug.apk"
  else if String.eqb (getPlatformId c) "ios" then Some "mobilespec.ipa"
  else None.

(** Neither [shell.popd] nor [shell.rm]. *)
Definition leaves_project (a : Action) : Prop :=
  match a with
  | ShellPopd | ShellRm _ _ => False
  | _ => True
  end.

(* ------------------------------------------------------------------ *)
(** * Properties *)

(** ** Result aggregation: [waitForTests] *)

Lemma record_at_nil (t : Z) (st : State) : record_at t [] st = st.
Proof.
  destruct st as [r n tr]. unfold record_at; simpl.
  now rewrite app_nil_r.
Qed.

Lemma await_events_idle (since : Z) (pre rest : list (Z * ServerEvent)) (st : State) :
  Forall (settles_nothing since) pre ->
  await_events since (pre ++ rest) Pending st = await_events since rest Pending st.
Proof.
  induction 1 as [| [t ev] pre' Hidle _ IH]; [reflexivity |].
  simpl. destruct (t <? since) eqn:Hlt; [exact IH |].
  destruct Hidle as [Hearly | [route Hroute]]; simpl in *.
  - apply Z.ltb_ge in Hlt. lia.
  - subst ev. simpl. now rewrite record_at_nil.
Qed.

Lemma waitForTests_unfold (st : State) (srv : Server) :
  server (self st) = Some srv ->
  waitForTests st = await_events (now st) (emitted srv) Pending (subscribed st).
Proof.
  intros Hsrv.
  unfold waitForTests.
  repeat (unfold bind, logger, server_on, get_self, emit; simpl; try rewrite Hsrv).
  reflexivity.
Qed.

(** C1. Once [waitForTests] listens, the first event that can settle its
    promise being a 'jasmineDone' whose payload carries the failed-spec
    count [n], the promise is fulfilled with [n === 0]: with [true] exactly
    when [n] is 0, with [false] for every positive [n]. *)
Theorem waitForTests_passed_iff_no_failed_spec :
  forall (st : State) (srv : Server) (pre post : list (Z * ServerEvent)) (t n : Z),
    server (self st) = Some srv ->
    emitted srv
      = pre ++ (t, EvJasmineDone {| specResults := Some {| specFailed := VNum n |} |}) :: post ->
    Forall (settles_nothing (now st)) pre ->
    now st <= t ->
    fst (waitForTests st) = Ok (VBool (n =? 0))
    /\ (fst (waitForTests st) = Ok (VBool true) <-> n = 0)
    /\ (0 < n -> fst (waitForTests st) = Ok (VBool false)).
Proof.
  intros st srv pre post t n Hsrv Hev Hpre Hle.
  assert (Hres : fst (waitForTests st) = Ok (VBool (n =? 0))).
  { rewrite (waitForTests_unfold st srv Hsrv), Hev.
    rewrite await_events_idle by exact Hpre.
    simpl. apply Z.ltb_ge in Hle. now rewrite Hle. }
  split; [exact Hres |]. rewrite Hres. split.
  - split.
    + intros H. injection H as H. now apply Z.eqb_eq.
    + intros ->. reflexivity.
  - intros Hpos. replace (n =? 0) with false; [reflexivity |].
    symmetry. apply Z.eqb_neq. lia.
Qed.

(** C2. Once [waitForTests] listens, a 'disconnect' delivered before any
    'jasmineDone' rejects the promise with the disconnect error, whatever is
    emitted afterwards; the method subscribed once to each of the two events
    and did nothing else: no second attempt. *)
Theorem waitForTests_disconnect_rejects :
  forall (st : State) (srv : Server) (pre post : list (Z * ServerEvent)) (t : Z),
    server (self st) = Some srv ->
    emitted srv = pre ++ (t, EvDisconnect) :: post ->
    Forall (settles_nothing (now st)) pre ->
    now st <= t ->
    waitForTests st
    = (Throw (Error "device is disconnected before passing the tests"),
       {| self := self st; now := t;
          trace := trace st
                   ++ [ (now st, Log LInfo "cordova-paramedic: waiting for test results");
                        (now st, ServerOn "jasmineDone" JasmineDoneHandler);
                        (now st, ServerOn "disconnect" DisconnectHandler) ] |}).
Proof.
  intros st srv pre post t Hsrv Hev Hpre Hle.
  rewrite (waitForTests_unfold st srv Hsrv), Hev.
  rewrite await_events_idle by exact Hpre.
  simpl. apply Z.ltb_ge in Hle. rewrite Hle.
  unfold at_time, record_at, subscribed, record; simpl.
  rewrite app_nil_r. repeat rewrite <- app_assoc. reflexivity.
Qed.

Lemma waitForTests_passed_witness :
  let st := Sample.attached (Sample.local_config "run" 3600000) Sample.device_server 328100 in
  fst (waitForTests st) = Ok (VBool (0 =? 0))
  /\ (fst (waitForTests st) = Ok (VBool true) <-> 0 = 0)
  /\ (0 < 0 -> fst (waitForTests st) = Ok (VBool false)).
Proof.
  apply (waitForTests_passed_iff_no_failed_spec
           (Sample.attached (Sample.local_config "run" 3600000) Sample.device_server 328100)
           Sample.device_server
           [(31000, EvOther "jasmineStarted"); (32000, EvOther "specDone")]
           [] 400000 0).
  - reflexivity.
  - reflexivity.
  - apply Forall_cons; [left; simpl; lia |].
    apply Forall_cons; [right; eexists; reflexivity | apply Forall_nil].
  - simpl; lia.
Defined.

Lemma waitForTests_disconnect_witness :
  fst (waitForTests
         (Sample.attached (Sample.local_config "run" 3600000) Sample.dropping_server 300))
  = Throw (Error "device is disconnected before passing the tests").
Proof.
  rewrite (waitForTests_disconnect_rejects
             (Sample.attached (Sample.local_config "run" 3600000) Sample.dropping_server 300)
             Sample.dropping_server
             [(10, EvDisconnect); (400, EvOther "specDone")]
             [(600, EvJasmineDone (Sample.payload 0))] 500 eq_refl eq_refl).
  - reflexivity.
  - apply Forall_cons; [left; simpl; lia |].
    apply Forall_cons; [right; eexists; reflexivity | apply Forall_nil].
  - simpl; lia.
Defined.

(** ** Validation: [checkSauceRequirements] *)

Lemma checkSauceRequirements_state (w : World) (st : State) :
  snd (checkSauceRequirements w st) = st.
Proof.
  unfold checkSauceRequirements, bind, get_config; simpl.
  repeat match goal with
         | |- context [if ?b then _ else _] => destruct b
         end; reflexivity.
Qed.

(** C3. With remote mode requested, [run] throws a configuration error and
    the state of the run is untouched (nothing was called, nothing
    acquired) when the platform is neither 'android' nor 'ios', when the
    user name or the access key is not in the environment, or when the
    action is neither 'run' nor 'emulate'. *)
Theorem run_rejects_bad_sauce_setup :
  forall (w : World) (st : State),
    shouldUseSauce (config (self st)) = true ->
    (getPlatformId (config (self st)) <> "android"
     /\ getPlatformId (config (self st)) <> "ios")
    \/ env w SAUCE_USER_ENV_VAR = None
    \/ env w SAUCE_KEY_ENV_VAR = None
    \/ (getAction (config (self st)) <> "run"
        /\ getAction (config (self st)) <> "emulate") ->
    exists msg, run w st = (ThrewSync (Error msg), st).
Proof.
  intros w st Hsauce Hbad.
  unfold run, checkSauceRequirements, bind, get_config; simpl.
  rewrite Hsauce.
  destruct (String.eqb (getPlatformId (config (self st))) "android") eqn:Ea;
    destruct (String.eqb (getPlatformId (config (self st))) "ios") eqn:Ei;
    simpl; try (eexists; reflexivity);
    (destruct (truthy_str (env w SAUCE_KEY_ENV_VAR)) eqn:Ek;
     simpl; [| eexists; reflexivity]);
    (destruct (truthy_str (env w SAUCE_USER_ENV_VAR)) eqn:Eu;
     simpl; [| eexists; reflexivity]);
    (destruct (shouldWaitForTestResult (config (self st))) eqn:Ew;
     simpl; [| eexists; reflexivity]);
    exfalso;
    (destruct Hbad as [[Hna Hni] | [Hu | [Hk | [Hnr Hne]]]];
     [ try (apply String.eqb_eq in Ea; contradiction);
       try (apply String.eqb_eq in Ei; contradiction)
     | rewrite Hu in Eu; discriminate
     | rewrite Hk in Ek; discriminate
     | unfold shouldWaitForTestResult in Ew;
       apply orb_true_iff in Ew; destruct Ew as [Er | Ee];
       [ apply String.eqb_eq in Er; contradiction
       | apply String.eqb_eq in Ee; contradiction ] ]).
Qed.

Lemma run_rejects_bad_sauce_setup_witness :
  exists msg,
    run Sample.calm (Sample.fresh (Sample.sauce_config "android" "build" 3600000))
    = (ThrewSync (Error msg), Sample.fresh (Sample.sauce_config "android" "build" 3600000)).
Proof.
  apply (run_rejects_bad_sauce_setup Sample.calm
           (Sample.fresh (Sample.sauce_config "android" "build" 3600000))).
  - reflexivity.
  - right; right; right. split; simpl; discriminate.
Defined.

(** ** The connection watchdog: [waitForConnection] *)

(** C7. [waitForConnection] arms one timer and asks the server whether a
    device is connected once, when the timer expires: it is fulfilled if the
    answer is yes (whenever the device attached), rejected with the timeout
    error that names the duration if it is no; the trace shows the timer and
    the single query at expiry, and nothing else. *)
Theorem waitForConnection_single_check :
  forall (st : State) (srv : Server),
    server (self st) = Some srv ->
    waitForConnection st
    = ((if isDeviceConnected srv (now st + 300000)
        then Ok VUndefined
        else Throw (Error "Seems like device not connected to local server in 300 secs")),
       {| self := self st; now := now st + 300000;
          trace := trace st ++ [ (now st, SetTimeout 300000);
                                 (now st + 300000, QueryDeviceConnected) ] |}).
Proof.
  intros st srv Hsrv.
  unfold waitForConnection, waitForConnection_arm, waitForConnection_callback.
  repeat (unfold bind, get_self, get_now, emit, sleep; simpl; try rewrite Hsrv).
  unfold record; simpl. rewrite <- app_assoc; simpl.
  change (timer_delay INITIAL_CONNECTION_TIMEOUT) with 300000.
  destruct (isDeviceConnected srv (now st + 300000)); reflexivity.
Qed.

Lemma waitForConnection_single_check_witness :
  fst (waitForConnection
         (Sample.attached (Sample.local_config "run" 3600000) Sample.device_server 20100))
  = Ok VUndefined.
Proof.
  rewrite (waitForConnection_single_check
             (Sample.attached (Sample.local_config "run" 3600000) Sample.device_server 20100)
             Sample.device_server eq_refl).
  reflexivity.
Defined.

(** C10. [waitForConnection] arms its timer with the module constant,
    300000 ms, and asks the server once, 300000 ms after the call and not
    before: the answer of the server at that instant decides between
    fulfilment and the error that reports 300 secs.  No value of the
    configuration enters: with the configuration of the runner replaced by
    any other, the outcome, the two entries of the trace and the time at
    which the method is done are the same. *)
Theorem waitForConnection_wait_is_constant :
  forall (st : State) (c' : Config),
    let st' := {| self := with_config (self st) c'; now := now st; trace := trace st |} in
    INITIAL_CONNECTION_TIMEOUT = 300000
    /\ waitForConnection st'
       = match server (self st) with
         | Some srv =>
             ((if isDeviceConnected srv (now st + 300000)
               then Ok VUndefined
               else Throw (Error "Seems like device not connected to local server in 300 secs")),
              {| self := with_config (self st) c';
                 now := now st + 300000;
                 trace := trace st ++ [ (now st, SetTimeout 300000);
                                        (now st + 300000, QueryDeviceConnected) ] |})
         | None =>
             (Hang,
              {| self := with_config (self st) c';
                 now := now st + 300000;
                 trace := trace st
                            ++ [ (now st, SetTimeout 300000);
                                 (now st + 300000,
                                  Uncaught (TypeError
                                    "Cannot read property 'isDeviceConnected' of undefined")) ] |})
         end
    /\ fst (waitForConnection st') = fst (waitForConnection st)
    /\ trace (snd (waitForConnection st')) = trace (snd (waitForConnection st))
    /\ now (snd (waitForConnection st')) = now (snd (waitForConnection st)).
Proof.
  intros st c' st'. subst st'.
  split; [reflexivity |].
  unfold waitForConnection, waitForConnection_arm, waitForConnection_callback.
  repeat (unfold bind, get_self, get_now, emit, sleep, escaping, throw; simpl).
  change (timer_delay INITIAL_CONNECTION_TIMEOUT) with 300000.
  destruct (server (self st)) as [srv |]; simpl.
  - unfold record; simpl. rewrite <- !app_assoc; simpl.
    destruct (isDeviceConnected srv (now st + 300000)); simpl; repeat split; reflexivity.
  - unfold record; simpl. rewrite <- !app_assoc; simpl. repeat split; reflexivity.
Qed.

(** ** What the stages add to the trace *)

Section Adds.

Variable Q : Action -> Prop.

Lemma adds_same {A} (m : M A) :
  (forall st, exists r, m st = (r, st)) -> adds Q m.
Proof.
  intros Hm st r st' Hrun. destruct (Hm st) as [r0 Hr0].
  rewrite Hr0 in Hrun. injection Hrun as _ <-.
  split; [reflexivity |]. exists []. now rewrite app_nil_r.
Qed.

Lemma adds_ret {A} (a : A) : adds Q (ret a).
Proof. apply adds_same; intros st; now exists (Ok a). Qed.

Lemma adds_throw {A} (e : JsValue) : adds Q (@throw A e).
Proof. apply adds_same; intros st; now exists (Throw e). Qed.

Lemma adds_hang {A} : adds Q (@hang A).
Proof. apply adds_same; intros st; now exists Hang. Qed.

Lemma adds_get_self : adds Q get_self.
Proof. apply adds_same; intros st; now exists (Ok (self st)). Qed.

Lemma adds_get_config : adds Q get_config.
Proof. apply adds_same; intros st; now exists (Ok (config (self st))). Qed.

Lemma adds_get_now : adds Q get_now.
Proof. apply adds_same; intros st; now exists (Ok (now st)). Qed.

Lemma adds_lift {A} (r : A + JsValue) : adds Q (lift r).
Proof. destruct r; [apply adds_ret | apply adds_throw]. Qed.

Lemma adds_read_identifier (scope : list string) (x : string) :
  adds Q (read_identifier scope x).
Proof.
  unfold read_identifier. destruct (existsb _ _); [apply adds_ret | apply adds_throw].
Qed.

Lemma adds_sleep (d : Z) : adds Q (sleep d).
Proof.
  intros st r st' Hrun. injection Hrun as _ <-. simpl.
  split; [reflexivity |]. exists []. now rewrite app_nil_r.
Qed.

Lemma adds_modify_self (f : Runner -> Runner) :
  (forall r, config (f r) = config r) -> adds Q (modify_self f).
Proof.
  intros Hf st r st' Hrun. injection Hrun as _ <-. simpl.
  split; [apply Hf |]. exists []. now rewrite app_nil_r.
Qed.

Lemma adds_emit (a : Action) : Q a -> adds Q (emit a).
Proof.
  intros Ha st r st' Hrun. injection Hrun as _ <-. simpl.
  split; [reflexivity |]. exists [(now st, a)]. split; [reflexivity |].
  now constructor.
Qed.

Lemma adds_call (w : World) (a : Action) : Q a -> adds Q (call w a).
Proof.
  intros Ha st r st' Hrun. unfold call in Hrun.
  destruct (raises w a); injection Hrun as _ <-; simpl;
    (split; [reflexivity |]); exists [(now st, a)];
    (split; [reflexivity |]); now constructor.
Qed.

Lemma adds_then2 {A B} (m : M A) (f : A -> M B) (g : JsValue -> M B) :
  adds Q m -> (forall a, adds Q (f a)) -> (forall e, adds Q (g e)) ->
  adds Q (then2 m f g).
Proof.
  intros Hm Hf Hg st r st' Hrun. unfold then2 in Hrun.
  destruct (m st) as [r1 st1] eqn:E1.
  destruct (Hm _ _ _ E1) as [Hc1 [l1 [Ht1 Hq1]]].
  assert (Hnext : forall (k : M B), adds Q k -> k st1 = (r, st') ->
            config (self st') = config (self st)
            /\ exists l, trace st' = trace st ++ l /\ Forall (fun e => Q (snd e)) l).
  { intros k Hk Ek. destruct (Hk _ _ _ Ek) as [Hc2 [l2 [Ht2 Hq2]]].
    split; [congruence |]. exists (l1 ++ l2).
    split; [rewrite Ht2, Ht1; now rewrite app_assoc | now apply Forall_app]. }
  destruct r1 as [a | e |].
  - exact (Hnext (f a) (Hf a) Hrun).
  - exact (Hnext (g e) (Hg e) Hrun).
  - injection Hrun as _ <-. split; [exact Hc1 |]. now exists l1.
Qed.

Lemma adds_bind {A B} (m : M A) (f : A -> M B) :
  adds Q m -> (forall a, adds Q (f a)) -> adds Q (bind m f).
Proof.
  intros Hm Hf.
  assert (Heq : forall st, bind m f st = then2 m f (@throw B) st).
  { intros st. unfold bind, then2, throw. now destruct (m st) as [[a | e |] st1]. }
  intros st r st' Hrun. rewrite Heq in Hrun.
  revert st r st' Hrun. apply adds_then2; auto. intros e; apply adds_throw.
Qed.

Lemma adds_escaping {A} (m : M A) :
  (forall e, Q (Uncaught e)) -> adds Q m -> adds Q (escaping m).
Proof.
  intros Hu Hm st r st' Hrun. unfold escaping in Hrun.
  destruct (m st) as [r1 st1] eqn:E1.
  destruct (Hm _ _ _ E1) as [Hc1 [l1 [Ht1 Hq1]]].
  destruct r1 as [a | e |]; injection Hrun as _ <-; simpl.
  - split; [exact Hc1 |]. now exists l1.
  - split; [exact Hc1 |]. exists (l1 ++ [(now st1, Uncaught e)]).
    split; [rewrite Ht1; now rewrite app_assoc |].
    apply Forall_app; split; [exact Hq1 |]. constructor; [apply Hu | constructor].
  - split; [exact Hc1 |]. now exists l1.
Qed.

Lemma adds_detach {A} (d : Z) (m : M A) : adds Q m -> adds Q (detach d m).
Proof.
  intros Hm st r st' Hrun. unfold detach in Hrun.
  destruct (m {| self := self st; now := now st + d; trace := trace st |})
    as [r1 fired] eqn:E1.
  destruct (Hm _ _ _ E1) as [_ [l [Ht Hq]]]. simpl in Ht.
  injection Hrun as _ <-. simpl. split; [reflexivity |]. now exists l.
Qed.

Lemma adds_await {A} (e : Eventually A) : adds Q (await e).
Proof.
  destruct e as [d r |]; simpl.
  - apply adds_bind; [apply adds_sleep | intros _; apply adds_lift].
  - apply adds_hang.
Qed.

Lemma adds_forEach {A} (f : nat -> A -> M unit) (l : list A) :
  (forall i x, adds Q (f i x)) -> forall i, adds Q (forEach f i l).
Proof.
  intros Hf. induction l as [| x rest IH]; intros i; simpl.
  - apply adds_ret.
  - apply adds_bind; [apply Hf | intros _; apply IH].
Qed.

Lemma adds_server_on (route : string) (h : Handler) :
  Q (ServerOn route h) -> adds Q (server_on route h).
Proof.
  intros Hq. unfold server_on. apply adds_bind; [apply adds_get_self |].
  intros r. destruct (server r); [now apply adds_emit | apply adds_throw].
Qed.

Lemma adds_await_events (since : Z) (evs : list (Z * ServerEvent)) :
  (forall lvl msg, Q (Log lvl msg)) -> (forall e, Q (Uncaught e)) ->
  forall d, adds Q (await_events since evs d).
Proof.
  intros Hlog Hunc. induction evs as [| [t ev] rest IH]; intros d st r st' Hrun; simpl in Hrun.
  - injection Hrun as _ <-. split; [reflexivity |]. exists []. now rewrite app_nil_r.
  - destruct (t <? since); [exact (IH d _ _ _ Hrun) |].
    destruct (dispatch ev d) as [acts d'] eqn:Ed.
    assert (Hacts : Forall Q acts).
    { destruct ev as [data | | route]; simpl in Ed.
      - unfold onJasmineDone in Ed.
        destruct (specResults data); injection Ed as <- _;
          repeat constructor; auto.
      - injection Ed as <- _. constructor.
      - injection Ed as <- _. constructor. }
    assert (Hmap : Forall (fun e => Q (snd e)) (map (fun a => (t, a)) acts)).
    { apply Forall_map. simpl. exact Hacts. }
    destruct d' as [| v | e].
    + destruct (IH _ _ _ _ Hrun) as [Hc [l [Ht Hq]]]. simpl in *.
      split; [exact Hc |]. exists (map (fun a => (t, a)) acts ++ l).
      split; [rewrite Ht; now rewrite app_assoc | now apply Forall_app].
    + injection Hrun as _ <-. simpl. split; [reflexivity |]. eauto.
    + injection Hrun as _ <-. simpl. split; [reflexivity |]. eauto.
Qed.

End Adds.

Lemma adds_weaken (Q Q' : Action -> Prop) {A} (m : M A) :
  (forall a, Q a -> Q' a) -> adds Q m -> adds Q' m.
Proof.
  intros Himp Hm st r st' Hrun.
  destruct (Hm _ _ _ Hrun) as [Hc [l [Ht Hq]]].
  split; [exact Hc |]. exists l. split; [exact Ht |].
  eapply Forall_impl; [| exact Hq]. intros e; apply Himp.
Qed.

Lemma quiet_no_teardown (a : Action) : quiet a -> no_teardown a.
Proof. destruct a; simpl; auto. Qed.

Lemma quiet_not_command (a : Action) : quiet a -> not_command a.
Proof. destruct a; simpl; auto. Qed.

Lemma not_command_commands_only (x y : string) (a : Action) :
  not_command a -> commands_only x y a.
Proof. destruct a; simpl; tauto. Qed.

Lemma quiet_commands_only (x y : string) (a : Action) : quiet a -> commands_only x y a.
Proof. destruct a; simpl; tauto. Qed.

Create HintDb adds.

Ltac adds_leaf := solve [ intros; simpl; first [exact I | auto] ].

Ltac adds_step :=
  first
    [ solve [auto with adds nocore]
    | eapply adds_weaken;
      [ first [ exact quiet_no_teardown | exact quiet_not_command
              | apply quiet_commands_only ]
      | solve [auto with adds nocore] ]
    | apply adds_ret | apply adds_throw | apply adds_hang
    | apply adds_get_self | apply adds_get_config | apply adds_get_now
    | apply adds_lift | apply adds_read_identifier | apply adds_sleep
    | apply adds_await
    | apply adds_modify_self; intros; reflexivity
    | apply adds_emit; adds_leaf
    | apply adds_call; adds_leaf
    | apply adds_server_on; adds_leaf
    | apply adds_escaping; [adds_leaf |]
    | apply adds_detach
    | apply adds_bind; [| intros ?]
    | apply adds_then2; [| intros ? | intros ?]
    | apply adds_forEach; intros ? ?
    | match goal with
      | |- adds _ (if ?b then _ else _) => destruct b
      | |- adds _ (match ?x with _ => _ end) => destruct x
      end ].

Ltac adds_auto := repeat adds_step.

Lemma adds_tempFolder_name (Q : Action -> Prop) : adds Q tempFolder_name.
Proof. unfold tempFolder_name. adds_auto. Qed.
#[local] Hint Resolve adds_tempFolder_name : adds.

Lemma quiet_createTempProject (w : World) : adds quiet (createTempProject w).
Proof. unfold createTempProject, logger. adds_auto. Qed.
#[local] Hint Resolve quiet_createTempProject : adds.

Lemma quiet_prepareProjectToRunTests (w : World) : adds quiet (prepareProjectToRunTests w).
Proof.
  unfold prepareProjectToRunTests, installPlugins, setUpStartPage, installPlatform,
    checkPlatformRequirements, logger.
  adds_auto.
Qed.
#[local] Hint Resolve quiet_prepareProjectToRunTests : adds.

Lemma quiet_injectReporters (w : World) : adds quiet (injectReporters w).
Proof. unfold injectReporters. adds_auto. Qed.
#[local] Hint Resolve quiet_injectReporters : adds.

Lemma quiet_subcribeForEvents : adds quiet subcribeForEvents.
Proof. unfold subcribeForEvents. adds_auto. Qed.
#[local] Hint Resolve quiet_subcribeForEvents : adds.

Lemma quiet_writeMedicConnectionUrl (w : World) (url : string) :
  adds quiet (writeMedicConnectionUrl w url).
Proof. unfold writeMedicConnectionUrl, logger. adds_auto. Qed.
#[local] Hint Resolve quiet_writeMedicConnectionUrl : adds.

Lemma quiet_waitForTests : adds quiet waitForTests.
Proof.
  unfold waitForTests, logger. adds_auto.
  intros st r st' Hrun.
  eapply (adds_await_events quiet); [| | exact Hrun]; adds_leaf.
Qed.
#[local] Hint Resolve quiet_waitForTests : adds.

Lemma quiet_waitForConnection : adds quiet waitForConnection.
Proof.
  unfold waitForConnection, waitForConnection_arm, waitForConnection_callback.
  adds_auto.
Qed.
#[local] Hint Resolve quiet_waitForConnection : adds.

Lemma quiet_getAppName : adds quiet getAppName.
Proof. unfold getAppName. adds_auto. Qed.
#[local] Hint Resolve quiet_getAppName : adds.

Lemma quiet_runSauceTests (w : World) : adds quiet (runSauceTests w).
Proof.
  unfold runSauceTests, uploadApp, getBinaryPath, logger. adds_auto.
Qed.
#[local] Hint Resolve quiet_runSauceTests : adds.

Lemma quiet_runTests_onSuccess (code : JsValue) : adds quiet (runTests_onSuccess code).
Proof.
  unfold runTests_onSuccess, waitForConnection_arm, waitForConnection_callback.
  adds_auto.
Qed.
#[local] Hint Resolve quiet_runTests_onSuccess : adds.

Lemma quiet_runTests_onFailure (command : string) (code : JsValue) :
  adds quiet (runTests_onFailure command code).
Proof. unfold runTests_onFailure, logger. adds_auto. Qed.
#[local] Hint Resolve quiet_runTests_onFailure : adds.

Lemma no_teardown_runTests (w : World) : adds no_teardown (runTests w).
Proof. unfold runTests, logger. adds_auto. Qed.
#[local] Hint Resolve no_teardown_runTests : adds.

Lemma quiet_run_provision (w : World) : adds quiet (run_provision w).
Proof. unfold run_provision. adds_auto. Qed.
#[local] Hint Resolve quiet_run_provision : adds.

Lemma no_teardown_pipeline (w : World) : adds no_teardown (pipeline w).
Proof. unfold pipeline, run_onServer. adds_auto. Qed.

(** ** Teardown *)

Lemma teardowns_app (l1 l2 : list Entry) :
  teardowns (l1 ++ l2) = (teardowns l1 + teardowns l2)%nat.
Proof. unfold teardowns. now rewrite filter_app, length_app. Qed.

Lemma teardowns_none (l : list Entry) :
  Forall (fun e => no_teardown (snd e)) l -> teardowns l = 0%nat.
Proof.
  induction 1 as [| [t a] l Ha _ IH]; [reflexivity |].
  unfold teardowns in *; simpl. unfold is_teardown at 1; simpl.
  destruct a; simpl in *; try exact IH. contradiction.
Qed.

Lemma teardowns_filter (f : Entry -> bool) (l : list Entry) :
  teardowns l = 0%nat -> teardowns (filter f l) = 0%nat.
Proof.
  unfold teardowns. induction l as [| e l IH]; [reflexivity |]; simpl.
  destruct (is_teardown e) eqn:Et; simpl; [discriminate |].
  intros Hl. destruct (f e); simpl; [rewrite Et |]; auto.
Qed.

(** [cleanUpProject] is entered, does its calls in the same instant, and
    either returns or throws. *)
Lemma cleanUpProject_spec (w : World) (st : State) (r : Res unit) (st2 : State) :
  cleanUpProject w st = (r, st2) ->
  now st2 = now st
  /\ r <> Hang
  /\ exists l, trace st2 = trace st ++ (now st, EnterCleanUpProject) :: l
               /\ Forall (fun e => no_teardown (snd e)) l.
Proof.
  destruct st as [[cfg folder plugins srv cwd] t tr].
  unfold cleanUpProject, tempFolder_name, logger.
  repeat (unfold bind, get_config, get_self, emit, call, throw, ret, record; simpl).
  destruct (getShouldCleanUpAfterRun cfg); simpl;
    [ destruct folder as [name |]; simpl;
      [ destruct (raises w ShellPopd); simpl;
        [| destruct (raises w (ShellRm "-rf" name)); simpl ] |] |];
    intros H; inversion H; subst; clear H; simpl;
    (split; [reflexivity |]); (split; [discriminate |]);
    repeat rewrite <- app_assoc; simpl;
    (eexists; split; [reflexivity |]); repeat constructor.
Qed.

Lemma teardowns_filter_one (f : Entry -> bool) (t : Z) (pre l : list Entry) :
  teardowns pre = 0%nat ->
  Forall (fun e => no_teardown (snd e)) l ->
  teardowns (filter f (pre ++ (t, EnterCleanUpProject) :: l))
  = (if f (t, EnterCleanUpProject) then 1%nat else 0%nat).
Proof.
  intros Hpre Hl.
  change ((t, EnterCleanUpProject) :: l) with ([(t, EnterCleanUpProject)] ++ l).
  rewrite !filter_app, !teardowns_app.
  rewrite (teardowns_filter _ pre Hpre), (teardowns_filter _ l (teardowns_none l Hl)).
  simpl. destruct (f (t, EnterCleanUpProject)); reflexivity.
Qed.

Lemma timeout_unsettled (deadline : Z) (st : State) :
  teardowns (trace st) = 0%nat -> teardown_law deadline 0 (timeout deadline Hang st).
Proof.
  intros Hpre. unfold teardown_law; simpl. right.
  repeat split; now apply teardowns_filter.
Qed.

Lemma timeout_settled (deadline : Z) (r : Res JsValue) (st : State) (pre l : list Entry) :
  r <> Hang ->
  trace st = pre ++ (now st, EnterCleanUpProject) :: l ->
  teardowns pre = 0%nat ->
  Forall (fun e => no_teardown (snd e)) l ->
  teardown_law deadline 1 (timeout deadline r st).
Proof.
  intros Hr Ht Hpre Hl.
  assert (Hin : forall d,
            teardowns (before (in_time (now st) d st)) = 1%nat
            /\ teardowns (after (in_time (now st) d st)) = 0%nat).
  { intros d. simpl. rewrite Ht, !(teardowns_filter_one _ _ _ _ Hpre Hl). simpl.
    now rewrite Z.leb_refl, Z.ltb_irrefl. }
  assert (Hout : (now st <? deadline) = false ->
            teardowns (before (timed_out deadline st)) = 0%nat
            /\ teardowns (after (timed_out deadline st)) = 1%nat).
  { intros Hlate. simpl. rewrite Ht, !(teardowns_filter_one _ _ _ _ Hpre Hl). simpl.
    rewrite Hlate. apply Z.ltb_ge in Hlate. apply Z.leb_le in Hlate. now rewrite Hlate. }
  unfold teardown_law, timeout.
  destruct r as [v | e |]; [| | congruence];
    destruct (now st <? deadline) eqn:Hlt.
  - destruct (Hin (Fulfils (now st) v)) as [Hb Ha].
    apply Z.ltb_lt in Hlt. cbn [delivery in_time]. auto.
  - destruct (Hout eq_refl) as [Hb Ha]. cbn [delivery timed_out]. right. auto.
  - destruct (Hin (Rejects (now st) e)) as [Hb Ha].
    apply Z.ltb_lt in Hlt. cbn [delivery in_time]. left. auto.
  - destruct (Hout eq_refl) as [Hb Ha]. cbn [delivery timed_out]. right. auto.
Qed.

(** What [run] leaves behind when the configuration is accepted. *)
Lemma run_teardown (w : World) (st : State) (deadline : Z) :
  teardowns (trace st) = 0%nat ->
  match run w st with
  | (ThrewSync _, st') => st' = st
  | (PromiseOf r, st') =>
      teardown_law deadline (teardown_to_come (fst (pipeline w st))) (timeout deadline r st')
  end.
Proof.
  intros Hst. unfold run.
  pose proof (checkSauceRequirements_state w st) as Hsame.
  destruct (checkSauceRequirements w st) as [rc stc]; simpl in Hsame; subst stc.
  assert (Hfin : let (r, st') := fin (pipeline w) (cleanUpProject w) st in
                 teardown_law deadline (teardown_to_come (fst (pipeline w st)))
                   (timeout deadline r st')).
  { unfold fin.
    destruct (pipeline w st) as [rp st1] eqn:Ep.
    destruct (no_teardown_pipeline w _ _ _ Ep) as [_ [l1 [Ht1 Hq1]]].
    assert (Hpre : teardowns (trace st1) = 0%nat).
    { rewrite Ht1, teardowns_app, Hst, (teardowns_none l1 Hq1). reflexivity. }
    destruct rp as [v | e |]; [| | now apply timeout_unsettled];
      destruct (cleanUpProject w st1) as [r2 st2] eqn:Ecl;
      destruct (cleanUpProject_spec w _ _ _ Ecl) as [Hnow [Hnh [l2 [Ht2 Hq2]]]];
      rewrite <- Hnow in Ht2;
      (destruct r2 as [[] | e2 |]; [| | congruence]);
      (eapply timeout_settled; [discriminate | exact Ht2 | exact Hpre | exact Hq2]). }
  destruct rc as [[] | e |]; [| reflexivity |];
    destruct (fin (pipeline w) (cleanUpProject w) st) as [r st']; exact Hfin.
Qed.

(** C4, as the code has it.  Whatever the collaborators do: a run whose
    promise settles before the overall timeout has entered [cleanUpProject]
    exactly once by then and does not enter it again; a call that throws
    (the configuration is refused) never enters it; and when the overall
    timeout wins, the caller gets the timeout error, [cleanUpProject] has
    not been entered before that, and it is entered afterwards exactly once
    if the chain of [run] settles, and never if the chain never settles. *)
Theorem teardown_once_unless_refused_or_timed_out :
  forall (w : World) (c : Config) (stored : option string),
    let rep := exports_run w c stored in
    let deadline := timer_delay (getTimeout c) in
    match delivery rep with
    | Raised _ => teardowns (before rep) = 0%nat /\ teardowns (after rep) = 0%nat
    | Fulfils t _ =>
        t < deadline /\ teardowns (before rep) = 1%nat /\ teardowns (after rep) = 0%nat
    | Rejects t e =>
        (t < deadline /\ teardowns (before rep) = 1%nat /\ teardowns (after rep) = 0%nat)
        \/ (t = deadline /\ e = Error TIMEOUT_MESSAGE
            /\ teardowns (before rep) = 0%nat
            /\ teardowns (after rep)
               = match fst (pipeline w (start_state w c stored)) with
                 | Hang => 0%nat
                 | _ => 1%nat
                 end)
    end.
Proof.
  intros w c stored. cbv zeta.
  change (teardown_law (timer_delay (getTimeout c))
            (teardown_to_come (fst (pipeline w (start_state w c stored))))
            (exports_run w c stored)).
  unfold exports_run.
  destruct (raises w (SetVerboseLevel (isVerbose c))); [split; reflexivity |].
  change {| self := new_runner c (if truthy_str stored then stored else Some (process_cwd w));
            now := 0;
            trace := [(0, SetVerboseLevel (isVerbose c))] |}
    with (start_state w c stored).
  pose proof (run_teardown w (start_state w c stored) (timer_delay (getTimeout c)) eq_refl)
    as Hrun.
  destruct (run w (start_state w c stored)) as [[e | r] st'].
  - subst st'. split; reflexivity.
  - exact Hrun.
Qed.

(** C4 fails as stated: with a build that takes 20 s and an overall timeout
    of half a second, the caller has the timeout error at 500 ms and
    [cleanUpProject] is entered only later; and a run refused by
    [checkSauceRequirements] never enters it. *)
Lemma teardown_not_before_timeout_result :
  let slow := exports_run Sample.calm (Sample.local_config "build" 500) None in
  let refused := exports_run Sample.calm (Sample.sauce_config "windows" "run" 3600000) None in
  delivery slow = Rejects 500 (Error TIMEOUT_MESSAGE)
  /\ teardowns (before slow) <> 1%nat
  /\ teardowns (after slow) = 1%nat
  /\ delivery refused = Raised (Error "Sauce Labs only supports Android and iOS")
  /\ teardowns (before refused ++ after refused) <> 1%nat.
Proof.
  vm_compute. repeat split; discriminate.
Qed.

Lemma cleanUpProject_throws (w : World) (st st2 : State) (e : JsValue) :
  cleanUpProject w st = (Throw e, st2) ->
  exists l a, trace st2 = l ++ [(now st, a)]
              /\ (a = EnterCleanUpProject \/ raises w a = Some e).
Proof.
  destruct st as [[cfg folder plugins srv cwd] t tr].
  unfold cleanUpProject, tempFolder_name, logger.
  repeat (unfold bind, get_config, get_self, emit, call, throw, ret, record; simpl).
  destruct (getShouldCleanUpAfterRun cfg); simpl;
    [ destruct folder as [name |]; simpl;
      [ destruct (raises w ShellPopd) eqn:Epop; simpl;
        [| destruct (raises w (ShellRm "-rf" name)) eqn:Erm; simpl ] |] |];
    intros H; inversion H; subst; clear H; simpl.
  - eexists; exists ShellPopd; split; [reflexivity | now right].
  - eexists; exists (ShellRm "-rf" name); split; [reflexivity | now right].
  - eexists; exists EnterCleanUpProject; split; [reflexivity | now left].
Qed.

(** C5, as the code has it.  When the configuration is accepted and the
    chain of [run] has settled: an error thrown by [cleanUpProject] becomes
    the reason with which the promise of [run] is rejected, in place of the
    result or error of the chain, and nothing is done after the throw (the
    trace ends with the entry into the method or with the call that threw:
    the error is not logged); when [cleanUpProject] returns, the result or
    error of the chain is the one of [run]. *)
Theorem teardown_error_replaces_result :
  forall (w : World) (st : State) (r : Res JsValue) (st1 : State),
    fst (checkSauceRequirements w st) = Ok tt ->
    pipeline w st = (r, st1) ->
    r <> Hang ->
    match cleanUpProject w st1 with
    | (Throw e, st2) =>
        run w st = (PromiseOf (Throw e), st2)
        /\ exists l a, trace st2 = l ++ [(now st1, a)]
                       /\ (a = EnterCleanUpProject \/ raises w a = Some e)
    | (_, st2) => run w st = (PromiseOf r, st2)
    end.
Proof.
  intros w st r st1 Hcheck Hpipe Hr.
  unfold run.
  pose proof (checkSauceRequirements_state w st) as Hsame.
  destruct (checkSauceRequirements w st) as [rc stc]; simpl in *; subst rc stc.
  unfold fin. rewrite Hpipe.
  destruct (cleanUpProject w st1) as [r2 st2] eqn:Ecl.
  destruct (cleanUpProject_spec w _ _ _ Ecl) as [_ [Hnh _]].
  destruct r2 as [[] | e |]; [| | congruence].
  - destruct r; [reflexivity | reflexivity | congruence].
  - split; [destruct r; [reflexivity | reflexivity | congruence] |].
    exact (cleanUpProject_throws w _ _ _ Ecl).
Qed.

Lemma teardown_error_replaces_result_witness :
  fst (run Sample.no_tmp (Sample.fresh (Sample.local_config "build" 3600000)))
  = PromiseOf (Throw (TypeError "Cannot read property 'name' of null")).
Proof.
  pose proof (teardown_error_replaces_result Sample.no_tmp
                (Sample.fresh (Sample.local_config "build" 3600000))
                (fst (pipeline Sample.no_tmp (Sample.fresh (Sample.local_config "build" 3600000))))
                (snd (pipeline Sample.no_tmp (Sample.fresh (Sample.local_config "build" 3600000))))
                eq_refl
                (surjective_pairing _)
                ltac:(vm_compute; discriminate)) as H.
  assert (E : cleanUpProject Sample.no_tmp
                (snd (pipeline Sample.no_tmp (Sample.fresh (Sample.local_config "build" 3600000))))
              = (Throw (TypeError "Cannot read property 'name' of null"),
                 snd (cleanUpProject Sample.no_tmp
                        (snd (pipeline Sample.no_tmp
                                (Sample.fresh (Sample.local_config "build" 3600000)))))))
    by (vm_compute; reflexivity).
  rewrite E in H. destruct H as [H _]. rewrite H. reflexivity.
Defined.

(** C5 fails as stated: when the temporary directory cannot be made, the
    chain of [run] is rejected with that error; [cleanUpProject] then reads
    the name of a folder that is null and throws, and the caller gets the
    TypeError of the teardown instead; no log call follows. *)
Lemma teardown_error_masks_primary_error :
  let c := Sample.local_config "build" 3600000 in
  fst (pipeline Sample.no_tmp (Sample.fresh c))
  = Throw (Error "ENOSPC: no space left on device")
  /\ delivery (exports_run Sample.no_tmp c None)
     = Rejects 0 (TypeError "Cannot read property 'name' of null")
  /\ delivery (exports_run Sample.no_tmp c None)
     <> Rejects 0 (Error "ENOSPC: no space left on device")
  /\ map snd (before (exports_run Sample.no_tmp c None))
     = [SetVerboseLevel false; TmpDirSync; EnterCleanUpProject]
  /\ after (exports_run Sample.no_tmp c None) = [].
Proof.
  vm_compute. repeat split; discriminate.
Qed.

(** ** Order of the wiring and of the build/run command *)

Lemma bind_inv {A B} (m : M A) (f : A -> M B) (st : State) (r : Res B) (st' : State) :
  bind m f st = (r, st') ->
  (exists a st1, m st = (Ok a, st1) /\ f a st1 = (r, st'))
  \/ (exists e, m st = (Throw e, st') /\ r = Throw e)
  \/ (m st = (Hang, st') /\ r = Hang).
Proof.
  unfold bind. destruct (m st) as [[a | e |] st1]; intros H.
  - left. now exists a, st1.
  - right; left. injection H as <- <-. now exists e.
  - right; right. injection H as <- <-. now split.
Qed.

Lemma record_as_record_at (a : Action) (st : State) :
  record a st = record_at (now st) [a] st.
Proof. reflexivity. Qed.

Lemma record_at_twice (t : Z) (l1 l2 : list Action) (st : State) :
  record_at t l2 (record_at t l1 st) = record_at t (l1 ++ l2) st.
Proof.
  unfold record_at; simpl. now rewrite map_app, app_assoc.
Qed.

Lemma server_on_ok (route : string) (h : Handler) (st : State) (srv : Server) :
  server (self st) = Some srv ->
  server_on route h st = (Ok tt, record_at (now st) [ServerOn route h] st).
Proof.
  intros Hsrv. unfold server_on, bind, get_self, emit. now rewrite Hsrv.
Qed.

Lemma forEach_reporters (route : string) (srv : Server) (rs : list Reporter) :
  forall (i : nat) (st : State),
    server (self st) = Some srv ->
    forEach (fun i reporter =>
               if hasMethod reporter route
               then server_on route (ReporterMethod i route)
               else ret tt) i rs st
    = (Ok tt, record_at (now st) (subs_for_route route i rs) st).
Proof.
  induction rs as [| reporter rest IH]; intros i st Hsrv; simpl.
  - now rewrite record_at_nil.
  - unfold bind. destruct (hasMethod reporter route).
    + rewrite (server_on_ok _ _ _ srv Hsrv).
      rewrite (IH (S i) (record_at (now st) [ServerOn route (ReporterMethod i route)] st) Hsrv).
      simpl now. now rewrite record_at_twice.
    + change (ret tt st) with (Ok tt, st). cbv beta iota.
      now rewrite (IH (S i) st Hsrv).
Qed.

Lemma forEach_routes (srv : Server) (rs : list Reporter) (routes : list string) :
  forall (k : nat) (st : State),
    server (self st) = Some srv ->
    forEach (fun _ route =>
               forEach (fun i reporter =>
                          if hasMethod reporter route
                          then server_on route (ReporterMethod i route)
                          else ret tt) 0%nat rs) k routes st
    = (Ok tt, record_at (now st)
                (flat_map (fun route => subs_for_route route 0%nat rs) routes) st).
Proof.
  induction routes as [| route rest IH]; intros k st Hsrv; simpl.
  - now rewrite record_at_nil.
  - unfold bind. rewrite (forEach_reporters route srv rs 0%nat st Hsrv).
    rewrite (IH (S k) (record_at (now st) (subs_for_route route 0%nat rs) st) Hsrv).
    simpl now. now rewrite record_at_twice.
Qed.

Lemma bind_ok {A B} (m : M A) (f : A -> M B) (st st1 : State) (a : A) :
  m st = (Ok a, st1) -> bind m f st = f a st1.
Proof. intros H. unfold bind. now rewrite H. Qed.

Lemma bind_throw {A B} (m : M A) (f : A -> M B) (st st1 : State) (e : JsValue) :
  m st = (Throw e, st1) -> bind m f st = (Throw e, st1).
Proof. intros H. unfold bind. now rewrite H. Qed.

Lemma injectReporters_run (w : World) (st : State) (srv : Server) :
  server (self st) = Some srv ->
  let asked := GetReporters (getReportSavePath (config (self st))) in
  injectReporters w st
  = match raises w asked with
    | Some e => (Throw e, record_at (now st) [asked] st)
    | None => (Ok tt, record_at (now st) (asked :: reporter_subscriptions (reporters w)) st)
    end.
Proof.
  intros Hsrv asked. unfold injectReporters.
  rewrite (bind_ok _ _ st st (config (self st))) by reflexivity.
  fold asked. unfold call.
  destruct (raises w asked) as [e |].
  - erewrite bind_throw; reflexivity.
  - erewrite bind_ok; [| reflexivity].
    rewrite (forEach_routes srv (reporters w) lifecycle_routes 0%nat (record asked st) Hsrv).
    rewrite record_as_record_at. simpl now. now rewrite record_at_twice.
Qed.

Lemma subcribeForEvents_run (st : State) (srv : Server) :
  server (self st) = Some srv ->
  subcribeForEvents st
  = (Ok tt, record_at (now st) [ ServerOn "deviceLog" DeviceLogHandler;
                                 ServerOn "deviceInfo" DeviceInfoHandler ] st).
Proof.
  intros Hsrv. unfold subcribeForEvents.
  erewrite bind_ok; [| exact (server_on_ok _ _ st srv Hsrv)].
  rewrite (server_on_ok _ _ (record_at (now st) [ServerOn "deviceLog" DeviceLogHandler] st)
             srv Hsrv).
  simpl now. now rewrite record_at_twice.
Qed.

Lemma writeMedicConnectionUrl_run (w : World) (url : string) (st : State) :
  let said := Log LNormal ("cordova-paramedic: writing medic log url to project " +++ url) in
  let file := WriteFileSync medic_json_path (json_logurl url) in
  writeMedicConnectionUrl w url st
  = (match raises w file with
     | Some e => Throw e
     | None => Ok tt
     end, record_at (now st) [said; file] st).
Proof.
  intros said file. unfold writeMedicConnectionUrl, logger.
  erewrite bind_ok; [| reflexivity]. fold file. unfold call.
  rewrite !record_as_record_at. simpl now. rewrite record_at_twice. simpl app.
  destruct (raises w file); reflexivity.
Qed.

(** The second callback of [run], step by step. *)
Lemma run_onServer_unfold (w : World) (srv : Server) (st : State) :
  let c := config (self st) in
  let st1 := {| self := with_server (self st) (Some srv); now := now st; trace := trace st |} in
  let file := WriteFileSync medic_json_path (json_logurl (getConnectionUrl srv (getPlatformId c))) in
  run_onServer w srv st
  = match raises w (GetReporters (getReportSavePath c)) with
    | Some e => (Throw e, record_at (now st) [GetReporters (getReportSavePath c)] st1)
    | None =>
        match raises w file with
        | Some e => (Throw e, wired w srv st)
        | None => runTests w (wired w srv st)
        end
    end.
Proof.
  intros c st1 file. unfold run_onServer.
  rewrite (bind_ok _ _ st st1 tt) by reflexivity.
  pose proof (injectReporters_run w st1 srv eq_refl) as Hinject. cbv zeta in Hinject.
  change (config (self st1)) with c in Hinject. change (now st1) with (now st) in Hinject.
  destruct (raises w (GetReporters (getReportSavePath c))) as [e |].
  - now rewrite (bind_throw _ _ _ _ _ Hinject).
  - rewrite (bind_ok _ _ _ _ _ Hinject).
    pose proof (subcribeForEvents_run
                  (record_at (now st)
                     (GetReporters (getReportSavePath c)
                        :: reporter_subscriptions (reporters w)) st1)
                  srv eq_refl) as Hsub.
    rewrite (bind_ok _ _ _ _ _ Hsub).
    simpl now. rewrite record_at_twice.
    erewrite bind_ok; [| reflexivity].
    change (config (self (record_at (now st) _ st1))) with c.
    pose proof (writeMedicConnectionUrl_run w (getConnectionUrl srv (getPlatformId c))
                  (record_at (now st)
                     ((GetReporters (getReportSavePath c)
                         :: reporter_subscriptions (reporters w))
                        ++ [ServerOn "deviceLog" DeviceLogHandler;
                            ServerOn "deviceInfo" DeviceInfoHandler]) st1)) as Hwrite.
    cbv zeta in Hwrite. fold file in Hwrite. simpl now in Hwrite.
    rewrite record_at_twice in Hwrite.
    assert (Hwired :
      record_at (now st)
        (((GetReporters (getReportSavePath c) :: reporter_subscriptions (reporters w))
            ++ [ServerOn "deviceLog" DeviceLogHandler; ServerOn "deviceInfo" DeviceInfoHandler])
           ++ [Log LNormal ("cordova-paramedic: writing medic log url to project "
                              +++ getConnectionUrl srv (getPlatformId c)); file]) st1
      = wired w srv st).
    { unfold wired, wiring. fold c. fold st1. fold file. f_equal.
      simpl. now rewrite <- app_assoc. }
    rewrite Hwired in Hwrite.
    destruct (raises w file) as [e |].
    + now rewrite (bind_throw _ _ _ _ _ Hwrite).
    + now rewrite (bind_ok _ _ _ _ _ Hwrite).
Qed.

Lemma run_provision_server (w : World) (st st1 : State) (srv : Server) :
  run_provision w st = (Ok srv, st1) ->
  exists d, startServer w = After d (inl srv).
Proof.
  unfold run_provision. intros H.
  repeat (apply bind_inv in H;
          destruct H as [(? & ? & _ & H) | [(? & _ & ?) | (_ & ?)]]; try discriminate).
  destruct (startServer w) as [d [s | e] |]; simpl in H.
  - unfold bind, sleep, ret in H. injection H as -> _. now exists d.
  - unfold bind, sleep, throw in H. discriminate.
  - discriminate.
Qed.

Lemma commands_runTests (w : World) (st : State) (r : Res JsValue) (st' : State) :
  runTests w st = (r, st') ->
  exists l, trace st' = trace st ++ l
            /\ Forall (fun e => commands_only (getCommandForBuilding (config (self st)))
                                  (getCommandForStartingTests (config (self st))) (snd e)) l.
Proof.
  intros H. unfold runTests in H.
  rewrite (bind_ok _ _ st st (config (self st))) in H by reflexivity.
  set (c := config (self st)) in *.
  assert (Hadds : adds (commands_only (getCommandForBuilding c) (getCommandForStartingTests c))
            (if shouldUseSauce c
             then logger LNormal ("cordova-paramedic: running command " +++ getCommandForBuilding c) ;;
                  call w (ExecPromise (getCommandForBuilding c)) ;;
                  await (execPromise w (getCommandForBuilding c)) ;;
                  runSauceTests w
             else logger LNormal ("cordova-paramedic: running command "
                                    +++ getCommandForStartingTests c) ;;
                  call w (ExecPromise (getCommandForStartingTests c)) ;;
                  then2 (await (execPromise w (getCommandForStartingTests c)))
                    runTests_onSuccess
                    (runTests_onFailure (getCommandForStartingTests c)))).
  { unfold logger. adds_auto. }
  destruct (Hadds _ _ _ H) as [_ Hl]. exact Hl.
Qed.

Lemma not_command_cleanUpProject (w : World) : adds not_command (cleanUpProject w).
Proof. unfold cleanUpProject, logger. adds_auto. Qed.

Lemma not_command_subs_for_route (route : string) (rs : list Reporter) :
  forall i, Forall not_command (subs_for_route route i rs).
Proof.
  induction rs as [| reporter rest IH]; intros i; simpl; [constructor |].
  apply Forall_app; split; [| apply IH].
  destruct (hasMethod reporter route); repeat constructor.
Qed.

Lemma not_command_wiring (w : World) (srv : Server) (c : Config) :
  Forall not_command (wiring w srv c).
Proof.
  unfold wiring. constructor; [exact I |].
  apply Forall_app; split; [| repeat constructor].
  unfold reporter_subscriptions. apply Forall_flat_map.
  apply Forall_forall. intros route _. apply not_command_subs_for_route.
Qed.

Lemma subs_for_route_In (route : string) (rs : list Reporter) :
  forall (i0 i : nat) (reporter : Reporter),
    nth_error rs i = Some reporter ->
    hasMethod reporter route = true ->
    In (ServerOn route (ReporterMethod (i0 + i) route)) (subs_for_route route i0 rs).
Proof.
  induction rs as [| r0 rest IH]; intros i0 i reporter Hnth Hhas.
  - destruct i; discriminate.
  - simpl. apply in_or_app. destruct i as [| i]; simpl in Hnth.
    + injection Hnth as ->. rewrite Hhas, Nat.add_0_r. left; now left.
    + right. replace (i0 + S i)%nat with (S i0 + i)%nat by lia. now apply (IH (S i0) i reporter).
Qed.

Lemma wiring_contents (w : World) (srv : Server) (c : Config) :
  (forall (i : nat) (reporter : Reporter) (route : string),
      nth_error (reporters w) i = Some reporter ->
      In route lifecycle_routes ->
      hasMethod reporter route = true ->
      In (ServerOn route (ReporterMethod i route)) (wiring w srv c))
  /\ In (ServerOn "deviceLog" DeviceLogHandler) (wiring w srv c)
  /\ In (ServerOn "deviceInfo" DeviceInfoHandler) (wiring w srv c)
  /\ In (WriteFileSync "www/medic.json" (json_logurl (getConnectionUrl srv (getPlatformId c))))
        (wiring w srv c).
Proof.
  unfold wiring. repeat split.
  - intros i reporter route Hnth Hroute Hhas. right. apply in_or_app; left.
    unfold reporter_subscriptions. apply in_flat_map. exists route. split; [exact Hroute |].
    exact (subs_for_route_In route (reporters w) 0%nat i reporter Hnth Hhas).
  - right. apply in_or_app; right. simpl; auto.
  - right. apply in_or_app; right. simpl; auto.
  - right. apply in_or_app; right. simpl; auto 6.
Qed.

(** The one command of a trace: what precedes it is determined. *)
Lemma command_unique (l1 l2 pre post : list Entry) (t0 t : Z) (cmd0 cmd : string) :
  Forall (fun e => not_command (snd e)) l1 ->
  Forall (fun e => not_command (snd e)) l2 ->
  l1 ++ (t0, ExecPromise cmd0) :: l2 = pre ++ (t, ExecPromise cmd) :: post ->
  pre = l1 /\ cmd = cmd0.
Proof.
  intros Hq1 Hq2. revert pre.
  induction Hq1 as [| e l1 He _ IH]; intros pre Heq; simpl in Heq.
  - destruct pre as [| p pre]; simpl in Heq.
    + injection Heq as _ Hc _. now split.
    + exfalso. injection Heq as _ Heq. subst l2.
      apply Forall_app in Hq2. destruct Hq2 as [_ Hq2].
      inversion Hq2 as [| ? ? Hc _]. exact Hc.
  - destruct pre as [| p pre]; simpl in Heq.
    + exfalso. injection Heq as Hhead _. subst e. exact He.
    + injection Heq as <- Heq. destruct (IH pre Heq) as [-> ->]. now split.
Qed.

Lemma append_assoc (a b c : string) : (a +++ b) +++ c = a +++ b +++ c.
Proof. induction a as [| x a IH]; simpl; [reflexivity | now rewrite IH]. Qed.

Lemma json_escape_char_plain (c : ascii) :
  json_plain c = true -> json_escape_char c = str1 c.
Proof.
  unfold json_plain, json_escape_char. set (n := nat_of_ascii c). cbv zeta.
  intros H. apply andb_prop in H. destruct H as [H H92].
  apply andb_prop in H. destruct H as [H32 H34].
  apply Nat.leb_le in H32. apply negb_true_iff in H34, H92.
  rewrite H34, H92.
  assert (Heq : forall k, (k < 32)%nat -> Nat.eqb n k = false)
    by (intros k Hk; apply Nat.eqb_neq; lia).
  rewrite !Heq by lia.
  assert (Hlt : Nat.ltb n 32 = false) by (apply Nat.ltb_ge; exact H32).
  now rewrite Hlt.
Qed.

Lemma json_escape_plain (s : string) :
  needs_no_escape s = true -> json_escape s = s.
Proof.
  unfold needs_no_escape. induction s as [| c s IH]; simpl; [reflexivity |].
  intros H. apply andb_prop in H. destruct H as [Hc Hs].
  rewrite (json_escape_char_plain c Hc), (IH Hs). reflexivity.
Qed.

Lemma json_logurl_closed (url : string) :
  let q := str1 dquote in
  json_logurl url
  = "{" +++ q +++ "logurl" +++ q +++ ":" +++ q +++ json_escape url +++ q +++ "}".
Proof.
  cbv zeta. unfold json_logurl, json_string.
  rewrite !append_assoc. reflexivity.
Qed.

(** [createTempProject], when nothing throws. *)
Lemma createTempProject_ok (w : World) (st st1 : State) :
  createTempProject w st = (Ok tt, st1) ->
  trace st1
  = trace st
      ++ map (fun a => (now st, a))
           [ TmpDirSync; TmpSetGracefulCleanup;
             Log LInfo ("cordova-paramedic: creating temp project at " +++ tmpName w);
             ExecSync ("cordova create " +++ tmpName w);
             ShellPushd (tmpName w) ].
Proof.
  unfold createTempProject, tempFolder_name, logger.
  unfold bind, call, emit, modify_self, get_self, ret, record.
  cbn [self now trace tempFolder with_tempFolder].
  destruct (raises w TmpDirSync); [discriminate |].
  cbn [self now trace tempFolder with_tempFolder].
  destruct (raises w TmpSetGracefulCleanup); [discriminate |].
  cbn [self now trace tempFolder with_tempFolder].
  destruct (raises w (ExecSync _)); [discriminate |].
  destruct (raises w (ShellPushd _)); [discriminate |].
  intros H. injection H as <-. cbn [trace map]. now rewrite <- !app_assoc.
Qed.

(** From the scaffolded project until the server is there, nothing changes
    the working directory, removes anything or issues a command. *)
Lemma provision_in_place (w : World) :
  adds (fun a => stays_put a /\ not_command a)
    (prepareProjectToRunTests w ;;
     c <- get_config ;;
     call w (StartServer (getPorts c) (getExternalServerUrl c) (getUseTunnel c)) ;;
     await (startServer w)).
Proof.
  unfold prepareProjectToRunTests, installPlugins, setUpStartPage, installPlatform,
    checkPlatformRequirements, logger.
  adds_auto.
Qed.

Lemma launch_trace (w : World) (cmd : string) (k : M JsValue)
      (st : State) (r : Res JsValue) (st' : State) :
  adds quiet k ->
  (logger LNormal ("cordova-paramedic: running command " +++ cmd) ;;
   call w (ExecPromise cmd) ;;
   k) st = (r, st') ->
  exists rest,
    trace st' = trace st
                  ++ (now st, Log LNormal ("cordova-paramedic: running command " +++ cmd))
                  :: (now st, ExecPromise cmd) :: rest
    /\ Forall (fun e => not_command (snd e)) rest.
Proof.
  intros Hk H. unfold logger in H.
  rewrite (bind_ok _ _ st (record (Log LNormal ("cordova-paramedic: running command " +++ cmd)) st) tt)
    in H by reflexivity.
  set (st0 := record (Log LNormal ("cordova-paramedic: running command " +++ cmd)) st) in *.
  assert (Hcall : forall r1 st1, call w (ExecPromise cmd) st0 = (r1, st1) ->
                                 st1 = record (ExecPromise cmd) st0).
  { intros r1 st1. unfold call. destruct (raises w _); intros E; now injection E as _ <-. }
  assert (Hdone : trace (record (ExecPromise cmd) st0)
                  = trace st
                      ++ (now st, Log LNormal ("cordova-paramedic: running command " +++ cmd))
                      :: (now st, ExecPromise cmd) :: []).
  { unfold st0, record; cbn [trace now]. now rewrite <- app_assoc. }
  apply bind_inv in H.
  destruct H as [(a & st1 & Hc & H) | [(e & Hc & _) | (Hc & _)]];
    apply Hcall in Hc; subst.
  - destruct (Hk _ _ _ H) as [_ [l [Ht Hq]]].
    exists l. split.
    + rewrite Ht, Hdone, <- app_assoc. reflexivity.
    + eapply Forall_impl; [| exact Hq]. intros e; apply quiet_not_command.
  - exists []. split; [exact Hdone | constructor].
  - exists []. split; [exact Hdone | constructor].
Qed.

(** [runTests] logs the command, hands it to [execPromise], and issues no
    other command. *)
Lemma runTests_starts (w : World) (st : State) (r : Res JsValue) (st' : State) :
  runTests w st = (r, st') ->
  exists cmd rest,
    (cmd = getCommandForBuilding (config (self st))
     \/ cmd = getCommandForStartingTests (config (self st)))
    /\ trace st' = trace st
                     ++ (now st, Log LNormal ("cordova-paramedic: running command " +++ cmd))
                     :: (now st, ExecPromise cmd) :: rest
    /\ Forall (fun e => not_command (snd e)) rest.
Proof.
  intros H. unfold runTests in H.
  rewrite (bind_ok _ _ st st (config (self st))) in H by reflexivity.
  set (c := config (self st)) in *. cbv zeta in H.
  destruct (shouldUseSauce c).
  - apply launch_trace in H; [| adds_auto].
    destruct H as [rest [Ht Hq]]. exists (getCommandForBuilding c), rest. auto.
  - apply launch_trace in H; [| adds_auto].
    destruct H as [rest [Ht Hq]]. exists (getCommandForStartingTests c), rest. auto.
Qed.

(** The trace of the chain of [run]: either no command was issued, or the
    project was scaffolded and entered, the server was started, the wiring
    was done, and then the one command was logged and issued. *)
Lemma pipeline_shape (w : World) (st : State) (r : Res JsValue) (st' : State) :
  pipeline w st = (r, st') ->
  (exists l, trace st' = trace st ++ l /\ Forall (fun e => not_command (snd e)) l)
  \/ (exists (srv : Server) (d : N) (t : Z) (cmd : string) (l0 rest : list Entry),
         startServer w = After d (inl srv)
         /\ trace st'
            = trace st
                ++ (map (fun a => (now st, a))
                      [ TmpDirSync; TmpSetGracefulCleanup;
                        Log LInfo ("cordova-paramedic: creating temp project at " +++ tmpName w);
                        ExecSync ("cordova create " +++ tmpName w);
                        ShellPushd (tmpName w) ]
                    ++ l0
                    ++ map (fun a => (t, a)) (wiring w srv (config (self st)))
                    ++ [(t, Log LNormal ("cordova-paramedic: running command " +++ cmd))])
                ++ (t, ExecPromise cmd) :: rest
         /\ Forall (fun e => stays_put (snd e) /\ not_command (snd e)) l0
         /\ Forall (fun e => not_command (snd e)) rest
         /\ (cmd = getCommandForBuilding (config (self st))
             \/ cmd = getCommandForStartingTests (config (self st)))).
Proof.
  unfold pipeline. intros H.
  apply bind_inv in H.
  destruct H as [(srv & st0 & Hprov & Hserve) | [(e & Hprov & _) | (Hprov & _)]].
  2, 3: left; destruct (quiet_run_provision w _ _ _ Hprov) as [_ [l [Ht Hq]]];
        exists l; split; [exact Ht |];
        eapply Forall_impl; [| exact Hq]; intros a; apply quiet_not_command.
  destruct (quiet_run_provision w _ _ _ Hprov) as [Hc [lq [Htq Hqq]]].
  assert (Hqq' : Forall (fun e => not_command (snd e)) lq).
  { eapply Forall_impl; [| exact Hqq]. intros a; apply quiet_not_command. }
  destruct (run_provision_server w _ _ _ Hprov) as [d Hstart].
  assert (Hw : Forall (fun e => not_command (snd e))
                 (map (fun a => (now st0, a)) (wiring w srv (config (self st0))))).
  { apply Forall_map. simpl. apply not_command_wiring. }
  assert (Htw : trace (wired w srv st0)
                = trace st0 ++ map (fun a => (now st0, a)) (wiring w srv (config (self st0)))).
  { reflexivity. }
  rewrite run_onServer_unfold in Hserve. cbv zeta in Hserve.
  destruct (raises w (GetReporters _)) as [e |].
  - left. injection Hserve as _ <-. unfold record_at; simpl. rewrite Htq.
    rewrite <- app_assoc. eexists; split; [reflexivity |].
    apply Forall_app; split; [exact Hqq' | repeat constructor].
  - destruct (raises w (WriteFileSync _ _)) as [e |].
    + left. injection Hserve as _ <-. rewrite Htw, Htq, <- app_assoc.
      eexists; split; [reflexivity |]. now apply Forall_app.
    + right. clear lq Htq Hqq Hqq'.
      unfold run_provision in Hprov. apply bind_inv in Hprov.
      destruct Hprov as [([] & st1 & Hcreate & Hrest) | [(e & _ & He) | (_ & He)]];
        [| discriminate ..].
      pose proof (createTempProject_ok w _ _ Hcreate) as Ht1.
      destruct (provision_in_place w _ _ _ Hrest) as [_ [l0 [Ht0 Hq0]]].
      destruct (runTests_starts w _ _ _ Hserve) as [cmd [rest [Hcmd [Ht2 Hq2]]]].
      change (config (self (wired w srv st0))) with (config (self st0)) in Hcmd.
      change (now (wired w srv st0)) with (now st0) in Ht2.
      rewrite Hc in Hcmd, Htw.
      exists srv, d, (now st0), cmd, l0, rest.
      split; [exact Hstart |].
      split; [rewrite Ht2, Htw, Ht0, Ht1; now rewrite <- !app_assoc |].
      split; [exact Hq0 |]. split; [exact Hq2 | exact Hcmd].
Qed.

Lemma fin_cleanUpProject_trace (w : World) (st : State) (r : Res JsValue) (st2 : State) :
  fin (pipeline w) (cleanUpProject w) st = (r, st2) ->
  exists r1 st1 lc,
    pipeline w st = (r1, st1)
    /\ trace st2 = trace st1 ++ lc
    /\ Forall (fun e => not_command (snd e)) lc.
Proof.
  unfold fin. destruct (pipeline w st) as [r1 st1] eqn:Ep. intros H.
  exists r1, st1.
  destruct r1 as [v | e |];
    try (destruct (cleanUpProject w st1) as [r2 stc] eqn:Ecl;
         destruct (not_command_cleanUpProject w _ _ _ Ecl) as [_ [lc [Ht Hq]]];
         exists lc; split; [reflexivity |];
         destruct r2; injection H as _ <-; now split).
  injection H as _ <-. exists []. rewrite app_nil_r. repeat split. constructor.
Qed.

(** C8. Wherever the trace of [run] shows a command handed to
    [execPromise], the event server had been started and what [run] did
    before that command is, in this order: the temporary project is created
    by [cordova create] and entered by [shell.pushd]; the provisioning,
    which neither changes the working directory nor removes anything; the
    reporters are asked for and every method a reporter has for one of the
    six lifecycle routes is subscribed to that route; the device-log and
    device-info handlers are subscribed; the relative path [www/medic.json]
    is written with [JSON.stringify({logurl: url})] for the connection URL
    of that server, which for a URL without control character, double quote
    or backslash is the URL itself between the quotes; and the command is
    logged.  The command is the build command or the run command of the
    configuration. *)
Theorem wiring_precedes_command :
  forall (w : World) (st : State) (pre post : list Entry) (t : Z) (cmd : string),
    trace (snd (run w st)) = trace st ++ pre ++ (t, ExecPromise cmd) :: post ->
    exists (srv : Server) (d : N) (provisioning : list Action),
      let c := config (self st) in
      let url := getConnectionUrl srv (getPlatformId c) in
      let q := str1 dquote in
      startServer w = After d (inl srv)
      /\ map snd pre
         = [ TmpDirSync; TmpSetGracefulCleanup;
             Log LInfo ("cordova-paramedic: creating temp project at " +++ tmpName w);
             ExecSync ("cordova create " +++ tmpName w);
             ShellPushd (tmpName w) ]
           ++ provisioning
           ++ GetReporters (getReportSavePath c)
              :: flat_map (fun route => subs_for_route route 0%nat (reporters w))
                   [ "jasmineStarted"; "specStarted"; "specDone";
                     "suiteStarted"; "suiteDone"; "jasmineDone" ]
           ++ [ ServerOn "deviceLog" DeviceLogHandler;
                ServerOn "deviceInfo" DeviceInfoHandler;
                Log LNormal ("cordova-paramedic: writing medic log url to project " +++ url);
                WriteFileSync "www/medic.json"
                  ("{" +++ q +++ "logurl" +++ q +++ ":" +++ q +++ json_escape url +++ q +++ "}");
                Log LNormal ("cordova-paramedic: running command " +++ cmd) ]
      /\ Forall stays_put provisioning
      /\ (needs_no_escape url = true -> json_escape url = url)
      /\ (forall (i : nat) (reporter : Reporter) (route : string),
             nth_error (reporters w) i = Some reporter ->
             route = "jasmineStarted" \/ route = "specStarted" \/ route = "specDone"
             \/ route = "suiteStarted" \/ route = "suiteDone" \/ route = "jasmineDone" ->
             hasMethod reporter route = true ->
             In (ServerOn route (ReporterMethod i route)) (map snd pre))
      /\ In (ServerOn "deviceLog" DeviceLogHandler) (map snd pre)
      /\ In (ServerOn "deviceInfo" DeviceInfoHandler) (map snd pre)
      /\ In (WriteFileSync "www/medic.json" (json_logurl url)) (map snd pre)
      /\ (cmd = getCommandForBuilding c \/ cmd = getCommandForStartingTests c).
Proof.
  intros w st pre post t cmd Htrace.
  unfold run in Htrace.
  pose proof (checkSauceRequirements_state w st) as Hsame.
  destruct (checkSauceRequirements w st) as [rc stc]; simpl in Hsame; subst stc.
  assert (Hfin : trace (snd (fin (pipeline w) (cleanUpProject w) st))
                 = trace st ++ pre ++ (t, ExecPromise cmd) :: post).
  { destruct rc as [[] | e |].
    - destruct (fin (pipeline w) (cleanUpProject w) st); exact Htrace.
    - simpl in Htrace. exfalso.
      rewrite <- (app_nil_r (trace st)) in Htrace at 1.
      apply app_inv_head in Htrace. destruct pre; discriminate.
    - destruct (fin (pipeline w) (cleanUpProject w) st); exact Htrace. }
  clear Htrace.
  destruct (fin (pipeline w) (cleanUpProject w) st) as [r st2] eqn:Efin. simpl in Hfin.
  destruct (fin_cleanUpProject_trace w _ _ _ Efin) as [r1 [st1 [lc [Hpipe [Ht2 Hqc]]]]].
  destruct (pipeline_shape w _ _ _ Hpipe)
    as [[l [Ht1 Hq]]
       | [srv [d [t0 [cmd0 [l0 [rest [Hstart [Ht1 [Hq0 [Hrest Hcmd]]]]]]]]]]].
  - exfalso. rewrite Ht2, Ht1, <- app_assoc in Hfin. apply app_inv_head in Hfin.
    assert (Hin : In (t, ExecPromise cmd) (l ++ lc)).
    { rewrite Hfin. apply in_or_app; right. now left. }
    assert (Hall : Forall (fun e => not_command (snd e)) (l ++ lc)) by now apply Forall_app.
    rewrite Forall_forall in Hall. exact (Hall _ Hin).
  - match type of Ht1 with
    | _ = _ ++ ?P0 ++ _ => set (P := P0) in *
    end.
    rewrite Ht2, Ht1 in Hfin.
    rewrite <- (app_assoc (trace st)) in Hfin. apply app_inv_head in Hfin.
    rewrite <- (app_assoc P), <- app_comm_cons in Hfin.
    assert (HP : Forall (fun e => not_command (snd e)) P);
      [| assert (HR : Forall (fun e => not_command (snd e)) (rest ++ lc));
         [| destruct (command_unique P (rest ++ lc) pre post t0 t cmd0 cmd HP HR Hfin)
              as [Hpre ->] ] ].
    { unfold P.
      apply Forall_app; split; [repeat constructor |].
      apply Forall_app; split;
        [eapply Forall_impl; [| exact Hq0]; intros e He; exact (proj2 He) |].
      apply Forall_app; split; [| repeat constructor].
      apply Forall_map. simpl. apply not_command_wiring. }
    { now apply Forall_app. }
    assert (Hmap : map snd pre
                   = [ TmpDirSync; TmpSetGracefulCleanup;
                       Log LInfo ("cordova-paramedic: creating temp project at " +++ tmpName w);
                       ExecSync ("cordova create " +++ tmpName w);
                       ShellPushd (tmpName w) ]
                     ++ map snd l0
                     ++ wiring w srv (config (self st))
                     ++ [Log LNormal ("cordova-paramedic: running command " +++ cmd0)]).
    { rewrite Hpre. unfold P. rewrite !map_app, !map_map. cbn [snd]. rewrite !map_id.
      reflexivity. }
    assert (Hin : forall a, In a (wiring w srv (config (self st))) -> In a (map snd pre)).
    { intros a Ha. rewrite Hmap.
      apply in_or_app; right. apply in_or_app; right. apply in_or_app; now left. }
    destruct (wiring_contents w srv (config (self st))) as [Hrep [Hlog [Hinfo Hfile]]].
    exists srv, d, (map snd l0). cbv zeta.
    split; [exact Hstart |].
    split.
    { rewrite Hmap. unfold wiring. rewrite json_logurl_closed. cbv zeta.
      do 2 f_equal. cbn [app]. f_equal. rewrite <- app_assoc. reflexivity. }
    split.
    { apply Forall_map. eapply Forall_impl; [| exact Hq0]. intros e He; exact (proj1 He). }
    split; [apply json_escape_plain |].
    split.
    { intros i reporter route Hnth Hroute Hhas. apply Hin.
      apply (Hrep i reporter route Hnth); [| exact Hhas].
      destruct Hroute as [-> | [-> | [-> | [-> | [-> | ->]]]]]; simpl; auto 10. }
    split; [now apply Hin |]. split; [now apply Hin |]. split; [now apply Hin |].
    exact Hcmd.
Qed.

Lemma wiring_precedes_command_witness :
  let st := Sample.fresh (Sample.local_config "run" 3600000) in
  let pre := firstn 27 (trace (snd (run Sample.calm st))) in
  let q := str1 dquote in
  nth_error (map snd pre) 3 = Some (ExecSync "cordova create /tmp/tmp-4711")
  /\ nth_error (map snd pre) 4 = Some (ShellPushd "/tmp/tmp-4711")
  /\ In (ServerOn "specDone" (ReporterMethod 0 "specDone")) (map snd pre)
  /\ In (ServerOn "deviceLog" DeviceLogHandler) (map snd pre)
  /\ In (WriteFileSync "www/medic.json"
           ("{" +++ q +++ "logurl" +++ q +++ ":" +++ q +++ "http://10.0.2.2:8008" +++ q +++ "}"))
        (map snd pre).
Proof.
  intros st pre q.
  assert (Htrace : trace (snd (run Sample.calm st))
                   = trace st ++ pre ++ (100, ExecPromise "cordova run android")
                       :: skipn 28 (trace (snd (run Sample.calm st))))
    by (vm_compute; reflexivity).
  destruct (wiring_precedes_command Sample.calm st pre _ _ _ Htrace)
    as [srv [d [prov [Hstart [Hshape [_ [Hplain [Hrep [Hlog [_ [Hfile _]]]]]]]]]]].
  assert (Hsrv : srv = Sample.device_server).
  { change (startServer Sample.calm) with (@After Server 100 (inl Sample.device_server)) in Hstart.
    clear - Hstart. injection Hstart as _ Hs. exact (eq_sym Hs). }
  subst srv.
  split; [rewrite Hshape; reflexivity |].
  split; [rewrite Hshape; reflexivity |].
  split; [exact (Hrep 0%nat _ "specDone" eq_refl (or_intror (or_intror (or_introl eq_refl)))
                   eq_refl) |].
  split; [exact Hlog |].
  rewrite json_logurl_closed in Hfile. cbv zeta in Hfile.
  rewrite (Hplain eq_refl) in Hfile. exact Hfile.
Defined.

(** ** The local branch of [runTests] *)

(** [reject] and [resolve] are bound nowhere around the success handler. *)
Lemma handler_names_unbound :
  existsb (String.eqb "reject") handler_scope = false
  /\ existsb (String.eqb "resolve") handler_scope = false.
Proof. split; reflexivity. Qed.

(** C6 (the code departs from it).  Local mode, action 'run': the command
    succeeds after 20 s, the device is connected when the watchdog would
    expire, and a 'jasmineDone' with no failed spec is emitted after that.
    The success handler arms the watchdog and then reads the unbound name
    [reject]: the promise of [run] is rejected with a ReferenceError as soon
    as the command is done, and is never fulfilled with [true]. *)
Theorem local_run_rejected_by_unbound_name :
  let c := Sample.local_config "run" 3600000 in
  let rep := exports_run Sample.calm c None in
  shouldUseSauce c = false
  /\ getAction c = "run"
  /\ isDeviceConnected Sample.device_server (20100 + INITIAL_CONNECTION_TIMEOUT) = true
  /\ In (400000, EvJasmineDone (Sample.payload 0)) (emitted Sample.device_server)
  /\ delivery rep = Rejects 20100 (ReferenceError "reject is not defined")
  /\ delivery rep <> Fulfils 400000 (VBool true)
  /\ map snd (skipn 28 (before rep))
     = [ ExecPromise "cordova run android";
         SetTimeout 300000;
         EnterCleanUpProject;
         Log LInfo "cordova-paramedic: Deleting the application: /tmp/tmp-4711";
         ShellPopd;
         ShellRm "-rf" "/tmp/tmp-4711" ].
Proof.
  vm_compute. repeat split; try discriminate. auto.
Qed.

(** ** The remote branch: [runSauceTests] *)

(** C9 (the code departs from it).  Remote mode on android with both
    credentials: the build and the upload succeed and [driver.init] calls
    back with an error.  The callback throws; the exception escapes into the
    event loop and the promise of [runSauceTests] is neither fulfilled nor
    rejected.  The chain of [run] never settles, [cleanUpProject] is never
    entered, and the caller only gets the error of the overall timeout. *)
Theorem driver_init_failure_is_not_propagated :
  let c := Sample.sauce_config "android" "run" 3600000 in
  let rep := exports_run Sample.no_session c None in
  fst (checkSauceRequirements Sample.no_session (Sample.fresh c)) = Ok tt
  /\ fst (pipeline Sample.no_session (Sample.fresh c)) = Hang
  /\ fst (run Sample.no_session (Sample.fresh c)) = PromiseOf Hang
  /\ last (map snd (trace (snd (run Sample.no_session (Sample.fresh c))))) TmpDirSync
     = Uncaught (Error "Error starting Appium web driver")
  /\ delivery rep = Rejects 3600000 (Error TIMEOUT_MESSAGE)
  /\ teardowns (before rep ++ after rep) = 0%nat.
Proof.
  vm_compute. repeat split.
Qed.

(* ------------------------------------------------------------------ *)
(** * Further properties of the module *)

(** ** [checkSauceRequirements], both ways *)

Lemma truthy_str_spec (o : option string) :
  truthy_str o = true <-> exists s, o = Some s /\ s <> "".
Proof.
  destruct o as [s |]; simpl.
  - rewrite negb_true_iff. split.
    + intros H. exists s. split; [reflexivity |]. now apply String.eqb_neq.
    + intros [s' [Hs Hne]]. injection Hs as <-. now apply String.eqb_neq.
  - split; [discriminate | intros [s [H _]]; discriminate].
Qed.

(** X1. [checkSauceRequirements] returns normally exactly when remote mode
    is not requested, or when the platform is 'android' or 'ios', both
    credentials are in the environment and not empty, and the action is
    'run' or 'emulate'. *)
Theorem checkSauceRequirements_accepts_iff :
  forall (w : World) (st : State),
    fst (checkSauceRequirements w st) = Ok tt
    <-> (shouldUseSauce (config (self st)) = false
         \/ ((getPlatformId (config (self st)) = "android"
              \/ getPlatformId (config (self st)) = "ios")
             /\ (exists key, env w "SAUCE_ACCESS_KEY" = Some key /\ key <> "")
             /\ (exists user, env w "SAUCE_USER" = Some user /\ user <> "")
             /\ (getAction (config (self st)) = "run"
                 \/ getAction (config (self st)) = "emulate"))).
Proof.
  intros w st.
  rewrite <- !truthy_str_spec.
  unfold checkSauceRequirements, bind, get_config, shouldWaitForTestResult; simpl.
  change SAUCE_KEY_ENV_VAR with "SAUCE_ACCESS_KEY".
  change SAUCE_USER_ENV_VAR with "SAUCE_USER".
  destruct (shouldUseSauce (config (self st))); [| simpl; tauto].
  destruct (String.eqb_spec (getPlatformId (config (self st))) "android") as [Ha | Ha];
    destruct (String.eqb_spec (getPlatformId (config (self st))) "ios") as [Hi | Hi];
    simpl;
    try (split; [discriminate | intros [H | [[H | H] _]]; [discriminate | contradiction ..]]);
    (destruct (truthy_str (env w "SAUCE_ACCESS_KEY")); simpl;
     [| split; [discriminate | intros [H | [_ [H _]]]; discriminate]]);
    (destruct (truthy_str (env w "SAUCE_USER")); simpl;
     [| split; [discriminate | intros [H | [_ [_ [H _]]]]; discriminate]]);
    (destruct (String.eqb_spec (getAction (config (self st))) "run") as [Hr | Hr];
     destruct (String.eqb_spec (getAction (config (self st))) "emulate") as [He | He];
     simpl;
     try (split; [discriminate
                 | intros [H | [_ [_ [_ [H | H]]]]]; [discriminate | contradiction ..]]);
     split; auto 10).
Qed.

(** ** [waitForTests] has no deadline of its own *)

Lemma await_events_pending (since : Z) (evs : list (Z * ServerEvent)) :
  Forall (cannot_settle since) evs ->
  forall st, fst (await_events since evs Pending st) = Hang.
Proof.
  induction 1 as [| [t ev] evs Hidle _ IH]; intros st; [reflexivity |].
  simpl. destruct (t <? since) eqn:Hlt; [apply IH |].
  destruct Hidle as [[Hearly | [route Hroute]] | Hbad]; simpl in *.
  - apply Z.ltb_ge in Hlt. lia.
  - subst ev. simpl. apply IH.
  - subst ev. simpl. apply IH.
Qed.

(** X2. [waitForTests] settles only on a 'disconnect' or on a 'jasmineDone'
    that carries [specResults], emitted once it listens: if every event of
    the server was emitted before the subscription, is another lifecycle
    event, or is a 'jasmineDone' without [specResults], the promise stays
    pending for ever. *)
Theorem waitForTests_pending_without_settling_event :
  forall (st : State) (srv : Server),
    server (self st) = Some srv ->
    Forall (cannot_settle (now st)) (emitted srv) ->
    fst (waitForTests st) = Hang.
Proof.
  intros st srv Hsrv Hev.
  rewrite (waitForTests_unfold st srv Hsrv).
  now apply await_events_pending.
Qed.

Lemma waitForTests_pending_witness :
  fst (waitForTests
         (Sample.attached (Sample.local_config "run" 3600000) Sample.device_server 500000))
  = Hang.
Proof.
  apply (waitForTests_pending_without_settling_event
           (Sample.attached (Sample.local_config "run" 3600000) Sample.device_server 500000)
           Sample.device_server eq_refl).
  apply Forall_cons; [left; left; simpl; lia |].
  apply Forall_cons; [left; left; simpl; lia |].
  apply Forall_cons; [left; left; simpl; lia | apply Forall_nil].
Defined.

(** ** [injectReporters] *)

Lemma subs_for_route_only (route : string) (rs : list Reporter) :
  forall (i0 : nat) (a : Action),
    In a (subs_for_route route i0 rs) ->
    exists (i : nat) (reporter : Reporter),
      nth_error rs i = Some reporter
      /\ hasMethod reporter route = true
      /\ a = ServerOn route (ReporterMethod (i0 + i) route).
Proof.
  induction rs as [| r0 rest IH]; intros i0 a Hin; simpl in Hin; [contradiction |].
  apply in_app_or in Hin. destruct Hin as [Hin | Hin].
  - destruct (hasMethod r0 route) eqn:Hhas; simpl in Hin; [| contradiction].
    destruct Hin as [<- | []]. exists 0%nat, r0.
    rewrite Nat.add_0_r. repeat split. exact Hhas.
  - destruct (IH (S i0) a Hin) as [i [reporter [Hnth [Hhas ->]]]].
    exists (S i), reporter. repeat split; auto.
    now replace (i0 + S i)%nat with (S i0 + i)%nat by lia.
Qed.

(** X3. With the server in place and [getReporters] returning, the
    subscriptions [injectReporters] makes are exactly these: the method of
    reporter number [i] for [route], for every lifecycle route and every
    reporter that has a method of that name.  A reporter without the method
    is not subscribed, and no other route is used. *)
Theorem injectReporters_subscribes_exactly :
  forall (w : World) (st : State) (srv : Server),
    server (self st) = Some srv ->
    raises w (GetReporters (getReportSavePath (config (self st)))) = None ->
    exists subs,
      injectReporters w st
      = (Ok tt, record_at (now st)
                  (GetReporters (getReportSavePath (config (self st))) :: subs) st)
      /\ forall a,
          In a subs
          <-> exists (i : nat) (reporter : Reporter) (route : string),
                nth_error (reporters w) i = Some reporter
                /\ In route lifecycle_routes
                /\ hasMethod reporter route = true
                /\ a = ServerOn route (ReporterMethod i route).
Proof.
  intros w st srv Hsrv Hasked.
  exists (reporter_subscriptions (reporters w)). split.
  - pose proof (injectReporters_run w st srv Hsrv) as H. cbv zeta in H.
    now rewrite Hasked in H.
  - intros a. unfold reporter_subscriptions. rewrite in_flat_map. split.
    + intros [route [Hroute Hin]].
      destruct (subs_for_route_only route (reporters w) 0%nat a Hin)
        as [i [reporter [Hnth [Hhas ->]]]].
      exists i, reporter, route. auto.
    + intros [i [reporter [route [Hnth [Hroute [Hhas ->]]]]]].
      exists route. split; [exact Hroute |].
      exact (subs_for_route_In route (reporters w) 0%nat i reporter Hnth Hhas).
Qed.

Lemma injectReporters_subscribes_witness :
  exists subs,
    injectReporters Sample.calm
      (Sample.attached (Sample.local_config "run" 3600000) Sample.device_server 100)
    = (Ok tt, record_at 100 (GetReporters None :: subs)
                (Sample.attached (Sample.local_config "run" 3600000) Sample.device_server 100))
    /\ In (ServerOn "specDone" (ReporterMethod 0 "specDone")) subs.
Proof.
  destruct (injectReporters_subscribes_exactly Sample.calm
              (Sample.attached (Sample.local_config "run" 3600000) Sample.device_server 100)
              Sample.device_server eq_refl eq_refl) as [subs [Hrun Hsubs]].
  exists subs. split; [exact Hrun |].
  apply Hsubs. exists 0%nat, {| hasMethod := fun route => String.eqb route "specDone"
                                                        || String.eqb route "jasmineDone" |},
                 "specDone".
  repeat split. simpl. auto.
Defined.

(** ** The scaffolding and the platform requirements *)

#[local] Arguments String.append : simpl never.

Lemma scaffolds_createTempProject (w : World) : adds scaffolds (createTempProject w).
Proof. unfold createTempProject, tempFolder_name, logger. adds_auto. Qed.

Lemma scaffolds_installPlugins (w : World) : adds scaffolds (installPlugins w).
Proof. unfold installPlugins, tempFolder_name, logger. adds_auto. Qed.

Lemma scaffolds_setUpStartPage (w : World) : adds scaffolds (setUpStartPage w).
Proof. unfold setUpStartPage, logger. adds_auto. Qed.

Lemma scaffolds_installPlatform (w : World) : adds scaffolds (installPlatform w).
Proof. unfold installPlatform, logger. adds_auto. Qed.

Lemma scaffolds_checkPlatformRequirements (w : World) :
  adds scaffolds (checkPlatformRequirements w).
Proof. unfold checkPlatformRequirements, logger. adds_auto. Qed.

Lemma adds_chain (Q : Action -> Prop) {A B} (m : M A) (st : State) (a : A) (st1 : State)
      (k : M B) (r : Res B) (st' : State) (l : list Entry) :
  trace st1 = trace st ++ l ->
  Forall (fun e => Q (snd e)) l ->
  config (self st1) = config (self st) ->
  adds Q k ->
  k st1 = (r, st') ->
  config (self st') = config (self st)
  /\ exists l', trace st' = trace st ++ l' /\ Forall (fun e => Q (snd e)) l'.
Proof.
  intros Ht Hq Hc Hk Hrun.
  destruct (Hk _ _ _ Hrun) as [Hc' [l2 [Ht2 Hq2]]].
  split; [congruence |]. exists (l ++ l2).
  split; [rewrite Ht2, Ht; now rewrite app_assoc | now apply Forall_app].
Qed.

Lemma checkPlatformRequirements_fails (w : World) (st : State) (r : Res unit) (st' : State) :
  execCode w ("cordova requirements " +++ getPlatformId (config (self st))) <> 0 ->
  checkPlatformRequirements w st = (r, st') ->
  forall v, r <> Ok v.
Proof.
  intros Hcode. apply Z.eqb_neq in Hcode.
  unfold checkPlatformRequirements, logger, bind, get_config, emit, call.
  cbn [self record config]. rewrite Hcode. cbn [negb].
  destruct (raises w _); intros H v; injection H as <- _; discriminate.
Qed.

Lemma prepareProjectToRunTests_fails (w : World) (st : State) (r : Res unit) (st' : State) :
  execCode w ("cordova requirements " +++ getPlatformId (config (self st))) <> 0 ->
  prepareProjectToRunTests w st = (r, st') ->
  (forall v, r <> Ok v)
  /\ exists l, trace st' = trace st ++ l /\ Forall (fun e => scaffolds (snd e)) l.
Proof.
  intros Hcode H. unfold prepareProjectToRunTests in H.
  assert (Hall : adds scaffolds (prepareProjectToRunTests w)).
  { unfold prepareProjectToRunTests.
    apply adds_bind; [apply scaffolds_installPlugins | intros _].
    apply adds_bind; [apply scaffolds_setUpStartPage | intros _].
    apply adds_bind; [apply scaffolds_installPlatform | intros _].
    apply scaffolds_checkPlatformRequirements. }
  split; [| exact (proj2 (Hall _ _ _ H))].
  apply bind_inv in H.
  destruct H as [([] & st1 & H1 & H) | [(e & _ & ->) | (_ & ->)]]; [| discriminate ..].
  destruct (scaffolds_installPlugins w _ _ _ H1) as [Hc1 _].
  apply bind_inv in H.
  destruct H as [([] & st2 & H2 & H) | [(e & _ & ->) | (_ & ->)]]; [| discriminate ..].
  destruct (scaffolds_setUpStartPage w _ _ _ H2) as [Hc2 _].
  apply bind_inv in H.
  destruct H as [([] & st3 & H3 & H) | [(e & _ & ->) | (_ & ->)]]; [| discriminate ..].
  destruct (scaffolds_installPlatform w _ _ _ H3) as [Hc3 _].
  apply (checkPlatformRequirements_fails w st3 r st'); [| exact H].
  now rewrite Hc3, Hc2, Hc1.
Qed.

Lemma call_ok (w : World) (a : Action) (st : State) :
  raises w a = None -> call w a st = (Ok tt, record a st).
Proof. intros H. unfold call. now rewrite H. Qed.

Lemma call_raises (w : World) (a : Action) (st : State) (e : JsValue) :
  raises w a = Some e -> call w a st = (Throw e, record a st).
Proof. intros H. unfold call. now rewrite H. Qed.

(** X4. When [cordova requirements] exits with a code other than 0, the
    chain of [run] is never fulfilled and stops in the scaffolding: the event
    server is not started, nothing is subscribed, no file is written and no
    build/run command is issued.  If, besides, no collaborator throws, the
    chain is rejected with 'Platform requirements check has failed!'. *)
Theorem failed_requirements_stop_the_run :
  forall (w : World) (st : State) (r : Res JsValue) (st' : State),
    execCode w ("cordova requirements " +++ getPlatformId (config (self st))) <> 0 ->
    pipeline w st = (r, st') ->
    (forall v, r <> Ok v)
    /\ (exists l, trace st' = trace st ++ l /\ Forall (fun e => scaffolds (snd e)) l)
    /\ ((forall a, raises w a = None) ->
        r = Throw (Error "Platform requirements check has failed!")).
Proof.
  intros w st r st' Hcode H.
  assert (Hgen : (forall v, r <> Ok v)
                 /\ exists l, trace st' = trace st ++ l
                              /\ Forall (fun e => scaffolds (snd e)) l).
  { unfold pipeline, run_provision in H.
    apply bind_inv in H.
    destruct H as [(srv & st0 & H & _) | [(e & H & ->) | (H & ->)]].
    - exfalso. apply bind_inv in H.
      destruct H as [([] & st1 & H1 & H) | [(e & _ & ?) | (_ & ?)]]; [| discriminate ..].
      destruct (scaffolds_createTempProject w _ _ _ H1) as [Hc1 _].
      apply bind_inv in H.
      destruct H as [([] & st2 & H2 & H) | [(e & _ & ?) | (_ & ?)]]; [| discriminate ..].
      rewrite <- Hc1 in Hcode.
      destruct (prepareProjectToRunTests_fails w _ _ _ Hcode H2) as [Hno _].
      now apply (Hno tt).
    - split; [discriminate |].
      apply bind_inv in H.
      destruct H as [([] & st1 & H1 & H) | [(e1 & H1 & _) | (H1 & ?)]]; [| | discriminate].
      + destruct (scaffolds_createTempProject w _ _ _ H1) as [Hc1 [l1 [Ht1 Hq1]]].
        apply bind_inv in H.
        destruct H as [([] & st2 & H2 & H) | [(e2 & H2 & _) | (H2 & ?)]]; [| | discriminate].
        * exfalso. rewrite <- Hc1 in Hcode.
          destruct (prepareProjectToRunTests_fails w _ _ _ Hcode H2) as [Hno _].
          now apply (Hno tt).
        * rewrite <- Hc1 in Hcode.
          destruct (prepareProjectToRunTests_fails w _ _ _ Hcode H2) as [_ [l2 [Ht2 Hq2]]].
          exists (l1 ++ l2). split; [rewrite Ht2, Ht1; now rewrite app_assoc |].
          now apply Forall_app.
      + exact (proj2 (scaffolds_createTempProject w _ _ _ H1)).
    - split; [discriminate |].
      apply bind_inv in H.
      destruct H as [([] & st1 & H1 & H) | [(e1 & _ & ?) | (H1 & _)]]; [| discriminate |].
      + destruct (scaffolds_createTempProject w _ _ _ H1) as [Hc1 [l1 [Ht1 Hq1]]].
        apply bind_inv in H.
        destruct H as [([] & st2 & H2 & H) | [(e2 & _ & ?) | (H2 & _)]]; [| discriminate |].
        * exfalso. rewrite <- Hc1 in Hcode.
          destruct (prepareProjectToRunTests_fails w _ _ _ Hcode H2) as [Hno _].
          now apply (Hno tt).
        * rewrite <- Hc1 in Hcode.
          destruct (prepareProjectToRunTests_fails w _ _ _ Hcode H2) as [_ [l2 [Ht2 Hq2]]].
          exists (l1 ++ l2). split; [rewrite Ht2, Ht1; now rewrite app_assoc |].
          now apply Forall_app.
      + exact (proj2 (scaffolds_createTempProject w _ _ _ H1)). }
  destruct Hgen as [Hno Htrace]. split; [exact Hno |]. split; [exact Htrace |].
  intros Hcalm. apply Z.eqb_neq in Hcode.
  unfold pipeline, run_provision, createTempProject, prepareProjectToRunTests,
    installPlugins, setUpStartPage, installPlatform, checkPlatformRequirements,
    tempFolder_name, logger in H.
  repeat (unfold bind, call, emit, modify_self, get_self, get_config, ret, throw in H;
          simpl in H; rewrite ?Hcalm in H).
  rewrite Hcode in H. simpl in H. now injection H as <- _.
Qed.

Lemma failed_requirements_witness :
  fst (pipeline Scene.missing_sdk (Sample.fresh (Sample.local_config "run" 3600000)))
  = Throw (Error "Platform requirements check has failed!").
Proof.
  refine (proj2 (proj2 (failed_requirements_stop_the_run Scene.missing_sdk
                          (Sample.fresh (Sample.local_config "run" 3600000))
                          _ _ _ (surjective_pairing _))) _).
  - simpl. discriminate.
  - reflexivity.
Defined.

(** ** [runTests]: what the outcome of the command leads to *)

#[local] Arguments shouldWaitForTestResult : simpl never.
#[local] Arguments getCommandForStartingTests : simpl never.
#[local] Arguments getCommandForBuilding : simpl never.
#[local] Arguments to_js_string : simpl never.
#[local] Arguments timer_delay : simpl never.

(** X5. Local mode with an action that is neither 'run' nor 'emulate' (just
    build): whatever the command and the collaborators do, [runTests] only
    logs and hands the command to [execPromise]; it arms no timer, asks the
    server nothing and subscribes to nothing.  When the command succeeds,
    [runTests] is fulfilled with [undefined] as soon as the command is
    done. *)
Theorem build_only_never_waits :
  forall (w : World) (st : State),
    shouldUseSauce (config (self st)) = false ->
    shouldWaitForTestResult (config (self st)) = false ->
    let cmd := getCommandForStartingTests (config (self st)) in
    (exists l, trace (snd (runTests w st)) = trace st ++ l
               /\ Forall (fun e => launches (snd e)) l)
    /\ (forall (d : N) (v : JsValue),
           raises w (ExecPromise cmd) = None ->
           execPromise w cmd = After d (inl v) ->
           runTests w st
           = (Ok VUndefined,
              {| self := self st; now := now st + Z.of_N d;
                 trace := trace st
                          ++ [ (now st, Log LNormal ("cordova-paramedic: running command " +++ cmd));
                               (now st, ExecPromise cmd) ] |})).
Proof.
  intros w st Hsauce Hwait cmd. subst cmd.
  unfold runTests, runTests_onSuccess, runTests_onFailure, logger.
  unfold then2, await, bind, call, emit, sleep, lift, get_config, ret, throw, hang, record.
  cbn [self now trace config fst snd]. rewrite Hsauce.
  split.
  - destruct (raises w _); cbn [fst snd trace];
      [rewrite <- app_assoc; eexists; split; [reflexivity | repeat constructor] |].
    destruct (execPromise w _) as [d [v | e] |]; cbn [self now trace config fst snd].
    + rewrite Hwait. cbn [snd trace]. rewrite <- app_assoc.
      eexists; split; [reflexivity | repeat constructor].
    + destruct (verbose (config (self st))); cbn [negb self now trace config fst snd];
        repeat rewrite <- app_assoc; (eexists; split; [reflexivity | repeat constructor]).
    + rewrite <- app_assoc. eexists; split; [reflexivity | repeat constructor].
  - intros d v Hcall Hdone. rewrite Hcall, Hdone.
    cbn [self now trace config fst snd]. rewrite Hwait.
    now rewrite <- app_assoc.
Qed.

Lemma build_only_never_waits_witness :
  fst (runTests Sample.calm (Sample.fresh (Sample.local_config "build" 3600000)))
  = Ok VUndefined.
Proof.
  destruct (build_only_never_waits Sample.calm
              (Sample.fresh (Sample.local_config "build" 3600000)) eq_refl eq_refl)
    as [_ H].
  now rewrite (H 20000%N (VNum 0) eq_refl eq_refl).
Defined.

(** X6. Local mode, any action: when the command handed to [execPromise]
    fails with [code], [runTests] is rejected with the error
    '<command> returned error code <code>'; before that it logs the (absent)
    output unless [config.verbose] is set, and then that the tests could not
    be run.  Nothing is waited for. *)
Theorem local_command_failure_is_reported :
  forall (w : World) (st : State) (d : N) (code : JsValue),
    shouldUseSauce (config (self st)) = false ->
    let cmd := getCommandForStartingTests (config (self st)) in
    raises w (ExecPromise cmd) = None ->
    execPromise w cmd = After d (inr code) ->
    runTests w st
    = (Throw (Error (cmd +++ " returned error code " +++ to_js_string code)),
       {| self := self st; now := now st + Z.of_N d;
          trace := trace st
                   ++ [ (now st, Log LNormal ("cordova-paramedic: running command " +++ cmd));
                        (now st, ExecPromise cmd) ]
                   ++ (if verbose (config (self st)) then []
                       else [(now st + Z.of_N d, LogValue LNormal VUndefined)])
                   ++ [ (now st + Z.of_N d,
                         Log LNormal
                           "cordova-paramedic: unable to run tests; command log is available above") ] |}).
Proof.
  intros w st d code Hsauce cmd Hcall Hfail. subst cmd.
  unfold runTests, runTests_onFailure, logger.
  unfold then2, await, bind, call, emit, sleep, lift, get_config, ret, throw, record.
  cbn [self now trace config fst snd]. rewrite Hsauce, Hcall, Hfail.
  cbn [self now trace config fst snd].
  destruct (verbose (config (self st))); cbn [negb self now trace config fst snd app];
    repeat rewrite <- app_assoc; reflexivity.
Qed.

Lemma local_command_failure_witness :
  fst (runTests
         Scene.broken_build
         (Sample.fresh (Sample.local_config "run" 3600000)))
  = Throw (Error "cordova run android returned error code 1").
Proof.
  rewrite (local_command_failure_is_reported Scene.broken_build
             (Sample.fresh (Sample.local_config "run" 3600000))
             9000%N (VNum 1) eq_refl eq_refl eq_refl).
  reflexivity.
Defined.

(** X7. Remote mode: the command is [cordova build <platform>], whatever
    the action and the arguments; when it fails, [runTests] is rejected with
    the very reason [execPromise] gave, and nothing is uploaded and no
    driver session is asked for. *)
Theorem remote_build_failure_passes_through :
  forall (w : World) (st : State) (d : N) (reason : JsValue),
    shouldUseSauce (config (self st)) = true ->
    let cmd := "cordova build " +++ getPlatformId (config (self st)) in
    raises w (ExecPromise cmd) = None ->
    execPromise w cmd = After d (inr reason) ->
    runTests w st
    = (Throw reason,
       {| self := self st; now := now st + Z.of_N d;
          trace := trace st
                   ++ [ (now st, Log LNormal ("cordova-paramedic: running command " +++ cmd));
                        (now st, ExecPromise cmd) ] |}).
Proof.
  intros w st d reason Hsauce cmd Hcall Hfail. subst cmd.
  unfold runTests, logger.
  unfold await, bind, call, emit, sleep, lift, get_config, ret, throw, record.
  cbn [self now trace config fst snd]. rewrite Hsauce.
  change (getCommandForBuilding (config (self st)))
    with ("cordova build " +++ getPlatformId (config (self st))).
  rewrite Hcall, Hfail. cbn [self now trace config fst snd].
  now rewrite <- app_assoc.
Qed.

Lemma remote_build_failure_witness :
  fst (runTests
         Scene.broken_build
         (Sample.fresh (Sample.sauce_config "ios" "run" 3600000)))
  = Throw (VNum 1).
Proof.
  rewrite (remote_build_failure_passes_through Scene.broken_build
             (Sample.fresh (Sample.sauce_config "ios" "run" 3600000))
             9000%N (VNum 1) eq_refl eq_refl eq_refl).
  reflexivity.
Defined.

(** ** [uploadApp] *)

Lemma uploads_uploadApp (w : World) : adds uploads (uploadApp w).
Proof.
  unfold uploadApp, getAppName, getBinaryPath, tempFolder_name, logger. adds_auto.
Qed.

Lemma uploadApp_fails (w : World) (st : State) (r : Res unit) (st' : State)
      (d : N) (e : JsValue) :
  requestPost w = After d (inr e) ->
  uploadApp w st = (r, st') ->
  forall v, r <> Ok v.
Proof.
  intros Hpost H. unfold uploadApp in H.
  repeat (apply bind_inv in H;
          destruct H as [(? & ? & _ & H) | [(? & _ & ->) | (_ & ->)]]; try discriminate).
  rewrite Hpost in H. unfold await, bind, sleep, lift, throw in H.
  injection H as <- _. discriminate.
Qed.

(** X8. When the upload to Sauce Storage fails, [runSauceTests] is not
    fulfilled and goes no further than the upload: it logs, opens the binary
    and posts it, and asks for no driver session, arms no timer and
    subscribes to nothing. *)
Theorem failed_upload_opens_no_session :
  forall (w : World) (st : State) (r : Res JsValue) (st' : State) (d : N) (e : JsValue),
    requestPost w = After d (inr e) ->
    runSauceTests w st = (r, st') ->
    (forall v, r <> Ok v)
    /\ exists l, trace st' = trace st ++ l /\ Forall (fun x => uploads (snd x)) l.
Proof.
  intros w st r st' d e Hpost H. unfold runSauceTests in H.
  apply bind_inv in H.
  destruct H as [([] & st1 & Hlog & H) | [(e1 & Hlog & _) | (Hlog & _)]];
    [| discriminate ..].
  unfold logger, emit in Hlog. injection Hlog as <-.
  apply bind_inv in H.
  destruct H as [([] & st2 & Hup & _) | [(e2 & Hup & ->) | (Hup & ->)]].
  - exfalso. exact (uploadApp_fails w _ _ _ d e Hpost Hup tt eq_refl).
  - split; [discriminate |].
    destruct (uploads_uploadApp w _ _ _ Hup) as [_ [l [Ht Hq]]].
    exists ((now st, Log LInfo "cordova-paramedic: running sauce tests") :: l).
    split; [rewrite Ht; unfold record; simpl; now rewrite <- app_assoc |].
    constructor; [exact I | exact Hq].
  - split; [discriminate |].
    destruct (uploads_uploadApp w _ _ _ Hup) as [_ [l [Ht Hq]]].
    exists ((now st, Log LInfo "cordova-paramedic: running sauce tests") :: l).
    split; [rewrite Ht; unfold record; simpl; now rewrite <- app_assoc |].
    constructor; [exact I | exact Hq].
Qed.

Lemma failed_upload_witness :
  let st := Scene.in_project (Sample.sauce_config "ios" "run" 3600000)
              Sample.device_server 9100 in
  let out := runSauceTests Scene.refused_upload st in
  fst out = Throw (Error "ECONNRESET")
  /\ map snd (trace (snd out))
     = [ Log LInfo "cordova-paramedic: running sauce tests";
         Log LNormal "cordova-paramedic: uploading mobilespec.ipa to Sauce Storage";
         CreateReadStream "/tmp/tmp-4711/platforms/ios/build/device/mobilespec.ipa";
         RequestPost "https://saucelabs.com/rest/v1/storage/medic/mobilespec.ipa?overwrite=true"
           "medic" "0123-4567" ]
  /\ fst out <> Ok VUndefined
  /\ Forall (fun x => uploads (snd x)) (trace (snd out)).
Proof.
  intros st out.
  split; [vm_compute; reflexivity |].
  split; [vm_compute; reflexivity |].
  destruct (failed_upload_opens_no_session Scene.refused_upload st (fst out) (snd out)
              5000%N (Error "ECONNRESET") eq_refl (surjective_pairing out))
    as [Hnot [l [Ht Hq]]].
  split; [exact (Hnot VUndefined) |].
  change (trace st) with (@nil Entry) in Ht. cbn [app] in Ht.
  rewrite Ht. exact Hq.
Defined.

(** ** What [run] is fulfilled with *)

Section Yields.

Context {A : Type} (P : A -> Prop).

Lemma yields_ret (a : A) : P a -> yields P (ret a).
Proof. intros Ha st a' st' H. now injection H as <- _. Qed.

Lemma yields_throw (e : JsValue) : yields P (@throw A e).
Proof. intros st a st' H. discriminate. Qed.

Lemma yields_hang : yields P (@hang A).
Proof. intros st a st' H. discriminate. Qed.

Lemma yields_bind {B} (m : M B) (f : B -> M A) :
  (forall b, yields P (f b)) -> yields P (bind m f).
Proof.
  intros Hf st a st' H. unfold bind in H.
  destruct (m st) as [[b | e |] st1]; [exact (Hf b _ _ _ H) | discriminate ..].
Qed.

Lemma yields_then2 {B} (m : M B) (f : B -> M A) (g : JsValue -> M A) :
  (forall b, yields P (f b)) -> (forall e, yields P (g e)) -> yields P (then2 m f g).
Proof.
  intros Hf Hg st a st' H. unfold then2 in H.
  destruct (m st) as [[b | e |] st1];
    [exact (Hf b _ _ _ H) | exact (Hg e _ _ _ H) | discriminate].
Qed.

Lemma yields_escaping (m : M A) : yields P m -> yields P (escaping m).
Proof.
  intros Hm st a st' H. unfold escaping in H.
  destruct (m st) as [[a' | e |] st1] eqn:E; [| discriminate ..].
  injection H as <- <-. exact (Hm _ _ _ E).
Qed.

Lemma yields_fin (m : M A) (callback : M unit) : yields P m -> yields P (fin m callback).
Proof.
  intros Hm st a st' H. unfold fin in H.
  destruct (m st) as [[a' | e |] st1] eqn:E;
    [| destruct (callback st1) as [[[] | e' |] st2]; discriminate | discriminate].
  destruct (callback st1) as [[[] | e' |] st2]; [| discriminate ..].
  injection H as <- _. exact (Hm _ _ _ E).
Qed.

End Yields.

Ltac yields_step :=
  first
    [ apply yields_ret; reflexivity
    | apply yields_throw | apply yields_hang
    | apply yields_escaping
    | apply yields_bind; intros ?
    | apply yields_then2; intros ?
    | match goal with
      | |- yields _ (if ?b then _ else _) => destruct b
      | |- yields _ (match ?x with _ => _ end) => destruct x
      end ].

Lemma runTests_yields_undefined (w : World) :
  yields (fun v => v = VUndefined) (runTests w).
Proof.
  unfold runTests, runSauceTests, runTests_onSuccess, runTests_onFailure.
  repeat yields_step.
Qed.

Lemma pipeline_yields_undefined (w : World) :
  yields (fun v => v = VUndefined) (pipeline w).
Proof.
  unfold pipeline, run_onServer.
  repeat first [apply runTests_yields_undefined | apply yields_bind; intros ?].
Qed.

Lemma exports_run_fulfils (w : World) (c : Config) (stored : option string)
      (t : Z) (v : JsValue) :
  delivery (exports_run w c stored) = Fulfils t v ->
  exists st st',
    config (self st) = c
    /\ fin (pipeline w) (cleanUpProject w) st = (Ok v, st').
Proof.
  unfold exports_run.
  destruct (raises w (SetVerboseLevel (isVerbose c))); [discriminate |].
  match goal with |- context [run w ?st0] => set (st := st0) end.
  unfold run.
  pose proof (checkSauceRequirements_state w st) as Hsame.
  destruct (checkSauceRequirements w st) as [rc stc]; simpl in Hsame; subst stc.
  destruct rc as [[] | e |]; [| discriminate |];
    (destruct (fin (pipeline w) (cleanUpProject w) st) as [r st'] eqn:Efin;
     unfold timeout, timed_out;
     destruct r as [v' | e' |];
     [ destruct (now st' <? _); [| discriminate];
       intros H; injection H as _ <-; exists st, st'; split; [reflexivity | exact Efin]
     | destruct (now st' <? _); discriminate
     | discriminate ]).
Qed.

(** X9. Whenever the promise of [exports.run] is fulfilled, it is fulfilled
    with [undefined]: the boolean [waitForTests] computes never reaches the
    caller, on the local path or on the remote one. *)
Theorem run_is_fulfilled_with_undefined :
  forall (w : World) (c : Config) (stored : option string) (t : Z) (v : JsValue),
    delivery (exports_run w c stored) = Fulfils t v ->
    v = VUndefined.
Proof.
  intros w c stored t v H.
  destruct (exports_run_fulfils w c stored t v H) as [st [st' [_ Hfin]]].
  exact (yields_fin _ _ _ (pipeline_yields_undefined w) _ _ _ Hfin).
Qed.

Lemma run_is_fulfilled_with_undefined_witness :
  delivery (exports_run Scene.red_suite (Sample.sauce_config "android" "run" 3600000) None)
  = Fulfils 400000 VUndefined
  /\ VUndefined = VUndefined.
Proof.
  assert (H : delivery (exports_run Scene.red_suite
                          (Sample.sauce_config "android" "run" 3600000) None)
              = Fulfils 400000 VUndefined) by (vm_compute; reflexivity).
  split; [exact H |].
  exact (run_is_fulfilled_with_undefined Scene.red_suite
           (Sample.sauce_config "android" "run" 3600000) None 400000 VUndefined H).
Defined.

(** ** The local branch never succeeds when it has to wait *)

Lemma runTests_local_wait_not_fulfilled (w : World) (st : State)
      (r : Res JsValue) (st' : State) :
  shouldUseSauce (config (self st)) = false ->
  shouldWaitForTestResult (config (self st)) = true ->
  runTests w st = (r, st') ->
  forall v, r <> Ok v.
Proof.
  intros Hsauce Hwait.
  unfold runTests, runTests_onSuccess, runTests_onFailure, logger, waitForConnection_arm.
  change (read_identifier handler_scope "reject")
    with (@throw unit (ReferenceError "reject is not defined")).
  unfold then2, await, bind, call, emit, sleep, lift, get_config, ret, throw, hang, record.
  cbn [self now trace config fst snd]. rewrite Hsauce.
  destruct (raises w _); [intros H v; injection H as <- _; discriminate |].
  destruct (execPromise w _) as [d [v0 | e] |]; cbn [self now trace config fst snd].
  - rewrite Hwait. unfold detach.
    destruct (waitForConnection_callback _) as [rc fired].
    intros H v; injection H as <- _; discriminate.
  - destruct (verbose (config (self st))); cbn [negb];
      intros H v; injection H as <- _; discriminate.
  - intros H v; injection H as <- _; discriminate.
Qed.

(** X10. Local mode with action 'run' or 'emulate': whatever the
    collaborators do (the command, the device, the events), the promise of
    [exports.run] is never fulfilled; the caller gets a rejection. *)
Theorem local_test_run_is_never_fulfilled :
  forall (w : World) (c : Config) (stored : option string) (t : Z) (v : JsValue),
    shouldUseSauce c = false ->
    shouldWaitForTestResult c = true ->
    delivery (exports_run w c stored) <> Fulfils t v.
Proof.
  intros w c stored t v Hsauce Hwait H.
  destruct (exports_run_fulfils w c stored t v H) as [st [st' [Hc Hfin]]].
  unfold fin in Hfin.
  destruct (pipeline w st) as [rp st1] eqn:Ep.
  assert (Hok : exists v1, rp = Ok v1).
  { destruct rp as [v1 | e |]; [now exists v1 | |];
      [destruct (cleanUpProject w st1) as [[[] | e' |] st2]; discriminate | discriminate]. }
  destruct Hok as [v1 ->]. clear Hfin.
  unfold pipeline in Ep. apply bind_inv in Ep.
  destruct Ep as [(srv & st0 & Hprov & Hserve) | [(e & _ & ?) | (_ & ?)]]; [| discriminate ..].
  destruct (quiet_run_provision w _ _ _ Hprov) as [Hc0 _].
  rewrite run_onServer_unfold in Hserve. cbv zeta in Hserve.
  destruct (raises w (GetReporters _)); [discriminate |].
  destruct (raises w (WriteFileSync _ _)); [discriminate |].
  refine (runTests_local_wait_not_fulfilled w _ _ _ _ _ Hserve v1 eq_refl).
  - change (config (self (wired w srv st0))) with (config (self st0)). now rewrite Hc0, Hc.
  - change (config (self (wired w srv st0))) with (config (self st0)). now rewrite Hc0, Hc.
Qed.

Lemma local_test_run_is_never_fulfilled_witness :
  delivery (exports_run Sample.calm (Sample.local_config "emulate" 3600000) None)
  <> Fulfils 400000 VUndefined.
Proof.
  exact (local_test_run_is_never_fulfilled Sample.calm
           (Sample.local_config "emulate" 3600000) None 400000 VUndefined eq_refl eq_refl).
Defined.

(** ** The driver session of the remote branch *)

Lemma waits_waitForConnection : adds waits waitForConnection.
Proof.
  unfold waitForConnection, waitForConnection_arm, waitForConnection_callback.
  adds_auto.
Qed.

Lemma waits_waitForTests : adds waits waitForTests.
Proof.
  unfold waitForTests, logger. adds_auto.
  intros st r st' Hrun.
  eapply (adds_await_events waits); [| | exact Hrun]; adds_leaf.
Qed.

Lemma waits_no_quit (a : Action) : waits a -> no_quit a.
Proof. destruct a; simpl; auto. Qed.

Lemma uploads_no_quit (a : Action) : uploads a -> no_quit a.
Proof. destruct a; simpl; auto. Qed.

Lemma quits_app (l1 l2 : list Entry) : quits (l1 ++ l2) = (quits l1 + quits l2)%nat.
Proof. unfold quits. now rewrite filter_app, length_app. Qed.

Lemma quits_none (l : list Entry) :
  Forall (fun e => no_quit (snd e)) l -> quits l = 0%nat.
Proof.
  induction 1 as [| [t a] l Ha _ IH]; [reflexivity |].
  unfold quits in *; simpl. unfold is_quit at 1; simpl.
  destruct a; simpl in *; try exact IH. contradiction.
Qed.

Lemma session_law_stopped (r : Res JsValue) (l : list Entry) :
  (forall v, r <> Ok v) ->
  Forall (fun e => no_quit (snd e)) l ->
  session_law r l.
Proof.
  intros Hr Hl. unfold session_law. rewrite (quits_none l Hl).
  split; [lia |]. split.
  - intros v Hv. now destruct (Hr v).
  - intros e _ H. discriminate.
Qed.

Lemma session_law_prefix (r : Res JsValue) (l0 l : list Entry) :
  Forall (fun e => no_quit (snd e)) l0 ->
  session_law r l ->
  session_law r (l0 ++ l).
Proof.
  intros Hl0 H. unfold session_law in *.
  now rewrite quits_app, (quits_none l0 Hl0).
Qed.

(** The callback of [driver.init] and what follows it. *)
Lemma session_tail (w : World) (st : State) (r : Res JsValue) (st' : State) :
  then2 (await (driverInit w))
    (fun _ =>
       then2 (waitForConnection ;; waitForTests)
         (fun _ => escaping (call w DriverQuit) ;; ret VUndefined)
         (fun _ => escaping (call w DriverQuit) ;; throw VUndefined))
    (fun error => escaping (throw (Error "Error starting Appium web driver")))
    st = (r, st') ->
  exists l, trace st' = trace st ++ l /\ session_law r l.
Proof.
  assert (Hwait : adds no_quit (waitForConnection ;; waitForTests)).
  { apply adds_bind; [| intros _]; (eapply adds_weaken; [exact waits_no_quit |]);
      [apply waits_waitForConnection | apply waits_waitForTests]. }
  unfold then2 at 1.
  destruct (await (driverInit w) st) as [r0 st0] eqn:Einit.
  destruct (adds_await no_quit (driverInit w) _ _ _ Einit) as [_ [l0 [Ht0 Hq0]]].
  destruct r0 as [[] | e |].
  - unfold then2.
    destruct ((waitForConnection ;; waitForTests) st0) as [r1 st1] eqn:Ewait.
    destruct (Hwait _ _ _ Ewait) as [_ [l1 [Ht1 Hq1]]].
    assert (Hpre : Forall (fun e => no_quit (snd e)) (l0 ++ l1)) by now apply Forall_app.
    assert (Htr : trace st1 = trace st ++ (l0 ++ l1)) by (rewrite Ht1, Ht0; now rewrite app_assoc).
    assert (Hdone : forall (r2 : Res JsValue) (tail : list Entry),
               (forall v, r2 = Ok v -> v = VUndefined) ->
               (forall e, r2 = Throw e -> e = VUndefined) ->
               quits tail = 1%nat ->
               exists l, trace st1 ++ tail = trace st ++ l /\ session_law r2 l).
    { intros r2 tail Hv He Hone. exists ((l0 ++ l1) ++ tail).
      split; [rewrite Htr; now rewrite <- !app_assoc |].
      apply session_law_prefix; [exact Hpre |].
      unfold session_law. rewrite Hone. split; [lia |]. split.
      - intros v Hr. split; [now apply Hv | reflexivity].
      - intros e Hr _. now apply He. }
    destruct r1 as [v | e |];
      unfold bind, escaping, call, ret, throw, record.
    + destruct (raises w DriverQuit); intros H; injection H as <- <-; simpl;
        [rewrite <- app_assoc |]; apply Hdone; try reflexivity;
        intros; try discriminate; congruence.
    + destruct (raises w DriverQuit); intros H; injection H as <- <-; simpl;
        [rewrite <- app_assoc |]; apply Hdone; try reflexivity;
        intros; try discriminate; congruence.
    + intros H; injection H as <- <-. exists (l0 ++ l1). split; [exact Htr |].
      apply session_law_stopped; [discriminate | exact Hpre].
  - unfold escaping, throw, record. intros H; injection H as <- <-. simpl.
    rewrite Ht0, <- app_assoc. eexists; split; [reflexivity |].
    apply session_law_stopped; [discriminate |].
    apply Forall_app; split; [exact Hq0 | repeat constructor].
  - intros H; injection H as <- <-. exists l0. split; [exact Ht0 |].
    apply session_law_stopped; [discriminate | exact Hq0].
Qed.

(** [bind] under a law of this kind: a first part that never quits. *)
Lemma session_bind {A} (m : M A) (f : A -> M JsValue)
      (st : State) (r : Res JsValue) (st' : State) :
  adds no_quit m ->
  (forall a st1, f a st1 = (r, st') ->
                 exists l, trace st' = trace st1 ++ l /\ session_law r l) ->
  bind m f st = (r, st') ->
  exists l, trace st' = trace st ++ l /\ session_law r l.
Proof.
  intros Hm Hf H. apply bind_inv in H.
  destruct H as [(a & st1 & Hrun & H) | [(e & Hrun & ->) | (Hrun & ->)]].
  - destruct (Hm _ _ _ Hrun) as [_ [l0 [Ht0 Hq0]]].
    destruct (Hf a st1 H) as [l [Ht Hlaw]].
    exists (l0 ++ l). split; [rewrite Ht, Ht0; now rewrite app_assoc |].
    now apply session_law_prefix.
  - destruct (Hm _ _ _ Hrun) as [_ [l0 [Ht0 Hq0]]].
    exists l0. split; [exact Ht0 |]. apply session_law_stopped; [discriminate | exact Hq0].
  - destruct (Hm _ _ _ Hrun) as [_ [l0 [Ht0 Hq0]]].
    exists l0. split; [exact Ht0 |]. apply session_law_stopped; [discriminate | exact Hq0].
Qed.

(** X11. However [runSauceTests] ends, it has called [driver.quit()] at
    most once.  When it is fulfilled, it has called it exactly once and the
    value is [undefined]; when it is rejected after having called it, the
    reason is [undefined]: the timeout error of the watchdog and the
    disconnect error of [waitForTests] do not reach the caller. *)
Theorem remote_session_is_closed_once :
  forall (w : World) (st : State),
    exists l,
      trace (snd (runSauceTests w st)) = trace st ++ l
      /\ (quits l <= 1)%nat
      /\ (forall v, fst (runSauceTests w st) = Ok v -> v = VUndefined /\ quits l = 1%nat)
      /\ (forall e, fst (runSauceTests w st) = Throw e -> quits l = 1%nat -> e = VUndefined).
Proof.
  intros w st.
  destruct (runSauceTests w st) as [r st'] eqn:H. simpl.
  change (exists l, trace st' = trace st ++ l /\ session_law r l).
  unfold runSauceTests in H.
  revert H. apply session_bind; [unfold logger; adds_auto |]. intros _ st1.
  apply session_bind;
    [eapply adds_weaken; [exact uploads_no_quit | apply uploads_uploadApp] |].
  intros _ st2.
  apply session_bind; [unfold getAppName; adds_auto |]. intros app st3.
  apply session_bind; [adds_auto |]. intros c st4.
  apply session_bind; [adds_auto |]. intros caps st5.
  apply session_bind; [adds_auto |]. intros _ st6.
  apply session_bind; [adds_auto |]. intros _ st7.
  apply session_tail.
Qed.

(** ** What [run] removes *)

Section Keeps.

Variable I : Runner -> Prop.

Lemma keeps_self {A} (m : M A) :
  (forall st r st', m st = (r, st') -> self st' = self st) -> keeps I m.
Proof. intros Hm st r st' HI H. now rewrite (Hm _ _ _ H). Qed.

Lemma keeps_ret {A} (a : A) : keeps I (ret a).
Proof. apply keeps_self. intros st r st' H. now injection H as _ <-. Qed.

Lemma keeps_throw {A} (e : JsValue) : keeps I (@throw A e).
Proof. apply keeps_self. intros st r st' H. now injection H as _ <-. Qed.

Lemma keeps_hang {A} : keeps I (@hang A).
Proof. apply keeps_self. intros st r st' H. now injection H as _ <-. Qed.

Lemma keeps_get_self : keeps I get_self.
Proof. apply keeps_self. intros st r st' H. now injection H as _ <-. Qed.

Lemma keeps_get_config : keeps I get_config.
Proof. apply keeps_self. intros st r st' H. now injection H as _ <-. Qed.

Lemma keeps_get_now : keeps I get_now.
Proof. apply keeps_self. intros st r st' H. now injection H as _ <-. Qed.

Lemma keeps_sleep (d : Z) : keeps I (sleep d).
Proof. apply keeps_self. intros st r st' H. now injection H as _ <-. Qed.

Lemma keeps_emit (a : Action) : keeps I (emit a).
Proof. apply keeps_self. intros st r st' H. now injection H as _ <-. Qed.

Lemma keeps_call (w : World) (a : Action) : keeps I (call w a).
Proof.
  apply keeps_self. intros st r st' H. unfold call in H.
  destruct (raises w a); now injection H as _ <-.
Qed.

Lemma keeps_lift {A} (r : A + JsValue) : keeps I (lift r).
Proof. destruct r; [apply keeps_ret | apply keeps_throw]. Qed.

Lemma keeps_read_identifier (scope : list string) (x : string) :
  keeps I (read_identifier scope x).
Proof.
  unfold read_identifier. destruct (existsb _ _); [apply keeps_ret | apply keeps_throw].
Qed.

Lemma keeps_modify_self (f : Runner -> Runner) :
  (forall r, I r -> I (f r)) -> keeps I (modify_self f).
Proof. intros Hf st r st' HI H. injection H as _ <-. simpl. now apply Hf. Qed.

Lemma keeps_then2 {A B} (m : M A) (f : A -> M B) (g : JsValue -> M B) :
  keeps I m -> (forall a, keeps I (f a)) -> (forall e, keeps I (g e)) ->
  keeps I (then2 m f g).
Proof.
  intros Hm Hf Hg st r st' HI H. unfold then2 in H.
  destruct (m st) as [[a | e |] st1] eqn:E; pose proof (Hm _ _ _ HI E) as H1.
  - exact (Hf a _ _ _ H1 H).
  - exact (Hg e _ _ _ H1 H).
  - now injection H as _ <-.
Qed.

Lemma keeps_bind {A B} (m : M A) (f : A -> M B) :
  keeps I m -> (forall a, keeps I (f a)) -> keeps I (bind m f).
Proof.
  intros Hm Hf st r st' HI H. unfold bind in H.
  destruct (m st) as [[a | e |] st1] eqn:E; pose proof (Hm _ _ _ HI E) as H1.
  - exact (Hf a _ _ _ H1 H).
  - now injection H as _ <-.
  - now injection H as _ <-.
Qed.

Lemma keeps_escaping {A} (m : M A) : keeps I m -> keeps I (escaping m).
Proof.
  intros Hm st r st' HI H. unfold escaping in H.
  destruct (m st) as [[a | e |] st1] eqn:E; pose proof (Hm _ _ _ HI E) as H1;
    now injection H as _ <-.
Qed.

Lemma keeps_detach {A} (d : Z) (m : M A) : keeps I (detach d m).
Proof.
  apply keeps_self. intros st r st' H. unfold detach in H.
  destruct (m _) as [r1 fired]. now injection H as _ <-.
Qed.

Lemma keeps_await {A} (e : Eventually A) : keeps I (await e).
Proof.
  destruct e as [d r |]; simpl.
  - apply keeps_bind; [apply keeps_sleep | intros _; apply keeps_lift].
  - apply keeps_hang.
Qed.

Lemma keeps_forEach {A} (f : nat -> A -> M unit) (l : list A) :
  (forall i x, keeps I (f i x)) -> forall i, keeps I (forEach f i l).
Proof.
  intros Hf. induction l as [| x rest IH]; intros i; simpl.
  - apply keeps_ret.
  - apply keeps_bind; [apply Hf | intros _; apply IH].
Qed.

Lemma keeps_await_events (since : Z) (evs : list (Z * ServerEvent)) :
  forall d, keeps I (await_events since evs d).
Proof.
  intros d. apply keeps_self. revert d.
  induction evs as [| [t ev] rest IH]; intros d st r st' H; simpl in H.
  - now injection H as _ <-.
  - destruct (t <? since); [exact (IH _ _ _ _ H) |].
    destruct (dispatch ev d) as [acts [| v | e]].
    + now rewrite (IH _ _ _ _ H).
    + now injection H as _ <-.
    + now injection H as _ <-.
Qed.

End Keeps.

Ltac keeps_step :=
  first
    [ apply keeps_ret | apply keeps_throw | apply keeps_hang
    | apply keeps_get_self | apply keeps_get_config | apply keeps_get_now
    | apply keeps_lift | apply keeps_read_identifier | apply keeps_sleep
    | apply keeps_await
    | apply keeps_emit | apply keeps_call
    | apply keeps_modify_self; intros ? ?; unfold folder_ok in *; simpl; tauto
    | apply keeps_escaping
    | apply keeps_detach
    | apply keeps_bind; [| intros ?]
    | apply keeps_then2; [| intros ? | intros ?]
    | apply keeps_forEach; intros ? ?
    | match goal with
      | |- keeps _ (if ?b then _ else _) => destruct b
      | |- keeps _ (match ?x with _ => _ end) => destruct x
      | |- keeps _ (fun st => await_events _ _ _ st) =>
          let st := fresh "st" in
          let r := fresh "r" in
          let st' := fresh "st'" in
          let HI := fresh "HI" in
          let H := fresh "H" in
          intros st r st' HI H; exact (keeps_await_events _ _ _ _ _ _ _ HI H)
      end ].

Lemma keeps_pipeline (w : World) : keeps (folder_ok w) (pipeline w).
Proof.
  unfold pipeline, run_provision, run_onServer, createTempProject,
    prepareProjectToRunTests, installPlugins, setUpStartPage, installPlatform,
    checkPlatformRequirements, injectReporters, subcribeForEvents,
    writeMedicConnectionUrl, runTests, runSauceTests, runTests_onSuccess,
    runTests_onFailure, uploadApp, getAppName, getBinaryPath, tempFolder_name,
    waitForTests, waitForConnection, waitForConnection_arm, waitForConnection_callback,
    server_on, logger.
  repeat keeps_step.
Qed.

Lemma waits_no_rm (a : Action) : waits a -> no_rm a.
Proof. destruct a; simpl; auto. Qed.

Lemma no_rm_removes_only (w : World) (a : Action) : no_rm a -> removes_only w a.
Proof. destruct a; simpl; tauto. Qed.

Ltac adds_via lem :=
  first
    [ eapply adds_weaken;
      [ exact lem
      | first [apply waits_waitForTests | apply waits_waitForConnection] ]
    | apply adds_modify_self; intros; reflexivity
    | apply adds_emit; adds_leaf
    | apply adds_call; adds_leaf
    | apply adds_server_on; adds_leaf
    | apply adds_ret | apply adds_throw | apply adds_hang
    | apply adds_get_self | apply adds_get_config | apply adds_get_now
    | apply adds_lift | apply adds_read_identifier | apply adds_sleep
    | apply adds_await
    | apply adds_escaping; [adds_leaf |]
    | apply adds_detach
    | apply adds_bind; [| intros ?]
    | apply adds_then2; [| intros ? | intros ?]
    | apply adds_forEach; intros ? ?
    | match goal with
      | |- adds _ (if ?b then _ else _) => destruct b
      | |- adds _ (match ?x with _ => _ end) => destruct x
      end ].

Ltac adds_wait_or_step := adds_via waits_no_rm.

Lemma no_rm_pipeline (w : World) : adds no_rm (pipeline w).
Proof.
  unfold pipeline, run_provision, run_onServer, createTempProject,
    prepareProjectToRunTests, installPlugins, setUpStartPage, installPlatform,
    checkPlatformRequirements, injectReporters, subcribeForEvents,
    writeMedicConnectionUrl, runTests, runSauceTests, runTests_onSuccess,
    runTests_onFailure, uploadApp, getAppName, getBinaryPath, tempFolder_name,
    waitForConnection_arm, waitForConnection_callback, logger.
  repeat adds_wait_or_step.
Qed.

Lemma cleanUpProject_removes (w : World) (st : State) (r : Res unit) (st2 : State) :
  folder_ok w (self st) ->
  cleanUpProject w st = (r, st2) ->
  exists l, trace st2 = trace st ++ l /\ Forall (fun e => removes_only w (snd e)) l.
Proof.
  destruct st as [[cfg folder plugins srv cwd] t tr]. unfold folder_ok; simpl.
  intros Hfolder.
  unfold cleanUpProject, tempFolder_name, logger.
  repeat (unfold bind, get_config, get_self, emit, call, throw, ret, record; simpl).
  destruct (getShouldCleanUpAfterRun cfg); simpl;
    [ destruct folder as [name |]; simpl;
      [ assert (name = tmpName w) as -> by (destruct Hfolder as [H | H]; congruence);
        destruct (raises w ShellPopd); simpl;
        [| destruct (raises w (ShellRm "-rf" (tmpName w))); simpl ] |] |];
    intros H; inversion H; subst; clear H; simpl;
    repeat rewrite <- app_assoc; simpl;
    (eexists; split; [reflexivity |]); repeat constructor.
Qed.

Lemma run_removes (w : World) (st : State) :
  folder_ok w (self st) ->
  exists l, trace (snd (run w st)) = trace st ++ l
            /\ Forall (fun e => removes_only w (snd e)) l.
Proof.
  intros HI. unfold run.
  pose proof (checkSauceRequirements_state w st) as Hsame.
  destruct (checkSauceRequirements w st) as [rc stc]; simpl in Hsame; subst stc.
  assert (Hfin : exists l, trace (snd (fin (pipeline w) (cleanUpProject w) st)) = trace st ++ l
                           /\ Forall (fun e => removes_only w (snd e)) l).
  { unfold fin. destruct (pipeline w st) as [rp st1] eqn:Ep.
    destruct (no_rm_pipeline w _ _ _ Ep) as [_ [l1 [Ht1 Hq1]]].
    pose proof (keeps_pipeline w _ _ _ HI Ep) as HI1.
    assert (Hq1' : Forall (fun e => removes_only w (snd e)) l1).
    { eapply Forall_impl; [| exact Hq1]. intros e; apply no_rm_removes_only. }
    destruct rp as [v | e |];
      try (destruct (cleanUpProject w st1) as [r2 st2] eqn:Ecl;
           destruct (cleanUpProject_removes w _ _ _ HI1 Ecl) as [l2 [Ht2 Hq2]];
           exists (l1 ++ l2);
           split; [destruct r2; simpl; rewrite Ht2, Ht1; now rewrite app_assoc
                  | now apply Forall_app]).
    exists l1. now split. }
  destruct rc as [[] | e |].
  - destruct (fin (pipeline w) (cleanUpProject w) st); exact Hfin.
  - exists []. simpl. rewrite app_nil_r. now split.
  - destruct (fin (pipeline w) (cleanUpProject w) st); exact Hfin.
Qed.

Lemma timeout_entries (deadline : Z) (r : Res JsValue) (st : State) (e : Entry) :
  In e (before (timeout deadline r st) ++ after (timeout deadline r st)) ->
  In e (trace st).
Proof.
  assert (Hlate : In e (before (timed_out deadline st) ++ after (timed_out deadline st)) ->
                  In e (trace st)).
  { simpl. intros H. apply in_app_or in H.
    destruct H as [H | H]; apply filter_In in H; tauto. }
  assert (Hin : forall t d, In e (before (in_time t d st) ++ after (in_time t d st)) ->
                            In e (trace st)).
  { simpl. intros t d H. apply in_app_or in H.
    destruct H as [H | H]; apply filter_In in H; tauto. }
  unfold timeout. destruct r as [v | e' |]; try exact Hlate;
    (destruct (now st <? deadline); [apply Hin | exact Hlate]).
Qed.

(** X12. The only thing a run ever removes is the temporary folder: every
    [shell.rm] in the trace of [exports.run], before or after the caller has
    its answer, is [rm -rf] of the directory [tmp.dirSync()] returned. *)
Theorem only_the_temporary_folder_is_removed :
  forall (w : World) (c : Config) (stored : option string) (flags dir : string),
    In (ShellRm flags dir)
       (map snd (before (exports_run w c stored) ++ after (exports_run w c stored))) ->
    flags = "-rf" /\ dir = tmpName w.
Proof.
  intros w c stored flags dir Hin.
  apply in_map_iff in Hin. destruct Hin as [[t a] [Ha Hin]]. simpl in Ha. subst a.
  unfold exports_run in Hin.
  destruct (raises w (SetVerboseLevel (isVerbose c))).
  - simpl in Hin. destruct Hin as [H | []]. discriminate.
  - match type of Hin with context [run w ?st0] => set (st := st0) in * end.
    assert (HI : folder_ok w (self st)) by (left; reflexivity).
    destruct (run_removes w st HI) as [l [Ht Hq]].
    assert (Htrace : In (t, ShellRm flags dir) (trace (snd (run w st)))).
    { destruct (run w st) as [[e | r] st']; simpl in *.
      - now rewrite app_nil_r in Hin.
      - now apply timeout_entries in Hin. }
    rewrite Ht in Htrace. simpl in Htrace. destruct Htrace as [H | H]; [discriminate |].
    rewrite Forall_forall in Hq. exact (Hq _ H).
Qed.

Lemma only_the_temporary_folder_witness :
  In (ShellRm "-rf" "/tmp/tmp-4711")
     (map snd (before (exports_run Sample.calm (Sample.local_config "build" 3600000) None)
               ++ after (exports_run Sample.calm (Sample.local_config "build" 3600000) None)))
  /\ "/tmp/tmp-4711" = tmpName Sample.calm.
Proof.
  assert (H : In (ShellRm "-rf" "/tmp/tmp-4711")
                (map snd (before (exports_run Sample.calm
                                    (Sample.local_config "build" 3600000) None)
                          ++ after (exports_run Sample.calm
                                      (Sample.local_config "build" 3600000) None))))
    by (vm_compute; auto 40).
  split; [exact H |].
  exact (proj2 (only_the_temporary_folder_is_removed Sample.calm
                  (Sample.local_config "build" 3600000) None _ _ H)).
Defined.

(** ** A server that does not start *)

Lemma provisions_run_provision (w : World) : adds provisions (run_provision w).
Proof.
  unfold run_provision, createTempProject, prepareProjectToRunTests, installPlugins,
    setUpStartPage, installPlatform, checkPlatformRequirements, tempFolder_name, logger.
  repeat adds_wait_or_step.
Qed.

Lemma run_provision_needs_server (w : World) (st : State) (r : Res Server) (st' : State) :
  (forall d srv, startServer w <> After d (inl srv)) ->
  run_provision w st = (r, st') ->
  forall srv, r <> Ok srv.
Proof.
  intros Hno H srv ->.
  destruct (run_provision_server w _ _ _ H) as [d Hd]. exact (Hno d srv Hd).
Qed.

Lemma createTempProject_calm (w : World) (st : State) :
  (forall a, raises w a = None) ->
  exists st1,
    createTempProject w st = (Ok tt, st1)
    /\ tempFolder (self st1) = Some (tmpName w)
    /\ config (self st1) = config (self st).
Proof.
  intros Hcalm. unfold createTempProject, tempFolder_name, logger.
  unfold bind, call, emit, modify_self, get_self, ret. rewrite ?Hcalm. cbn [self tempFolder
    with_tempFolder record]. rewrite ?Hcalm.
  eexists; split; [reflexivity |]. split; reflexivity.
Qed.

Lemma prepareProjectToRunTests_calm (w : World) (st : State) (name : string) :
  (forall a, raises w a = None) ->
  tempFolder (self st) = Some name ->
  execCode w ("cordova requirements " +++ getPlatformId (config (self st))) = 0 ->
  exists st1,
    prepareProjectToRunTests w st = (Ok tt, st1)
    /\ config (self st1) = config (self st).
Proof.
  intros Hcalm Hfolder Hcode. apply Z.eqb_eq in Hcode.
  unfold prepareProjectToRunTests, installPlugins, setUpStartPage, installPlatform,
    checkPlatformRequirements, tempFolder_name, logger.
  unfold bind, call, emit, modify_self, get_self, get_config, ret.
  cbn [self record]. rewrite Hfolder. rewrite ?Hcalm.
  cbn [self config with_pluginsManager record]. rewrite ?Hcalm.
  cbn [self config with_pluginsManager record]. rewrite Hcode. cbn [negb].
  eexists; split; reflexivity.
Qed.

Lemma run_provision_calm (w : World) (st : State) (d : N) (reason : JsValue) :
  (forall a, raises w a = None) ->
  execCode w ("cordova requirements " +++ getPlatformId (config (self st))) = 0 ->
  startServer w = After d (inr reason) ->
  fst (run_provision w st) = Throw reason.
Proof.
  intros Hcalm Hcode Hstart. unfold run_provision.
  destruct (createTempProject_calm w st Hcalm) as [st1 [H1 [Hf1 Hc1]]].
  rewrite (bind_ok _ _ _ _ _ H1).
  rewrite <- Hc1 in Hcode.
  destruct (prepareProjectToRunTests_calm w st1 _ Hcalm Hf1 Hcode) as [st2 [H2 Hc2]].
  rewrite (bind_ok _ _ _ _ _ H2).
  rewrite (bind_ok _ _ st2 st2 (config (self st2))) by reflexivity.
  erewrite bind_ok; [| apply call_ok; apply Hcalm].
  rewrite Hstart. reflexivity.
Qed.

(** X13. When [Server.startServer] does not give a server (its promise is
    rejected or never settles), the chain of [run] is not fulfilled and
    does nothing beyond the scaffolding and the call of [startServer]:
    nothing is subscribed, no file is written, no build/run command is
    issued.  If it was rejected, no collaborator throws and the requirements
    check passes, the chain is rejected with that very reason. *)
Theorem failed_server_start_stops_the_run :
  forall (w : World) (st : State) (r : Res JsValue) (st' : State),
    (forall d srv, startServer w <> After d (inl srv)) ->
    pipeline w st = (r, st') ->
    (forall v, r <> Ok v)
    /\ (exists l, trace st' = trace st ++ l /\ Forall (fun e => provisions (snd e)) l)
    /\ (forall d reason,
           startServer w = After d (inr reason) ->
           (forall a, raises w a = None) ->
           execCode w ("cordova requirements " +++ getPlatformId (config (self st))) = 0 ->
           r = Throw reason).
Proof.
  intros w st r st' Hno H.
  assert (Hstop : (forall v, r <> Ok v)
                  /\ exists l, trace st' = trace st ++ l
                               /\ Forall (fun e => provisions (snd e)) l).
  { unfold pipeline in H. apply bind_inv in H.
    destruct H as [(srv & st0 & Hprov & _) | [(e & Hprov & ->) | (Hprov & ->)]].
    - exfalso. exact (run_provision_needs_server w _ _ _ Hno Hprov srv eq_refl).
    - split; [discriminate | exact (proj2 (provisions_run_provision w _ _ _ Hprov))].
    - split; [discriminate | exact (proj2 (provisions_run_provision w _ _ _ Hprov))]. }
  destruct Hstop as [Hnot Htrace]. split; [exact Hnot |]. split; [exact Htrace |].
  intros d reason Hstart Hcalm Hcode.
  pose proof (run_provision_calm w st d reason Hcalm Hcode Hstart) as Hprov.
  unfold pipeline, bind in H.
  destruct (run_provision w st) as [[srv | e |] st0]; simpl in Hprov;
    [discriminate | | discriminate].
  injection Hprov as ->. now injection H as <- _.
Qed.

Lemma failed_server_start_witness :
  fst (pipeline Scene.busy_port (Sample.fresh (Sample.local_config "run" 3600000)))
  = Throw (Error "EADDRINUSE").
Proof.
  refine (proj2 (proj2 (failed_server_start_stops_the_run Scene.busy_port
                          (Sample.fresh (Sample.local_config "run" 3600000))
                          _ _ _ (surjective_pairing _)))
            100%N (Error "EADDRINUSE") eq_refl _ eq_refl).
  - intros d srv H. discriminate.
  - reflexivity.
Defined.

(** ** The name of the application on the remote branch *)

Section Under.

Variable c0 : Config.
Variable Q : Action -> Prop.

Lemma under_of_adds {A} (m : M A) : adds Q m -> under c0 Q (fun _ => True) m.
Proof.
  intros Hm st r st' Hc H. destruct (Hm _ _ _ H) as [Hc' Hl].
  split; [congruence |]. split; [trivial | exact Hl].
Qed.

Lemma under_bind {A B} (V1 : A -> Prop) (V2 : B -> Prop) (m : M A) (f : A -> M B) :
  under c0 Q V1 m ->
  (forall a, V1 a -> under c0 Q V2 (f a)) ->
  under c0 Q V2 (bind m f).
Proof.
  intros Hm Hf st r st' Hc H. apply bind_inv in H.
  destruct H as [(a & st1 & Hrun & H) | [(e & Hrun & ->) | (Hrun & ->)]];
    destruct (Hm _ _ _ Hc Hrun) as [Hc1 [Hv1 [l1 [Ht1 Hq1]]]].
  - destruct (Hf a (Hv1 a eq_refl) _ _ _ Hc1 H) as [Hc2 [Hv2 [l2 [Ht2 Hq2]]]].
    split; [exact Hc2 |]. split; [exact Hv2 |].
    exists (l1 ++ l2). split; [rewrite Ht2, Ht1; now rewrite app_assoc | now apply Forall_app].
  - split; [exact Hc1 |]. split; [discriminate | now exists l1].
  - split; [exact Hc1 |]. split; [discriminate | now exists l1].
Qed.

Lemma under_pure {A} (V : A -> Prop) (m : M A) :
  (forall st, config (self st) = c0 ->
              exists r, m st = (r, st) /\ forall a, r = Ok a -> V a) ->
  under c0 Q V m.
Proof.
  intros Hm st r st' Hc H. destruct (Hm st Hc) as [r0 [Hr0 Hv]].
  rewrite Hr0 in H. injection H as <- <-.
  split; [exact Hc |]. split; [exact Hv |]. exists []. now rewrite app_nil_r.
Qed.

Lemma under_get_config : under c0 Q (fun c => c = c0) get_config.
Proof.
  apply under_pure. intros st Hc. exists (Ok (config (self st))).
  split; [reflexivity |]. intros a H. injection H as <-. exact Hc.
Qed.

Lemma under_lift {A} (V : A -> Prop) (r : A + JsValue) :
  (forall a, r = inl a -> V a) -> under c0 Q V (lift r).
Proof.
  intros Hr. apply under_pure. intros st _. destruct r as [a | e]; simpl.
  - exists (Ok a). split; [reflexivity |]. intros a' H. injection H as <-. now apply Hr.
  - exists (Throw e). split; [reflexivity | discriminate].
Qed.

Lemma under_getAppName : under c0 Q (fun app => app_name c0 = Some app) getAppName.
Proof.
  apply under_pure. intros st Hc.
  unfold getAppName, bind, get_config, app_name. rewrite Hc.
  destruct (String.eqb (getPlatformId c0) "android").
  - exists (Ok "android-debug.apk"). split; [reflexivity |].
    intros a H. now injection H as <-.
  - destruct (String.eqb (getPlatformId c0) "ios").
    + exists (Ok "mobilespec.ipa"). split; [reflexivity |].
      intros a H. now injection H as <-.
    + eexists. split; [reflexivity | discriminate].
Qed.

Lemma under_getBinaryPath :
  under c0 Q
    (fun file => exists dirs app, app_name c0 = Some app /\ file = path_join (dirs ++ [app]))
    getBinaryPath.
Proof.
  apply under_pure. intros st Hc.
  unfold getBinaryPath, tempFolder_name, bind, get_config, get_self, app_name. rewrite Hc.
  destruct (String.eqb (getPlatformId c0) "android").
  - destruct (tempFolder (self st)) as [name |].
    + eexists. split; [reflexivity |]. intros a H. injection H as <-.
      exists [name; "platforms"; "android"; "build"; "outputs"; "apk"], "android-debug.apk".
      split; reflexivity.
    + eexists. split; [reflexivity | discriminate].
  - destruct (String.eqb (getPlatformId c0) "ios").
    + destruct (tempFolder (self st)) as [name |].
      * eexists. split; [reflexivity |]. intros a H. injection H as <-.
        exists [name; "platforms"; "ios"; "build"; "device"], "mobilespec.ipa".
        split; reflexivity.
      * eexists. split; [reflexivity | discriminate].
    + eexists. split; [reflexivity | discriminate].
Qed.

End Under.

Lemma waits_names_app (w : World) (app : string) (a : Action) :
  waits a -> names_app w app a.
Proof. destruct a; simpl; tauto. Qed.

Lemma capabilities_app (c : Config) (app : string) (caps : list (string * string)) :
  capabilities c app = inl caps -> In ("app", "sauce-storage:" +++ app) caps.
Proof.
  unfold capabilities.
  destruct (String.eqb (getPlatformId c) "android");
    [| destruct (String.eqb (getPlatformId c) "ios"); [| discriminate]];
    intros H; injection H as <-; simpl; auto 10.
Qed.

Lemma getAppName_app_name (st : State) (app : string) :
  fst (getAppName st) = Ok app <-> app_name (config (self st)) = Some app.
Proof.
  unfold getAppName, bind, get_config, app_name, ret, throw.
  destruct (String.eqb (getPlatformId (config (self st))) "android"); simpl.
  - split; intros H; injection H as <-; reflexivity.
  - destruct (String.eqb (getPlatformId (config (self st))) "ios"); simpl.
    + split; intros H; injection H as <-; reflexivity.
    + split; discriminate.
Qed.

(** X14. On the remote branch the three places that name the application
    agree with [getAppName]: the file opened for the upload ends with that
    name, the upload goes to the storage URL of the user for that name (with
    the user name and the access key of the environment), and the
    capabilities given to [driver.init] ask for [sauce-storage:<name>]. *)
Theorem remote_branch_names_one_application :
  forall (w : World) (st : State) (app : string),
    fst (getAppName st) = Ok app ->
    exists l,
      trace (snd (runSauceTests w st)) = trace st ++ l
      /\ Forall (fun e => names_app w app (snd e)) l.
Proof.
  intros w st app Happ. apply getAppName_app_name in Happ.
  set (c0 := config (self st)) in *.
  assert (Hsame : forall app', app_name c0 = Some app' -> app' = app) by congruence.
  assert (Hall : under c0 (names_app w app) (fun _ => True) (runSauceTests w)).
  { unfold runSauceTests, uploadApp.
    eapply under_bind; [apply under_of_adds; unfold logger; adds_via (waits_names_app w app) |].
    intros _ _.
    eapply under_bind.
    { eapply under_bind; [apply under_getAppName |]. intros app1 H1.
      eapply under_bind;
        [apply under_of_adds; unfold logger; adds_via (waits_names_app w app) |].
      intros _ _.
      eapply under_bind; [apply under_getBinaryPath |].
      intros file [dirs [app2 [H2 ->]]]. apply Hsame in H2. subst app2.
      eapply under_bind;
        [apply under_of_adds; apply adds_call; simpl; now exists dirs |].
      intros _ _.
      eapply under_bind; [apply under_getAppName |]. intros app3 _.
      eapply under_bind; [apply under_getAppName |]. intros app4 H4.
      apply Hsame in H4. subst app4.
      eapply under_bind;
        [apply under_of_adds; apply adds_call; simpl; repeat split |].
      intros _ _. apply under_of_adds. apply adds_await. }
    intros _ _.
    eapply under_bind; [apply under_getAppName |]. intros app5 H5.
    apply Hsame in H5. subst app5.
    eapply under_bind; [apply under_get_config |]. intros c ->.
    eapply under_bind; [apply (under_lift c0 _ (fun caps => In ("app", "sauce-storage:" +++ app) caps));
                        intros caps; apply capabilities_app |].
    intros caps Hcaps.
    eapply under_bind; [apply under_of_adds; apply adds_call; exact I |]. intros _ _.
    eapply under_bind; [apply under_of_adds; apply adds_call; exact Hcaps |]. intros _ _.
    apply under_of_adds.
    repeat adds_via (waits_names_app w app). }
  destruct (runSauceTests w st) as [r st'] eqn:Hrun.
  exact (proj2 (proj2 (Hall _ _ _ eq_refl Hrun))).
Qed.

Lemma remote_branch_names_witness :
  exists l,
    trace (snd (runSauceTests Sample.calm
                  (Scene.in_project (Sample.sauce_config "ios" "run" 3600000)
                     Sample.device_server 20100)))
    = [] ++ l
    /\ Forall (fun e => names_app Sample.calm "mobilespec.ipa" (snd e)) l.
Proof.
  exact (remote_branch_names_one_application Sample.calm
           (Scene.in_project (Sample.sauce_config "ios" "run" 3600000)
              Sample.device_server 20100)
           "mobilespec.ipa" eq_refl).
Defined.

(** ** The cleanup policy *)

Lemma waits_leaves_project (a : Action) : waits a -> leaves_project a.
Proof. destruct a; simpl; auto. Qed.

Lemma leaves_project_pipeline (w : World) : adds leaves_project (pipeline w).
Proof.
  unfold pipeline, run_provision, run_onServer, createTempProject,
    prepareProjectToRunTests, installPlugins, setUpStartPage, installPlatform,
    checkPlatformRequirements, injectReporters, subcribeForEvents,
    writeMedicConnectionUrl, runTests, runSauceTests, runTests_onSuccess,
    runTests_onFailure, uploadApp, getAppName, getBinaryPath, tempFolder_name,
    waitForConnection_arm, waitForConnection_callback, logger.
  repeat adds_via waits_leaves_project.
Qed.

Lemma run_leaves_project (w : World) (st : State) :
  getShouldCleanUpAfterRun (config (self st)) = false ->
  exists l, trace (snd (run w st)) = trace st ++ l
            /\ Forall (fun e => leaves_project (snd e)) l.
Proof.
  intros Hoff. unfold run.
  pose proof (checkSauceRequirements_state w st) as Hsame.
  destruct (checkSauceRequirements w st) as [rc stc]; simpl in Hsame; subst stc.
  assert (Hfin : exists l, trace (snd (fin (pipeline w) (cleanUpProject w) st)) = trace st ++ l
                           /\ Forall (fun e => leaves_project (snd e)) l).
  { unfold fin. destruct (pipeline w st) as [rp st1] eqn:Ep.
    destruct (leaves_project_pipeline w _ _ _ Ep) as [Hc [l1 [Ht1 Hq1]]].
    assert (Hclean : cleanUpProject w st1 = (Ok tt, record EnterCleanUpProject st1)).
    { unfold cleanUpProject, bind, emit, get_config. cbn [self record config].
      now rewrite Hc, Hoff. }
    destruct rp as [v | e |]; [| | exists l1; now split];
      rewrite Hclean; simpl; rewrite Ht1, <- app_assoc;
      (eexists; split; [reflexivity |]);
      (apply Forall_app; split; [exact Hq1 | repeat constructor]). }
  destruct rc as [[] | e |].
  - destruct (fin (pipeline w) (cleanUpProject w) st); exact Hfin.
  - exists []. simpl. rewrite app_nil_r. now split.
  - destruct (fin (pipeline w) (cleanUpProject w) st); exact Hfin.
Qed.

(** X15. With the cleanup policy off ([getShouldCleanUpAfterRun] false), a
    run never leaves the project directory and never removes anything: no
    [shell.popd] and no [shell.rm] appears in the trace of [exports.run],
    however the run ends. *)
Theorem cleanup_off_keeps_the_project :
  forall (w : World) (c : Config) (stored : option string) (a : Action),
    getShouldCleanUpAfterRun c = false ->
    In a (map snd (before (exports_run w c stored) ++ after (exports_run w c stored))) ->
    a <> ShellPopd /\ forall flags dir, a <> ShellRm flags dir.
Proof.
  intros w c stored a Hoff Hin.
  assert (Hleave : leaves_project a).
  { apply in_map_iff in Hin. destruct Hin as [[t a'] [Ha Hin]]. simpl in Ha. subst a'.
    unfold exports_run in Hin.
    destruct (raises w (SetVerboseLevel (isVerbose c))).
    - simpl in Hin. destruct Hin as [H | []]. injection H as _ <-. exact I.
    - match type of Hin with context [run w ?st0] => set (st := st0) in * end.
      destruct (run_leaves_project w st Hoff) as [l [Ht Hq]].
      assert (Htrace : In (t, a) (trace (snd (run w st)))).
      { destruct (run w st) as [[e | r] st']; simpl in *.
        - now rewrite app_nil_r in Hin.
        - now apply timeout_entries in Hin. }
      rewrite Ht in Htrace. simpl in Htrace.
      destruct Htrace as [H | H]; [injection H as _ <-; exact I |].
      rewrite Forall_forall in Hq. exact (Hq _ H). }
  destruct a; simpl in Hleave; try contradiction; split; intros; discriminate.
Qed.

Lemma cleanup_off_witness :
  In EnterCleanUpProject
     (map snd (before (exports_run Sample.calm Scene.keeping_config None)
               ++ after (exports_run Sample.calm Scene.keeping_config None)))
  /\ EnterCleanUpProject <> ShellPopd.
Proof.
  assert (H : In EnterCleanUpProject
                (map snd (before (exports_run Sample.calm Scene.keeping_config None)
                          ++ after (exports_run Sample.calm Scene.keeping_config None))))
    by (vm_compute; auto 40).
  split; [exact H |].
  exact (proj1 (cleanup_off_keeps_the_project Sample.calm Scene.keeping_config None
                  _ eq_refl H)).
Defined.

(** ** A temporary directory that cannot be made *)

(** X16. When [tmp.dirSync()] throws on a runner that has no folder yet and
    the configuration is accepted, the outcome of [run] depends on the
    cleanup policy: with the policy off, the promise is rejected with what
    [tmp.dirSync()] threw; with the policy on, [cleanUpProject] reads the
    name of the folder that is still null, and the promise is rejected with
    the TypeError instead. *)
Theorem failed_dirSync_and_the_cleanup_policy :
  forall (w : World) (st : State) (e : JsValue),
    tempFolder (self st) = None ->
    raises w TmpDirSync = Some e ->
    fst (checkSauceRequirements w st) = Ok tt ->
    fst (run w st)
    = PromiseOf (Throw (if getShouldCleanUpAfterRun (config (self st))
                        then TypeError "Cannot read property 'name' of null"
                        else e)).
Proof.
  intros w st e Hfolder Hraise Hcheck. unfold run.
  pose proof (checkSauceRequirements_state w st) as Hsame.
  destruct (checkSauceRequirements w st) as [rc stc]; simpl in *; subst rc stc.
  unfold fin, pipeline, run_provision, createTempProject.
  unfold bind at 1. unfold bind at 1. unfold bind at 1. unfold call at 1.
  rewrite Hraise.
  unfold cleanUpProject, tempFolder_name, bind, emit, get_config, get_self, throw, ret.
  cbn [self record config].
  destruct (getShouldCleanUpAfterRun (config (self st)));
    cbn [self record]; [rewrite Hfolder |]; reflexivity.
Qed.

Lemma failed_dirSync_witness :
  fst (run Sample.no_tmp (Sample.fresh (Sample.local_config "run" 3600000)))
  = PromiseOf (Throw (TypeError "Cannot read property 'name' of null")).
Proof.
  exact (failed_dirSync_and_the_cleanup_policy Sample.no_tmp
           (Sample.fresh (Sample.local_config "run" 3600000))
           (Error "ENOSPC: no space left on device") eq_refl eq_refl eq_refl).
Defined.

(** ** Results reported while the watchdog runs *)

Lemma waitForConnection_connected (st : State) (srv : Server) :
  server (self st) = Some srv ->
  isDeviceConnected srv (now st + 300000) = true ->
  exists st1,
    waitForConnection st = (Ok VUndefined, st1)
    /\ self st1 = self st
    /\ now st1 = now st + 300000.
Proof.
  intros Hsrv Hconn.
  unfold waitForConnection, waitForConnection_arm, waitForConnection_callback.
  unfold bind, get_self, get_now, emit, sleep, ret, throw.
  cbn [self now record]. rewrite Hsrv. cbn [self now record].
  change (timer_delay INITIAL_CONNECTION_TIMEOUT) with 300000.
  rewrite Hconn. cbn [negb]. eexists. split; [reflexivity |]. split; reflexivity.
Qed.

(** X17. The listeners of [waitForTests] are installed only when the
    watchdog has expired.  On the chain
    [waitForConnection().then(waitForTests)]: if the device is connected at
    expiry and every 'jasmineDone' and 'disconnect' of the server was
    emitted before the expiry (300000 ms after the call), none of them is
    seen and the chain never settles. *)
Theorem results_during_the_watchdog_are_missed :
  forall (st : State) (srv : Server),
    server (self st) = Some srv ->
    isDeviceConnected srv (now st + 300000) = true ->
    Forall (cannot_settle (now st + 300000)) (emitted srv) ->
    fst ((waitForConnection ;; waitForTests) st) = Hang.
Proof.
  intros st srv Hsrv Hconn Hev.
  destruct (waitForConnection_connected st srv Hsrv Hconn) as [st1 [Hrun [Hself Hnow]]].
  rewrite (bind_ok _ _ _ _ _ Hrun).
  rewrite (waitForTests_unfold st1 srv) by now rewrite Hself.
  rewrite Hnow. now apply await_events_pending.
Qed.

Lemma results_during_the_watchdog_witness :
  fst ((waitForConnection ;; waitForTests)
         (Sample.attached (Sample.sauce_config "android" "run" 3600000)
            Scene.quick_server 28100))
  = Hang.
Proof.
  apply (results_during_the_watchdog_are_missed
           (Sample.attached (Sample.sauce_config "android" "run" 3600000)
              Scene.quick_server 28100)
           Scene.quick_server eq_refl eq_refl).
  apply Forall_cons; [left; left; simpl; lia |].
  apply Forall_cons; [left; left; simpl; lia | apply Forall_nil].
Defined.

(** ** The watchdog the local branch leaves behind *)

(** X18. Local mode with action 'run' or 'emulate', the command succeeds:
    the success handler arms the watchdog, throws the ReferenceError and
    leaves the timer armed, since nothing clears it.  [runTests] is rejected
    at the instant the command is done, and 300000 ms later the server is
    still asked whether a device is connected, with nobody waiting for the
    answer. *)
Theorem abandoned_watchdog_still_fires :
  forall (w : World) (st : State) (srv : Server) (d : N) (code : JsValue),
    let cmd := getCommandForStartingTests (config (self st)) in
    shouldUseSauce (config (self st)) = false ->
    shouldWaitForTestResult (config (self st)) = true ->
    server (self st) = Some srv ->
    raises w (ExecPromise cmd) = None ->
    execPromise w cmd = After d (inl code) ->
    runTests w st
    = (Throw (ReferenceError "reject is not defined"),
       {| self := self st;
          now := now st + Z.of_N d;
          trace := trace st
                     ++ [ (now st, Log LNormal ("cordova-paramedic: running command " +++ cmd));
                          (now st, ExecPromise cmd);
                          (now st + Z.of_N d, SetTimeout 300000);
                          (now st + Z.of_N d + 300000, QueryDeviceConnected) ] |}).
Proof.
  intros w st srv d code cmd Hsauce Hwait Hsrv Hraises Hexec.
  unfold runTests, runTests_onSuccess, logger, waitForConnection_arm,
    waitForConnection_callback.
  change (read_identifier handler_scope "reject")
    with (@throw unit (ReferenceError "reject is not defined")).
  unfold then2, detach, await, bind, call, emit, sleep, lift, get_config, get_self, get_now,
    ret, throw, record.
  cbn [self now trace config fst snd]. rewrite Hsauce. fold cmd.
  rewrite Hraises, Hexec. cbn [self now trace config fst snd].
  rewrite Hwait. cbn [self now trace config fst snd].
  rewrite Hsrv. cbn [self now trace config fst snd].
  change (timer_delay INITIAL_CONNECTION_TIMEOUT) with 300000.
  change INITIAL_CONNECTION_TIMEOUT with 300000.
  destruct (negb (isDeviceConnected srv (now st + Z.of_N d + 300000)));
    cbn [self now trace]; rewrite <- !app_assoc; reflexivity.
Qed.

Lemma abandoned_watchdog_witness :
  let c := Sample.local_config "run" 3600000 in
  let rep := exports_run Sample.calm c None in
  map snd (trace (snd (runTests Sample.calm (Scene.in_project c Sample.device_server 100))))
  = [ Log LNormal "cordova-paramedic: running command cordova run android";
      ExecPromise "cordova run android";
      SetTimeout 300000;
      QueryDeviceConnected ]
  /\ delivery rep = Rejects 20100 (ReferenceError "reject is not defined")
  /\ after rep = [(320100, QueryDeviceConnected)].
Proof.
  intros c rep.
  split; [| split; vm_compute; reflexivity].
  rewrite (abandoned_watchdog_still_fires Sample.calm
             (Scene.in_project c Sample.device_server 100)
             Sample.device_server 20000%N (VNum 0) eq_refl eq_refl eq_refl eq_refl eq_refl).
  reflexivity.
Defined.
